(** * useTransactions: the transaction cache hook of the budgeting client

    A shallow embedding of [src/hooks/useTransactions.ts].  The hook keeps an
    in-memory list of transaction rows, derives income / expense / balance
    totals from it, reacts to currency-change events and talks to a remote
    store (Supabase) for fetch, insert, update and delete.

    Conventions of the embedding.
    - A JavaScript [number] is an IEEE 754 binary64 value: Rocq's primitive
      [float], with [PrimFloat.add], [sub] and [mul] for [+], [-] and [*].
    - React state ([useState]) is a record threaded through a small monad;
      every setter of the source is used either with a constant or with a
      functional updater, so applying it to the current record is exact.
    - The remote store is outside the file: each awaited request is answered
      by an oracle of the environment, which either resolves with the
      [{data, error}] pair of the client library or rejects.  The requests
      issued and the console / toast calls are recorded in a trace. *)

From Stdlib Require Import ZArith List String Ascii Bool Lia Floats.
From Stdlib Require Import QArith Qround Qpower Qabs Lqa.
From Stdlib Require Import DecimalString Permutation.
Import ListNotations.

Local Open Scope string_scope.
Local Open Scope Z_scope.

(** ** Platform functions used by the hook *)

Module JS.

(** [Number(x)] applied to a value that already is a number. *)
Definition Number (x : float) : float := x.

(** Values that can be thrown and caught. *)
Inductive js_error : Type :=
| StoreError (message : string)
| TypeError (message : string)
| RangeError (message : string)
| Rejection (reason : string).

(** *** Strings *)

(** [s.split(sep)] for a one-character separator. *)
Fixpoint split (sep : ascii) (s : string) : list string :=
  match s with
  | EmptyString => [EmptyString]
  | String c rest =>
      if Ascii.eqb c sep then EmptyString :: split sep rest
      else match split sep rest with
           | [] => [String c EmptyString]
           | piece :: pieces => String c piece :: pieces
           end
  end.

(** Whether character [c] occurs in [s]. *)
Fixpoint occurs (c : ascii) (s : string) : bool :=
  match s with
  | EmptyString => false
  | String a rest => Ascii.eqb a c || occurs c rest
  end.

(** Decimal digits of a natural number, without leading zeros. *)
Definition digits (n : Z) : string :=
  NilZero.string_of_uint (N.to_uint (Z.to_N n)).

Fixpoint zeros (k : nat) : string :=
  match k with
  | O => EmptyString
  | S k' => String "0" (zeros k')
  end.

(** Digits of [n] left-padded with zeros to [width] characters. *)
Definition pad (width : nat) (n : Z) : string :=
  let d := digits n in
  zeros (width - String.length d)%nat ++ d.

(** *** Dates

    A [Date] object holds a time value: milliseconds since the epoch (UTC),
    or NaN, the "Invalid Date". *)
Inductive Date : Type :=
| TimeValue (t : Z)
| InvalidDate.

Definition msPerDay : Z := 86400000.
Definition maxTimeValue : Z := 8640000000000000.

Definition Day (t : Z) : Z := t / msPerDay.
Definition TimeWithinDay (t : Z) : Z := t mod msPerDay.

(** Proleptic Gregorian (year, month, day) of a day number counted from
    1970-01-01; months and days count from 1. *)
Definition civil_from_days (z : Z) : Z * Z * Z :=
  let z := z + 719468 in
  let era := z / 146097 in
  let doe := z - era * 146097 in
  let yoe := (doe - doe / 1460 + doe / 36524 - doe / 146096) / 365 in
  let y := yoe + era * 400 in
  let doy := doe - (365 * yoe + yoe / 4 - yoe / 100) in
  let mp := (5 * doy + 2) / 153 in
  let d := doy - (153 * mp + 2) / 5 + 1 in
  let m := if mp <? 10 then mp + 3 else mp - 9 in
  (if m <=? 2 then y + 1 else y, m, d).

(** The year field of the ISO format: four digits for years 0 to 9999, a
    sign and six digits otherwise. *)
Definition isoYear (y : Z) : string :=
  if (0 <=? y) && (y <=? 9999) then pad 4 y
  else if y <? 0 then "-" ++ pad 6 (- y)
  else "+" ++ pad 6 y.

(** [d.toISOString()]: throws a RangeError on an invalid date. *)
Definition toISOString (d : Date) : js_error + string :=
  match d with
  | InvalidDate => inl (RangeError "Invalid time value")
  | TimeValue t =>
      if (- maxTimeValue <=? t) && (t <=? maxTimeValue) then
        let '(y, m, dd) := civil_from_days (Day t) in
        let w := TimeWithinDay t in
        inr (isoYear y ++ "-" ++ pad 2 m ++ "-" ++ pad 2 dd ++ "T"
             ++ pad 2 (w / 3600000) ++ ":" ++ pad 2 (w / 60000 mod 60) ++ ":"
             ++ pad 2 (w / 1000 mod 60) ++ "." ++ pad 3 (w mod 1000) ++ "Z")
      else inl (RangeError "Invalid time value")
  end.

(** *** Numbers as decimals

    The number formatter does not round the binary value of a double: it
    first takes the shortest decimal that reads back as the double (the
    digits [Number.prototype.toString] prints) and rounds that decimal.
    A positive finite double is [m * 2^e]. *)

(** [b^k] for any integer [k]. *)
Definition pow (b : Z) (k : Z) : Q :=
  if 0 <=? k then inject_Z (b ^ k) else Qinv (inject_Z (b ^ (- k))).

Definition doubleValue (m : positive) (e : Z) : Q :=
  (inject_Z (Z.pos m) * pow 2 e)%Q.

(** The reals that round to [m * 2^e] lie between the midpoints to its
    neighbours.  The next double is [(m + 1) * 2^e]; the previous one is
    [(m - 1) * 2^e], except below a power of two, where the doubles are
    twice as dense. *)
Definition upperBound (m : positive) (e : Z) : Q :=
  (inject_Z (2 * Z.pos m + 1) * pow 2 (e - 1))%Q.

Definition lowerBound (m : positive) (e : Z) : Q :=
  if (Z.pos m =? 2 ^ 52) && (-1074 <? e)
  then (inject_Z (4 * Z.pos m - 1) * pow 2 (e - 2))%Q
  else (inject_Z (2 * Z.pos m - 1) * pow 2 (e - 1))%Q.

Definition Qlt_bool (a b : Q) : bool := negb (Qle_bool b a).

(** Whether the real [d] rounds to [m * 2^e] (to nearest, ties to the even
    mantissa: the midpoints belong to the doubles with an even [m]). *)
Definition readsBack (m : positive) (e : Z) (d : Q) : bool :=
  if Z.even (Z.pos m)
  then Qle_bool (lowerBound m e) d && Qle_bool d (upperBound m e)
  else Qlt_bool (lowerBound m e) d && Qlt_bool d (upperBound m e).

(** The decimal [coefficient * 10^exponent10]. *)
Record decimal : Type := { coefficient : Z; exponent10 : Z }.

Definition decimalValue (d : decimal) : Q :=
  (inject_Z (coefficient d) * pow 10 (exponent10 d))%Q.

(** The multiple of [10^p] that reads back as [m * 2^e] and is nearest to
    it, when there is one: only the multiples just below and just above
    the double can be. *)
Definition candidate (m : positive) (e : Z) (p : Z) : option decimal :=
  let x := doubleValue m e in
  let c := Qfloor (x * pow 10 (- p)) in
  let below := {| coefficient := c; exponent10 := p |} in
  let above := {| coefficient := c + 1; exponent10 := p |} in
  match (1 <=? c) && readsBack m e (decimalValue below),
        readsBack m e (decimalValue above) with
  | true, true =>
      match Qcompare (x - decimalValue below) (decimalValue above - x) with
      | Lt => Some below
      | Gt => Some above
      | Eq => Some (if Z.even c then below else above)
      end
  | true, false => Some below
  | false, true => Some above
  | false, false => None
  end.

(** The double written out in full. *)
Definition exactDecimal (m : positive) (e : Z) : decimal :=
  if 0 <=? e then {| coefficient := Z.pos m * 2 ^ e; exponent10 := 0 |}
  else {| coefficient := Z.pos m * 5 ^ (- e); exponent10 := e |}.

(** The search runs from exponent [p] downwards: fewer digits first. *)
Fixpoint shortestFrom (fuel : nat) (m : positive) (e : Z) (p : Z) : decimal :=
  match fuel with
  | O => exactDecimal m e
  | S fuel' =>
      match candidate m e p with
      | Some d => d
      | None => shortestFrom fuel' m e (p - 1)
      end
  end.

(** A power of ten above the double: [m * 2^e < 2^k] for
    [k = e + log2 m + 1], and [2^3 < 10 < 2^4]. *)
Definition startExponent (m : positive) (e : Z) : Z :=
  let k := e + Z.log2 (Z.pos m) + 1 in
  if 0 <=? k then k / 3 + 1 else - ((- k) / 4).

(** The shortest decimal that reads back as [m * 2^e].  At exponent
    [min e 0] the double itself is a multiple of the power of ten, so the
    search ends there at the latest. *)
Definition shortestDecimal (m : positive) (e : Z) : decimal :=
  shortestFrom (S (Z.to_nat (startExponent m e - Z.min e 0))) m e
    (startExponent m e).

(** A decimal in hundredths, rounded to the nearest integer, ties away
    from zero (the default rounding mode, "halfExpand"). *)
Definition hundredths (d : decimal) : Z :=
  Qfloor (decimalValue d * inject_Z 100 + (1 # 2))%Q.

(** *** Locale-sensitive number formatting

    [x.toLocaleString(undefined, { minimumFractionDigits: 2,
    maximumFractionDigits: 2 })] formats with the default locale of the host.
    The part of the locale data that decides the result is kept in a
    record; the digits are the Latin digits (locales whose numbering system
    is "latn"). *)
Record Locale : Type := {
  decimalSeparator : string;
  groupSeparator : string;
  primaryGroupSize : nat;
  secondaryGroupSize : nat;
  minimumGroupingDigits : nat;
  minusSign : string;
  nanSymbol : string;
  infinitySymbol : string
}.

Definition en_US : Locale :=
  {| decimalSeparator := "."; groupSeparator := ","; primaryGroupSize := 3;
     secondaryGroupSize := 3; minimumGroupingDigits := 1;
     minusSign := "-"; nanSymbol := "NaN"; infinitySymbol := "∞" |}.

Definition de_DE : Locale :=
  {| decimalSeparator := ","; groupSeparator := "."; primaryGroupSize := 3;
     secondaryGroupSize := 3; minimumGroupingDigits := 1;
     minusSign := "-"; nanSymbol := "NaN"; infinitySymbol := "∞" |}.

Definition en_IN : Locale :=
  {| decimalSeparator := "."; groupSeparator := ","; primaryGroupSize := 3;
     secondaryGroupSize := 2; minimumGroupingDigits := 1;
     minusSign := "-"; nanSymbol := "NaN"; infinitySymbol := "∞" |}.

(** Swedish: a space between groups and the minus sign U+2212. *)
Definition sv_SE : Locale :=
  {| decimalSeparator := ","; groupSeparator := " "; primaryGroupSize := 3;
     secondaryGroupSize := 3; minimumGroupingDigits := 1;
     minusSign := "−"; nanSymbol := "NaN"; infinitySymbol := "∞" |}.

(** Group separators are inserted from the least significant digit:
    [ds] holds the digits still to place, least significant first, and [k]
    the number of digits the current group can still take. *)
Fixpoint group_rev (sep_rev : list ascii) (size : nat) (k : nat)
  (ds : list ascii) : list ascii :=
  match ds with
  | [] => []
  | d :: rest =>
      match k with
      | O => (sep_rev ++ d :: group_rev sep_rev size (size - 1)%nat rest)%list
      | S k' => d :: group_rev sep_rev size k' rest
      end
  end.

Definition groupDigits (L : Locale) (ds : string) : string :=
  if (primaryGroupSize L + minimumGroupingDigits L <=? String.length ds)%nat then
    string_of_list_ascii
      (rev (group_rev (rev (list_ascii_of_string (groupSeparator L)))
              (secondaryGroupSize L) (primaryGroupSize L)
              (rev (list_ascii_of_string ds))))
  else ds.

Definition signString (L : Locale) (negative : bool) : string :=
  if negative then minusSign L else "".

(** [n] hundredths with two fraction digits. *)
Definition fixed2 (L : Locale) (negative : bool) (n : Z) : string :=
  signString L negative ++ groupDigits L (digits (n / 100))
  ++ decimalSeparator L ++ pad 2 (n mod 100).

Definition toLocaleString2 (L : Locale) (x : float) : string :=
  match Prim2SF x with
  | S754_nan => nanSymbol L
  | S754_infinity s => signString L s ++ infinitySymbol L
  | S754_zero s => fixed2 L s 0
  | S754_finite s m e => fixed2 L s (hundredths (shortestDecimal m e))
  end.

End JS.

(** ** Data model *)

(** The literal union ['income' | 'expense']. *)
Inductive TransactionType : Type := Income | Expense.

Definition typeName (t : TransactionType) : string :=
  match t with Income => "income" | Expense => "expense" end.

Definition isIncome (t : TransactionType) : bool :=
  match t with Income => true | Expense => false end.

Definition isExpense (t : TransactionType) : bool :=
  match t with Income => false | Expense => true end.

(** A row of the [transactions] table as the cache holds it.  The interface
    of the source has no [displayAmount]; the hook adds the property to every
    object it caches, so the field is optional here. *)
Record Transaction : Type := {
  id : string;
  user_id : string;
  type : TransactionType;
  amount : float;
  category : string;
  description : option string;
  transaction_date : string;
  created_at : string;
  displayAmount : option float
}.

(** [{ ...tx, displayAmount: v }] *)
Definition withDisplayAmount (tx : Transaction) (v : float) : Transaction :=
  {| id := id tx; user_id := user_id tx; type := type tx; amount := amount tx;
     category := category tx; description := description tx;
     transaction_date := transaction_date tx; created_at := created_at tx;
     displayAmount := Some v |}.

(** [Omit<Transaction, 'id' | 'user_id' | 'created_at'>] *)
Module NewTransaction.
Record t : Type := {
  type : TransactionType;
  amount : float;
  category : string;
  description : option string;
  transaction_date : string
}.
End NewTransaction.

(** [Partial<Omit<Transaction, 'id' | 'user_id' | 'created_at'>>] *)
Module Updates.
Record t : Type := {
  type : option TransactionType;
  amount : option float;
  category : option string;
  description : option (option string);
  transaction_date : option string
}.
End Updates.

Module Auth.
Record User : Type := { id : string }.
End Auth.

Record Currency : Type := { code : string; symbol : string }.

Record DateRange : Type := { start : option JS.Date; end_ : option JS.Date }.

(** The [detail] of a [currency-change] event. *)
Module Detail.
Record t : Type := { code : string; symbol : string; conversionRate : float }.
End Detail.

(** A template literal whose numeric holes are kept as numbers. *)
Inductive piece : Type :=
| Lit (s : string)
| Num (x : float).

Module ActivityLog.
Record t : Type := {
  user_id : string;
  activity_type : string;
  description : list piece
}.
End ActivityLog.

(** ** The remote store client *)

Module Supabase.

Inductive filter : Type :=
| FEq (column value : string)
| FGte (column value : string)
| FLte (column value : string).

Record query : Type := {
  table : string;
  columns : option string;
  ordering : option (string * bool);
  filters : list filter
}.

Definition from (t : string) : query :=
  {| table := t; columns := None; ordering := None; filters := [] |}.

Definition select (cols : string) (q : query) : query :=
  {| table := table q; columns := Some cols; ordering := ordering q;
     filters := filters q |}.

(** [.order(column, { ascending })] *)
Definition order (column : string) (ascending : bool) (q : query) : query :=
  {| table := table q; columns := columns q;
     ordering := Some (column, ascending); filters := filters q |}.

Definition addFilter (f : filter) (q : query) : query :=
  {| table := table q; columns := columns q; ordering := ordering q;
     filters := (filters q ++ [f])%list |}.

Definition gte (column value : string) : query -> query :=
  addFilter (FGte column value).

Definition lte (column value : string) : query -> query :=
  addFilter (FLte column value).

Inductive row_values : Type :=
| TransactionValues (fields : NewTransaction.t) (user_id : string)
| ActivityValues (entry : ActivityLog.t).

(** The requests the hook awaits.  [returning] tells whether [.select()]
    was chained to a mutation. *)
Inductive request : Type :=
| Select (q : query)
| Insert (table : string) (values : row_values) (returning : bool)
| Update (table : string) (values : Updates.t) (filters : list filter)
    (returning : bool)
| Delete (table : string) (filters : list filter).

Definition isWrite (r : request) : bool :=
  match r with
  | Select _ => false
  | _ => true
  end.

(** What an awaited request resolves to. *)
Record response : Type := {
  data : option (list Transaction);
  error : option JS.js_error
}.

Inductive awaited : Type :=
| Resolved (r : response)
| Rejected (e : JS.js_error).

(** The store reports a failure either in the [error] field of the resolved
    value or by rejecting the promise. *)
Definition reportsFailure (a : awaited) : bool :=
  match a with
  | Resolved r => match error r with Some _ => true | None => false end
  | Rejected _ => true
  end.

End Supabase.

(** ** The hook's state, environment and effects *)

Record State : Type := {
  transactions : list Transaction;
  loading : bool;
  dateRange : DateRange;
  currentCurrency : Currency
}.

(** [useState] initial values. *)
Definition initialState : State :=
  {| transactions := []; loading := true;
     dateRange := {| start := None; end_ := None |};
     currentCurrency := {| code := "USD"; symbol := "$" |} |}.

(** What the hook reads from outside: the identity of [useAuth], the
    answers of the remote store and the default locale of the host. *)
Record Env : Type := {
  user : option Auth.User;
  remote : Supabase.request -> Supabase.awaited;
  defaultLocale : JS.Locale
}.

Inductive effect : Type :=
| Request (r : Supabase.request)
| ConsoleError (label : string) (e : JS.js_error)
| ToastError (message : string) (className : option string)
| ToastSuccess (message : string) (className : option string).

Definition isRemoteWrite (e : effect) : bool :=
  match e with
  | Request r => Supabase.isWrite r
  | _ => false
  end.

Inductive completion (A : Type) : Type :=
| Normal (a : A)
| Throw (e : JS.js_error).

Arguments Normal {A} a.
Arguments Throw {A} e.

(** The result of running a piece of the hook: how it completed, the state
    it left and the effects it performed, oldest first. *)
Record outcome (A : Type) : Type := {
  result : completion A;
  final : State;
  trace : list effect
}.

Arguments result {A} o.
Arguments final {A} o.
Arguments trace {A} o.

Definition M (A : Type) : Type := Env -> State -> outcome A.

Definition ret {A : Type} (a : A) : M A :=
  fun _ s => {| result := Normal a; final := s; trace := [] |}.

Definition throw {A : Type} (e : JS.js_error) : M A :=
  fun _ s => {| result := Throw e; final := s; trace := [] |}.

(** The effects [t] happened before those of [o]. *)
Definition after {A : Type} (t : list effect) (o : outcome A) : outcome A :=
  match o with
  | {| result := c; final := s; trace := t' |} =>
      {| result := c; final := s; trace := (t ++ t')%list |}
  end.

Definition bind {A B : Type} (m : M A) (k : A -> M B) : M B :=
  fun env s =>
    match m env s with
    | {| result := c; final := s1; trace := t1 |} =>
        match c with
        | Normal a => after t1 (k a env s1)
        | Throw e => {| result := Throw e; final := s1; trace := t1 |}
        end
    end.

Notation "x <- c1 ;; c2" := (bind c1 (fun x => c2))
  (at level 61, c1 at next level, right associativity).
Notation "c1 ;; c2" := (bind c1 (fun _ => c2))
  (at level 61, right associativity).

(** [try { body } catch (error) { handler error }] *)
Definition tryCatch {A : Type} (body : M A) (handler : JS.js_error -> M A)
  : M A :=
  fun env s =>
    match body env s with
    | {| result := c; final := s1; trace := t1 |} =>
        match c with
        | Normal a => {| result := Normal a; final := s1; trace := t1 |}
        | Throw e => after t1 (handler e env s1)
        end
    end.

(** [try { body } finally { cleanup }] *)
Definition tryFinally {A : Type} (body : M A) (cleanup : M unit) : M A :=
  fun env s =>
    match body env s with
    | {| result := c; final := s1; trace := t1 |} =>
        match cleanup env s1 with
        | {| result := c'; final := s2; trace := t2 |} =>
            {| result := match c' with
                         | Normal _ => c
                         | Throw e => Throw e
                         end;
               final := s2; trace := (t1 ++ t2)%list |}
        end
    end.

Definition useAuth : M (option Auth.User) :=
  fun env s => {| result := Normal (user env); final := s; trace := [] |}.

Definition getState : M State :=
  fun _ s => {| result := Normal s; final := s; trace := [] |}.

Definition perform (e : effect) : M unit :=
  fun _ s => {| result := Normal tt; final := s; trace := [e] |}.

(** [await request]: the request is issued, then the promise either
    resolves to a [{data, error}] pair or rejects, which throws. *)
Definition await (r : Supabase.request) : M Supabase.response :=
  fun env s =>
    {| result := match remote env r with
                 | Supabase.Resolved v => Normal v
                 | Supabase.Rejected e => Throw e
                 end;
       final := s; trace := [Request r] |}.

(** A platform call that returns a value or throws. *)
Definition lift {A : Type} (v : JS.js_error + A) : M A :=
  match v with
  | inl e => throw e
  | inr a => ret a
  end.

Definition setTransactions (f : list Transaction -> list Transaction)
  : M unit :=
  fun _ s =>
    {| result := Normal tt;
       final := {| transactions := f (transactions s); loading := loading s;
                   dateRange := dateRange s;
                   currentCurrency := currentCurrency s |};
       trace := [] |}.

Definition setLoading (b : bool) : M unit :=
  fun _ s =>
    {| result := Normal tt;
       final := {| transactions := transactions s; loading := b;
                   dateRange := dateRange s;
                   currentCurrency := currentCurrency s |};
       trace := [] |}.

Definition setCurrentCurrency (c : Currency) : M unit :=
  fun _ s =>
    {| result := Normal tt;
       final := {| transactions := transactions s; loading := loading s;
                   dateRange := dateRange s; currentCurrency := c |};
       trace := [] |}.

Definition setDateRange (r : DateRange) : M unit :=
  fun _ s =>
    {| result := Normal tt;
       final := {| transactions := transactions s; loading := loading s;
                   dateRange := r; currentCurrency := currentCurrency s |};
       trace := [] |}.

(** What an async function of the hook hands back to its caller. *)
Inductive returned (A : Type) : Type :=
| Undefined
| Null
| Value (a : A).

Arguments Undefined {A}.
Arguments Null {A}.
Arguments Value {A} a.

(** ** The hook *)

(** JavaScript truthiness of a number: [0], [-0] and [NaN] are falsy. *)
Definition truthy (x : float) : bool :=
  negb (PrimFloat.is_zero x || PrimFloat.is_nan x).

Record FinancialSummary : Type := {
  income : float;
  expenses : float;
  balance : float;
  formattedIncome : string;
  formattedExpenses : string;
  formattedBalance : string
}.

(** The memoised totals: a function of the cache, the active currency and,
    through [toLocaleString(undefined, ...)], the default locale. *)
Definition financialSummary (L : JS.Locale) (transactions : list Transaction)
  (currentCurrency : Currency) : FinancialSummary :=
  let income :=
    fold_left (fun sum t => (sum + JS.Number (amount t))%float)
      (filter (fun t => isIncome (type t)) transactions) 0%float in
  let expenses :=
    fold_left (fun sum t => (sum + JS.Number (amount t))%float)
      (filter (fun t => isExpense (type t)) transactions) 0%float in
  let balance := (income - expenses)%float in
  {| income := income;
     expenses := expenses;
     balance := balance;
     formattedIncome := symbol currentCurrency ++ JS.toLocaleString2 L income;
     formattedExpenses :=
       symbol currentCurrency ++ JS.toLocaleString2 L expenses;
     formattedBalance :=
       symbol currentCurrency ++ JS.toLocaleString2 L balance |}.

Definition getTransactionSummary (env : Env) (s : State) : FinancialSummary :=
  financialSummary (defaultLocale env) (transactions s) (currentCurrency s).

(** The listener of the [currency-change] event, for an event that carries
    a [detail] with the three fields (the source destructures [e.detail]
    without a guard; an event without one is outside this definition). *)
Definition handleCurrencyChange (detail : Detail.t) : M unit :=
  setCurrentCurrency
    {| code := Detail.code detail; symbol := Detail.symbol detail |} ;;
  setTransactions (fun prevTx =>
    map (fun tx =>
           withDisplayAmount tx
             (JS.Number (amount tx) * Detail.conversionRate detail)%float)
        prevTx).

(** [date.toISOString().split('T')[0]] *)
Definition datePortion (d : JS.Date) : M string :=
  iso <- lift (JS.toISOString d) ;;
  ret (nth 0 (JS.split "T"%char iso) "").

(** [data[0]] followed by a property read: a TypeError when [data] is null
    or holds no row. *)
Definition firstRow (data : option (list Transaction)) : M Transaction :=
  match data with
  | None => throw (JS.TypeError "Cannot read properties of null")
  | Some [] => throw (JS.TypeError "Cannot read properties of undefined")
  | Some (row :: _) => ret row
  end.

(** [if (error) throw error;] *)
Definition throwIfError (r : Supabase.response) : M unit :=
  match Supabase.error r with
  | Some e => throw e
  | None => ret tt
  end.

Definition fetchTransactions : M unit :=
  user <- useAuth ;;
  match user with
  | None => ret tt
  | Some _ =>
      s <- getState ;;
      let dateRange := dateRange s in
      setLoading true ;;
      tryFinally
        (tryCatch
           (let query :=
              Supabase.order "transaction_date" false
                (Supabase.select "*" (Supabase.from "transactions")) in
            query <- match start dateRange with
                     | Some d =>
                         day <- datePortion d ;;
                         ret (Supabase.gte "transaction_date" day query)
                     | None => ret query
                     end ;;
            query <- match end_ dateRange with
                     | Some d =>
                         day <- datePortion d ;;
                         ret (Supabase.lte "transaction_date" day query)
                     | None => ret query
                     end ;;
            r <- await (Supabase.Select query) ;;
            throwIfError r ;;
            let processedData :=
              map (fun tx => withDisplayAmount tx (amount tx))
                (match Supabase.data r with Some rows => rows | None => [] end)
            in
            setTransactions (fun _ => processedData))
           (fun error =>
              perform (ConsoleError "Error fetching transactions:" error) ;;
              perform (ToastError "Failed to load transactions" None)))
        (setLoading false)
  end.

Definition successClass : option string :=
  Some "bg-green-100 text-green-800 border-green-200".

Definition failureClass : option string :=
  Some "bg-red-100 text-red-800 border-red-200".

Definition addTransaction (newTransaction : NewTransaction.t)
  : M (returned Transaction) :=
  user <- useAuth ;;
  match user with
  | None => ret Undefined
  | Some user =>
      tryCatch
        (r <- await (Supabase.Insert "transactions"
                       (Supabase.TransactionValues newTransaction
                          (Auth.id user)) true) ;;
         throwIfError r ;;
         await (Supabase.Insert "activity_logs"
                  (Supabase.ActivityValues
                     {| ActivityLog.user_id := Auth.id user;
                        ActivityLog.activity_type := "transaction";
                        ActivityLog.description :=
                          [Lit "Added new ";
                           Lit (typeName (NewTransaction.type newTransaction));
                           Lit ": ₹";
                           Num (NewTransaction.amount newTransaction);
                           Lit " - ";
                           Lit (NewTransaction.category newTransaction)] |})
                  false) ;;
         row <- firstRow (Supabase.data r) ;;
         let newTx := withDisplayAmount row (amount row) in
         setTransactions (fun prev => newTx :: prev) ;;
         perform (ToastSuccess
                    ((if isIncome (NewTransaction.type newTransaction)
                      then "Income" else "Expense") ++ " added successfully")
                    successClass) ;;
         ret (Value newTx))
        (fun error =>
           perform (ConsoleError "Error adding transaction:" error) ;;
           perform (ToastError "Failed to add transaction" failureClass) ;;
           ret Null)
  end.

Definition updateTransaction (id' : string) (updates : Updates.t)
  : M (returned Transaction) :=
  user <- useAuth ;;
  match user with
  | None => ret Undefined
  | Some user =>
      tryCatch
        (r <- await (Supabase.Update "transactions" updates
                       [Supabase.FEq "id" id'] true) ;;
         throwIfError r ;;
         await (Supabase.Insert "activity_logs"
                  (Supabase.ActivityValues
                     {| ActivityLog.user_id := Auth.id user;
                        ActivityLog.activity_type := "transaction";
                        ActivityLog.description :=
                          [Lit "Updated ";
                           Lit (match Updates.type updates with
                                | Some t => typeName t
                                | None => "transaction"
                                end);
                           Lit ": ₹";
                           match Updates.amount updates with
                           | Some a => if truthy a then Num a else Lit ""
                           | None => Lit ""
                           end] |})
                  false) ;;
         row <- firstRow (Supabase.data r) ;;
         let updatedTx := withDisplayAmount row (amount row) in
         setTransactions (fun prev =>
           map (fun transaction =>
                  if String.eqb (id transaction) id' then updatedTx
                  else transaction)
               prev) ;;
         perform (ToastSuccess "Transaction updated successfully"
                    successClass) ;;
         ret (Value updatedTx))
        (fun error =>
           perform (ConsoleError "Error updating transaction:" error) ;;
           perform (ToastError "Failed to update transaction" failureClass) ;;
           ret Null)
  end.

Definition deleteTransaction (id' : string) : M (returned bool) :=
  user <- useAuth ;;
  match user with
  | None => ret Undefined
  | Some user =>
      tryCatch
        (r <- await (Supabase.Delete "transactions"
                       [Supabase.FEq "id" id']) ;;
         throwIfError r ;;
         await (Supabase.Insert "activity_logs"
                  (Supabase.ActivityValues
                     {| ActivityLog.user_id := Auth.id user;
                        ActivityLog.activity_type := "transaction";
                        ActivityLog.description :=
                          [Lit "Deleted transaction"] |})
                  false) ;;
         setTransactions (fun prev =>
           filter (fun transaction =>
                     negb (String.eqb (id transaction) id')) prev) ;;
         perform (ToastSuccess "Transaction deleted successfully"
                    successClass) ;;
         ret (Value true))
        (fun error =>
           perform (ConsoleError "Error deleting transaction:" error) ;;
           perform (ToastError "Failed to delete transaction" failureClass) ;;
           ret (Value false))
  end.

(** ** Vocabulary of the specification *)

(** Sum of [amount] over the entries of kind [k], accumulated from zero in
    cache order (floating-point addition is not associative, so the order
    is part of the definition). *)
Fixpoint sumFrom (acc : float) (k : TransactionType)
  (cache : list Transaction) : float :=
  match cache with
  | [] => acc
  | t :: rest =>
      match k, type t with
      | Income, Income | Expense, Expense =>
          sumFrom (acc + amount t)%float k rest
      | _, _ => sumFrom acc k rest
      end
  end.

Definition sumOfKind (k : TransactionType) (cache : list Transaction)
  : float :=
  sumFrom 0%float k cache.

(** The calendar date (UTC) of a time value, as [YYYY-MM-DD]. *)
Definition utcDate (t : Z) : string :=
  let '(y, m, d) := JS.civil_from_days (JS.Day t) in
  JS.isoYear y ++ "-" ++ JS.pad 2 m ++ "-" ++ JS.pad 2 d.

(** A bound of the date range that [toISOString] accepts. *)
Definition usableBound (d : option JS.Date) : Prop :=
  match d with
  | None => True
  | Some (JS.TimeValue t) => - JS.maxTimeValue <= t <= JS.maxTimeValue
  | Some JS.InvalidDate => False
  end.

(** The filter a bound of the date range contributes. *)
Definition boundFilter (mk : string -> string -> Supabase.filter)
  (d : option JS.Date) : list Supabase.filter :=
  match d with
  | Some (JS.TimeValue t) => [mk "transaction_date" (utcDate t)]
  | _ => []
  end.

(** The query asks for the rows of owner [u] only. *)
Definition ownerFiltered (u : Auth.User) (q : Supabase.query) : Prop :=
  In (Supabase.FEq "user_id" (Auth.id u)) (Supabase.filters q).

Definition isRequest (e : effect) : bool :=
  match e with
  | Request _ => true
  | _ => false
  end.

(** The promise of a request settles by resolving. *)
Definition resolves (a : Supabase.awaited) : bool :=
  match a with
  | Supabase.Resolved _ => true
  | Supabase.Rejected _ => false
  end.

(** A mutation that succeeded and returned [row] first. *)
Definition returnsRow (a : Supabase.awaited) (row : Transaction) : Prop :=
  exists rest,
    a = Supabase.Resolved
          {| Supabase.data := Some (row :: rest); Supabase.error := None |}.

(** A request that resolved without an error. *)
Definition succeeds (a : Supabase.awaited) : Prop :=
  exists r, a = Supabase.Resolved r /\ Supabase.error r = None.

(** The requests of the three mutating operations. *)
Definition createRequest (u : Auth.User) (n : NewTransaction.t)
  : Supabase.request :=
  Supabase.Insert "transactions"
    (Supabase.TransactionValues n (Auth.id u)) true.

Definition updateRequest (id' : string) (updates : Updates.t)
  : Supabase.request :=
  Supabase.Update "transactions" updates [Supabase.FEq "id" id'] true.

Definition deleteRequest (id' : string) : Supabase.request :=
  Supabase.Delete "transactions" [Supabase.FEq "id" id'].

(** The audit-log entries that follow them. *)
Definition createAudit (u : Auth.User) (n : NewTransaction.t)
  : Supabase.request :=
  Supabase.Insert "activity_logs"
    (Supabase.ActivityValues
       {| ActivityLog.user_id := Auth.id u;
          ActivityLog.activity_type := "transaction";
          ActivityLog.description :=
            [Lit "Added new "; Lit (typeName (NewTransaction.type n));
             Lit ": ₹"; Num (NewTransaction.amount n); Lit " - ";
             Lit (NewTransaction.category n)] |})
    false.

Definition updateAudit (u : Auth.User) (updates : Updates.t)
  : Supabase.request :=
  Supabase.Insert "activity_logs"
    (Supabase.ActivityValues
       {| ActivityLog.user_id := Auth.id u;
          ActivityLog.activity_type := "transaction";
          ActivityLog.description :=
            [Lit "Updated ";
             Lit (match Updates.type updates with
                  | Some t => typeName t
                  | None => "transaction"
                  end);
             Lit ": ₹";
             match Updates.amount updates with
             | Some a => if truthy a then Num a else Lit ""
             | None => Lit ""
             end] |})
    false.

Definition deleteAudit (u : Auth.User) : Supabase.request :=
  Supabase.Insert "activity_logs"
    (Supabase.ActivityValues
       {| ActivityLog.user_id := Auth.id u;
          ActivityLog.activity_type := "transaction";
          ActivityLog.description := [Lit "Deleted transaction"] |})
    false.

Definition isAudit (r : Supabase.request) : bool :=
  match r with
  | Supabase.Insert table (Supabase.ActivityValues _) _ =>
      String.eqb table "activity_logs"
  | _ => false
  end.

(** State [s] with its cache replaced by [cache]. *)
Definition withTransactions (s : State) (cache : list Transaction) : State :=
  {| transactions := cache; loading := loading s; dateRange := dateRange s;
     currentCurrency := currentCurrency s |}.

(** Number of cached entries that carry identifier [id']. *)
Definition occurrences (id' : string) (cache : list Transaction) : nat :=
  List.length (filter (fun t => String.eqb (id t) id') cache).

Definition isFailureToast (e : effect) : bool :=
  match e with
  | ToastError _ _ => true
  | _ => false
  end.

Definition isSuccessToast (e : effect) : bool :=
  match e with
  | ToastSuccess _ _ => true
  | _ => false
  end.

(** ** Sample inputs *)

Definition alice : Auth.User := {| Auth.id := "user-1" |}.

Definition dollar : Currency := {| code := "USD"; symbol := "$" |}.

Definition salary : Transaction :=
  {| id := "tx-1"; user_id := "user-1"; type := Income; amount := 100%float;
     category := "salary"; description := None;
     transaction_date := "2024-01-03";
     created_at := "2024-01-03T09:00:00Z"; displayAmount := None |}.

Definition rent : Transaction :=
  {| id := "tx-2"; user_id := "user-1"; type := Expense; amount := 40%float;
     category := "rent"; description := Some "january";
     transaction_date := "2024-01-02";
     created_at := "2024-01-02T09:00:00Z"; displayAmount := None |}.

(** An income of 1.005: the double nearest to it lies below it. *)
Definition refund : Transaction :=
  {| id := "tx-4"; user_id := "user-1"; type := Income;
     amount := (1005 / 1000)%float; category := "refund";
     description := None; transaction_date := "2024-01-04";
     created_at := "2024-01-04T09:00:00Z"; displayAmount := None |}.

Definition lunch : NewTransaction.t :=
  {| NewTransaction.type := Expense; NewTransaction.amount := 25%float;
     NewTransaction.category := "food"; NewTransaction.description := None;
     NewTransaction.transaction_date := "2024-01-05" |}.

(** The row the store assigns to [lunch]. *)
Definition lunchRow : Transaction :=
  {| id := "tx-3"; user_id := "user-1"; type := Expense; amount := 25%float;
     category := "food"; description := None;
     transaction_date := "2024-01-05";
     created_at := "2024-01-05T12:00:00Z"; displayAmount := None |}.

Definition cheaper : Updates.t :=
  {| Updates.type := None; Updates.amount := Some 30%float;
     Updates.category := None; Updates.description := None;
     Updates.transaction_date := None |}.

Definition rentUpdated : Transaction :=
  {| id := "tx-2"; user_id := "user-1"; type := Expense; amount := 30%float;
     category := "rent"; description := Some "january";
     transaction_date := "2024-01-02";
     created_at := "2024-01-02T09:00:00Z"; displayAmount := None |}.

Definition euro : Detail.t :=
  {| Detail.code := "EUR"; Detail.symbol := "€";
     Detail.conversionRate := 0.5%float |}.

(** The first week of January 2024 (the bounds carry a time of day). *)
Definition firstWeek : DateRange :=
  {| start := Some (JS.TimeValue 1704105000000);
     end_ := Some (JS.TimeValue 1704670200000) |}.

(** The cache a fetch makes of [salary] and [rent]. *)
Definition shown : list Transaction :=
  [withDisplayAmount salary 100%float; withDisplayAmount rent 40%float].

Definition cached (rows : list Transaction) : State :=
  {| transactions := rows; loading := false;
     dateRange := {| start := None; end_ := None |};
     currentCurrency := dollar |}.

(** A store that answers every request with [rows] and no error. *)
Definition answering (rows : list Transaction)
  : Supabase.request -> Supabase.awaited :=
  fun _ =>
    Supabase.Resolved {| Supabase.data := Some rows; Supabase.error := None |}.

(** A store that reports an error for every request. *)
Definition refusing : Supabase.request -> Supabase.awaited :=
  fun _ =>
    Supabase.Resolved
      {| Supabase.data := None;
         Supabase.error := Some (JS.StoreError "permission denied") |}.

(** A store whose audit log reports an error in its answer while every
    other request succeeds with [rows]. *)
Definition auditRefusing (rows : list Transaction)
  : Supabase.request -> Supabase.awaited :=
  fun r => if isAudit r then refusing r else answering rows r.

(** A store whose audit-log promise rejects while every other request
    succeeds with [rows]. *)
Definition auditRejecting (rows : list Transaction)
  : Supabase.request -> Supabase.awaited :=
  fun r =>
    if isAudit r then Supabase.Rejected (JS.Rejection "Failed to fetch")
    else answering rows r.

Definition session (store : Supabase.request -> Supabase.awaited)
  (L : JS.Locale) : Env :=
  {| user := Some alice; remote := store; defaultLocale := L |}.

(** ** The effect that keeps the cache current *)

(** [useEffect(() => { if (user) fetchTransactions(); }, [user, dateRange])]:
    what runs after a render in which the identity or the date range
    changed. *)
Definition refetchEffect : M unit :=
  user <- useAuth ;;
  match user with
  | Some _ => fetchTransactions
  | None => ret tt
  end.

(** A caller selects a date range: [setDateRange] re-renders the hook and
    the effect above runs with the new range. *)
Definition selectDateRange (r : DateRange) : M unit :=
  setDateRange r ;;
  refetchEffect.

(** The currency listener run on a sequence of events, oldest first. *)
Fixpoint handleCurrencyChanges (events : list Detail.t) : M unit :=
  match events with
  | [] => ret tt
  | d :: rest => handleCurrencyChange d ;; handleCurrencyChanges rest
  end.

(** ** Further vocabulary *)

(** State [s] with its loading flag set to [b]. *)
Definition withLoading (s : State) (b : bool) : State :=
  {| transactions := transactions s; loading := b; dateRange := dateRange s;
     currentCurrency := currentCurrency s |}.

(** State [s] with its date range set to [r]. *)
Definition withDateRange (s : State) (r : DateRange) : State :=
  {| transactions := transactions s; loading := loading s; dateRange := r;
     currentCurrency := currentCurrency s |}.

(** The query of a fetch under date range [r]. *)
Definition fetchQuery (r : DateRange) : Supabase.query :=
  {| Supabase.table := "transactions";
     Supabase.columns := Some "*";
     Supabase.ordering := Some ("transaction_date", false);
     Supabase.filters :=
       (boundFilter Supabase.FGte (start r)
        ++ boundFilter Supabase.FLte (end_ r))%list |}.

(** The requests of a trace, oldest first. *)
Definition requestsOf (t : list effect) : list Supabase.request :=
  flat_map (fun e => match e with Request r => [r] | _ => [] end) t.

Definition isToast (e : effect) : bool :=
  isFailureToast e || isSuccessToast e.

Definition isConsoleError (e : effect) : bool :=
  match e with
  | ConsoleError _ _ => true
  | _ => false
  end.

(** The rows of an answer: [data || []]. *)
Definition rowsOf (r : Supabase.response) : list Transaction :=
  match Supabase.data r with
  | Some rows => rows
  | None => []
  end.

(** Every entry of the cache carries a [displayAmount]. *)
Definition displayed (cache : list Transaction) : Prop :=
  Forall (fun t => displayAmount t <> None) cache.

(** No entry of the cache has identifier [id']. *)
Definition uncached (id' : string) (cache : list Transaction) : Prop :=
  Forall (fun t => id t <> id') cache.

(** An answer without error and without a first row. *)
Definition noRow (a : Supabase.awaited) : Prop :=
  exists r,
    a = Supabase.Resolved r /\ Supabase.error r = None /\
    (Supabase.data r = None \/ Supabase.data r = Some []).

(** How a mutating operation ends in its catch block, after the requests
    [requests]: the sentinel is returned and the state is the one the
    operation started from. *)
Definition failed {A : Type} (sentinel : returned A) (s : State)
  (requests : list Supabase.request) (label message : string)
  (e : JS.js_error) : outcome (returned A) :=
  {| result := Normal sentinel; final := s;
     trace := (map Request requests
               ++ [ConsoleError label e; ToastError message failureClass])%list
  |}.

(** How a mutating operation ends on its success path. *)
Definition succeeded {A : Type} (v : A) (s' : State)
  (requests : list Supabase.request) (message : string)
  : outcome (returned A) :=
  {| result := Normal (Value v); final := s';
     trace := (map Request requests ++ [ToastSuccess message successClass])%list
  |}.

(** No identity: the hook of a signed-out visitor. *)
Definition signedOut (store : Supabase.request -> Supabase.awaited)
  (L : JS.Locale) : Env :=
  {| user := None; remote := store; defaultLocale := L |}.

(** A store that answers every request without error and without rows,
    as an update or insert whose row cannot be read back. *)
Definition rowless : Supabase.request -> Supabase.awaited :=
  fun _ =>
    Supabase.Resolved {| Supabase.data := Some []; Supabase.error := None |}.

(** A range whose end is not a date. *)
Definition brokenRange : DateRange :=
  {| start := Some (JS.TimeValue 1704105000000); end_ := Some JS.InvalidDate |}.

(** Three incomes of 0.1, 0.2 and 0.3 (the nearest binary64 numbers). *)
Definition tenth (k : float) (name : string) : Transaction :=
  {| id := name; user_id := "user-1"; type := Income;
     amount := (k / 10)%float; category := "tips"; description := None;
     transaction_date := "2024-01-04";
     created_at := "2024-01-04T09:00:00Z"; displayAmount := None |}.

(** ** Totals *)

Lemma income_fold_sumFrom (cache : list Transaction) (acc : float) :
  fold_left (fun sum t => (sum + JS.Number (amount t))%float)
    (filter (fun t => isIncome (type t)) cache) acc
  = sumFrom acc Income cache.
Proof.
  revert acc.
  induction cache as [|t rest IH]; intro acc; simpl; [reflexivity|].
  destruct (type t); simpl; apply IH.
Qed.

Lemma expense_fold_sumFrom (cache : list Transaction) (acc : float) :
  fold_left (fun sum t => (sum + JS.Number (amount t))%float)
    (filter (fun t => isExpense (type t)) cache) acc
  = sumFrom acc Expense cache.
Proof.
  revert acc.
  induction cache as [|t rest IH]; intro acc; simpl; [reflexivity|].
  destruct (type t); simpl; apply IH.
Qed.

Lemma income_sumOfKind L cache X :
  income (financialSummary L cache X) = sumOfKind Income cache.
Proof. apply income_fold_sumFrom. Qed.

Lemma expenses_sumOfKind L cache X :
  expenses (financialSummary L cache X) = sumOfKind Expense cache.
Proof. apply expense_fold_sumFrom. Qed.

(** The totals read [type] and [amount] only. *)
Lemma sumFrom_ext (k : TransactionType) (c c' : list Transaction) :
  Forall2 (fun a b => type a = type b /\ amount a = amount b) c c' ->
  forall acc, sumFrom acc k c = sumFrom acc k c'.
Proof.
  induction 1 as [|a b c c' [Ht Ha] _ IH]; intro acc; simpl; [reflexivity|].
  rewrite Ht, Ha. destruct k, (type b); apply IH.
Qed.

(** C3: for every cache and display currency, [income] is the sum of
    [amount] over the entries of kind income, [expenses] the sum over the
    entries of kind expense, and [balance] is [income - expenses]: the same
    number, which also compares equal under [==] unless it is NaN. *)
Theorem summary_totals (L : JS.Locale) (cache : list Transaction)
  (X : Currency) :
  income (financialSummary L cache X) = sumOfKind Income cache /\
  expenses (financialSummary L cache X) = sumOfKind Expense cache /\
  balance (financialSummary L cache X)
  = (income (financialSummary L cache X)
     - expenses (financialSummary L cache X))%float /\
  (PrimFloat.is_nan (balance (financialSummary L cache X)) = false ->
   PrimFloat.eqb (balance (financialSummary L cache X))
     (income (financialSummary L cache X)
      - expenses (financialSummary L cache X))%float = true).
Proof.
  split; [apply income_sumOfKind|].
  split; [apply expenses_sumOfKind|].
  split; [reflexivity|].
  intro Hnan. apply negb_false_iff in Hnan. exact Hnan.
Qed.

(** ** Currency change *)

Lemma handleCurrencyChange_run (d : Detail.t) (env : Env) (s : State) :
  handleCurrencyChange d env s
  = {| result := Normal tt;
       final :=
         {| transactions :=
              map (fun tx =>
                     withDisplayAmount tx
                       (amount tx * Detail.conversionRate d)%float)
                  (transactions s);
            loading := loading s;
            dateRange := dateRange s;
            currentCurrency :=
              {| code := Detail.code d; symbol := Detail.symbol d |} |};
       trace := [] |}.
Proof. reflexivity. Qed.

Lemma rescaled_pointwise (rate : float) (cache : list Transaction) :
  Forall2
    (fun old new =>
       displayAmount new = Some (amount old * rate)%float /\
       amount new = amount old /\
       new = withDisplayAmount old (amount old * rate)%float)
    cache
    (map (fun tx => withDisplayAmount tx (amount tx * rate)%float) cache).
Proof.
  induction cache as [|t rest IH]; simpl; constructor; auto.
Qed.

(** C2: handling a currency-change event [{code, symbol, conversionRate}]
    makes [{code, symbol}] the active display currency, rewrites the
    [displayAmount] of every cached entry to [amount * conversionRate],
    leaves every [amount] (and every other field) as it was, and issues no
    request to the remote store. *)
Theorem currency_change_is_display_only (d : Detail.t) (env : Env)
  (s : State) :
  result (handleCurrencyChange d env s) = Normal tt /\
  currentCurrency (final (handleCurrencyChange d env s))
  = {| code := Detail.code d; symbol := Detail.symbol d |} /\
  Forall2
    (fun old new =>
       displayAmount new = Some (amount old * Detail.conversionRate d)%float /\
       amount new = amount old /\
       new = withDisplayAmount old (amount old * Detail.conversionRate d)%float)
    (transactions s)
    (transactions (final (handleCurrencyChange d env s))) /\
  trace (handleCurrencyChange d env s) = [] /\
  existsb isRemoteWrite (trace (handleCurrencyChange d env s)) = false.
Proof.
  rewrite handleCurrencyChange_run; simpl.
  repeat split; auto using rescaled_pointwise.
Qed.

Lemma formattedIncome_eq L cache X :
  formattedIncome (financialSummary L cache X)
  = symbol X ++ JS.toLocaleString2 L (income (financialSummary L cache X)).
Proof. reflexivity. Qed.

Lemma formattedExpenses_eq L cache X :
  formattedExpenses (financialSummary L cache X)
  = symbol X ++ JS.toLocaleString2 L (expenses (financialSummary L cache X)).
Proof. reflexivity. Qed.

Lemma formattedBalance_eq L cache X :
  formattedBalance (financialSummary L cache X)
  = symbol X ++ JS.toLocaleString2 L (balance (financialSummary L cache X)).
Proof. reflexivity. Qed.

(** C10: the totals are computed from [type] and [amount], never from
    [displayAmount]: two caches that agree on these two fields entry by
    entry have the same totals.  Hence a currency-change event, whatever
    its conversion rate, leaves [income], [expenses] and [balance] as they
    were, and the formatted strings before and after the event are the
    old and the new symbol followed by the same rendering of the same
    numbers. *)
Theorem totals_ignore_display_amount (L : JS.Locale) (d : Detail.t)
  (env : Env) (s : State) :
  let before := financialSummary L (transactions s) (currentCurrency s) in
  let s' := final (handleCurrencyChange d env s) in
  let after := financialSummary L (transactions s') (currentCurrency s') in
  (forall c c' X X',
      Forall2 (fun a b => type a = type b /\ amount a = amount b) c c' ->
      income (financialSummary L c X) = income (financialSummary L c' X') /\
      expenses (financialSummary L c X) = expenses (financialSummary L c' X') /\
      balance (financialSummary L c X) = balance (financialSummary L c' X')) /\
  income after = income before /\
  expenses after = expenses before /\
  balance after = balance before /\
  formattedIncome before
  = symbol (currentCurrency s) ++ JS.toLocaleString2 L (income before) /\
  formattedIncome after
  = Detail.symbol d ++ JS.toLocaleString2 L (income before) /\
  formattedExpenses before
  = symbol (currentCurrency s) ++ JS.toLocaleString2 L (expenses before) /\
  formattedExpenses after
  = Detail.symbol d ++ JS.toLocaleString2 L (expenses before) /\
  formattedBalance before
  = symbol (currentCurrency s) ++ JS.toLocaleString2 L (balance before) /\
  formattedBalance after
  = Detail.symbol d ++ JS.toLocaleString2 L (balance before).
Proof.
  assert (Hext : forall c c' X X',
             Forall2 (fun a b => type a = type b /\ amount a = amount b) c c' ->
             income (financialSummary L c X)
             = income (financialSummary L c' X') /\
             expenses (financialSummary L c X)
             = expenses (financialSummary L c' X') /\
             balance (financialSummary L c X)
             = balance (financialSummary L c' X')).
  { intros c c' X X' Hcc.
    assert (Hi : income (financialSummary L c X)
                 = income (financialSummary L c' X')).
    { rewrite !income_sumOfKind. apply sumFrom_ext, Hcc. }
    assert (He : expenses (financialSummary L c X)
                 = expenses (financialSummary L c' X')).
    { rewrite !expenses_sumOfKind. apply sumFrom_ext, Hcc. }
    repeat split; trivial.
    change ((income (financialSummary L c X)
             - expenses (financialSummary L c X))%float
            = (income (financialSummary L c' X')
               - expenses (financialSummary L c' X'))%float).
    now rewrite Hi, He. }
  intros before s' after.
  assert (Hsame : Forall2 (fun a b => type a = type b /\ amount a = amount b)
                    (transactions s') (transactions s)).
  { subst s'. rewrite handleCurrencyChange_run; simpl.
    induction (transactions s) as [|t rest IH]; simpl; constructor; auto. }
  destruct (Hext _ _ (currentCurrency s') (currentCurrency s) Hsame)
    as (Hi & He & Hb).
  assert (Hsym : symbol (currentCurrency s') = Detail.symbol d)
    by (subst s'; rewrite handleCurrencyChange_run; reflexivity).
  split; [exact Hext|].
  split; [exact Hi|]. split; [exact He|]. split; [exact Hb|].
  subst before after.
  rewrite !formattedIncome_eq, !formattedExpenses_eq, !formattedBalance_eq.
  rewrite Hi, He, Hb, Hsym.
  repeat split; reflexivity.
Qed.

(** ** Strings, dates and number rendering *)

Lemma append_assoc (a b c : string) : (a ++ b) ++ c = a ++ (b ++ c).
Proof. induction a as [|x a IH]; simpl; [reflexivity | now rewrite IH]. Qed.

Lemma occurs_append (c : ascii) (a b : string) :
  JS.occurs c (a ++ b) = JS.occurs c a || JS.occurs c b.
Proof.
  induction a as [|x a IH]; simpl; [reflexivity|].
  now rewrite IH, orb_assoc.
Qed.

(** Splitting at the first separator. *)
Lemma split_first (sep : ascii) (p rest : string) :
  JS.occurs sep p = false ->
  JS.split sep (p ++ String sep rest) = p :: JS.split sep rest.
Proof.
  induction p as [|x p IH]; simpl; intro H.
  - now rewrite Ascii.eqb_refl.
  - apply orb_false_iff in H as [Hx Hp].
    rewrite Hx, (IH Hp). reflexivity.
Qed.

Lemma uint_no_T (u : Decimal.uint) :
  JS.occurs "T" (NilEmpty.string_of_uint u) = false.
Proof.
  induction u as [|u IH|u IH|u IH|u IH|u IH|u IH|u IH|u IH|u IH|u IH]; simpl;
    rewrite ?IH; reflexivity.
Qed.

Lemma digits_no_T (n : Z) : JS.occurs "T" (JS.digits n) = false.
Proof.
  unfold JS.digits, NilZero.string_of_uint.
  destruct (N.to_uint (Z.to_N n)); try apply uint_no_T; reflexivity.
Qed.

Lemma zeros_no_T (k : nat) : JS.occurs "T" (JS.zeros k) = false.
Proof. induction k as [|k IH]; simpl; rewrite ?IH; reflexivity. Qed.

Lemma pad_no_T (w : nat) (n : Z) : JS.occurs "T" (JS.pad w n) = false.
Proof.
  unfold JS.pad. now rewrite occurs_append, zeros_no_T, digits_no_T.
Qed.

Lemma isoYear_no_T (y : Z) : JS.occurs "T" (JS.isoYear y) = false.
Proof.
  unfold JS.isoYear.
  destruct ((0 <=? y) && (y <=? 9999)); [apply pad_no_T|].
  destruct (y <? 0); simpl; apply pad_no_T.
Qed.

Lemma toISOString_valid (t : Z) :
  - JS.maxTimeValue <= t <= JS.maxTimeValue ->
  exists time, JS.toISOString (JS.TimeValue t) = inr (utcDate t ++ String "T" time).
Proof.
  intros [Hlo Hhi].
  unfold JS.toISOString, utcDate.
  apply Z.leb_le in Hlo, Hhi. rewrite Hlo, Hhi.
  simpl (true && true).
  destruct (JS.civil_from_days (JS.Day t)) as [[y m] d].
  eexists. rewrite !append_assoc. reflexivity.
Qed.

(** The date portion of a valid date is its UTC calendar date: the time of
    day is dropped. *)
Lemma datePortion_valid (t : Z) (env : Env) (s : State) :
  - JS.maxTimeValue <= t <= JS.maxTimeValue ->
  datePortion (JS.TimeValue t) env s
  = {| result := Normal (utcDate t); final := s; trace := [] |}.
Proof.
  intro Ht. destruct (toISOString_valid t Ht) as [time Hiso].
  unfold datePortion, bind, lift. rewrite Hiso.
  cbn [ret result final trace app].
  rewrite split_first; [reflexivity|].
  unfold utcDate. destruct (JS.civil_from_days (JS.Day t)) as [[y m] d].
  rewrite !occurs_append, isoYear_no_T, !pad_no_T. reflexivity.
Qed.

Lemma datePortion_invalid (d : JS.Date) (env : Env) (s : State) :
  ~ usableBound (Some d) ->
  datePortion d env s
  = {| result := Throw (JS.RangeError "Invalid time value"); final := s;
       trace := [] |}.
Proof.
  intro H. unfold datePortion, bind, lift, JS.toISOString.
  destruct d as [t|]; [|reflexivity].
  simpl in H.
  destruct ((- JS.maxTimeValue <=? t) && (t <=? JS.maxTimeValue)) eqn:E;
    [|reflexivity].
  apply andb_true_iff in E as [Hlo Hhi].
  apply Z.leb_le in Hlo, Hhi. exfalso; apply H; split; assumption.
Qed.

(** *** Decimals of a double *)

Lemma pow_Qpower (b k : Z) : (JS.pow b k == inject_Z b ^ k)%Q.
Proof.
  unfold JS.pow. destruct (0 <=? k) eqn:E.
  - apply Z.leb_le in E. apply Zpower_Qpower, E.
  - apply Z.leb_gt in E.
    rewrite Zpower_Qpower by lia.
    rewrite <- Qpower_opp. now rewrite Z.opp_involutive.
Qed.

Lemma inject_Z_nonzero (b : Z) : 0 < b -> ~ (inject_Z b == 0)%Q.
Proof.
  intros Hb H. change 0%Q with (inject_Z 0) in H.
  rewrite inject_Z_injective in H. lia.
Qed.

Lemma pow_pos (b k : Z) : 0 < b -> (0 < JS.pow b k)%Q.
Proof.
  intro Hb. rewrite pow_Qpower. apply Qpower_0_lt.
  change 0%Q with (inject_Z 0). rewrite <- Zlt_Qlt. exact Hb.
Qed.

Lemma pow_add (b j k : Z) :
  0 < b -> (JS.pow b (j + k) == JS.pow b j * JS.pow b k)%Q.
Proof.
  intro Hb. rewrite !pow_Qpower.
  apply Qpower_plus, inject_Z_nonzero, Hb.
Qed.

Lemma pow_0 (b : Z) : (JS.pow b 0 == 1)%Q.
Proof. reflexivity. Qed.

Lemma pow_1 (b : Z) : (JS.pow b 1 == inject_Z b)%Q.
Proof.
  unfold JS.pow. change (0 <=? 1) with true. cbv iota.
  rewrite Z.pow_1_r. reflexivity.
Qed.

Lemma pow_cancel (b k : Z) : 0 < b -> (JS.pow b (- k) * JS.pow b k == 1)%Q.
Proof.
  intro Hb. rewrite <- pow_add by exact Hb.
  replace (- k + k) with 0 by lia. reflexivity.
Qed.

(** [2^e] in halves and quarters. *)
Lemma pow2_half (e : Z) : (JS.pow 2 e == 2 * JS.pow 2 (e - 1))%Q.
Proof.
  replace e with (1 + (e - 1)) at 1 by lia.
  rewrite pow_add by lia. rewrite pow_1. reflexivity.
Qed.

Lemma pow2_quarter (e : Z) : (JS.pow 2 e == 4 * JS.pow 2 (e - 2))%Q.
Proof.
  rewrite pow2_half. replace (e - 2) with (e - 1 - 1) by lia.
  rewrite (pow2_half (e - 1)). ring.
Qed.

Lemma inject_Z_pos (m : positive) : (1 <= inject_Z (Z.pos m))%Q.
Proof. change 1%Q with (inject_Z 1). rewrite <- Zle_Qle. lia. Qed.

(** A double lies strictly between the bounds of its rounding interval. *)
Lemma bounds_enclose (m : positive) (e : Z) :
  (JS.lowerBound m e < JS.doubleValue m e < JS.upperBound m e)%Q.
Proof.
  unfold JS.lowerBound, JS.upperBound, JS.doubleValue.
  assert (H1 := pow_pos 2 (e - 1) ltac:(lia)).
  assert (H2 := pow_pos 2 (e - 2) ltac:(lia)).
  assert (Hm := inject_Z_pos m).
  split.
  - destruct ((Z.pos m =? 2 ^ 52) && (-1074 <? e)).
    + rewrite (pow2_quarter e).
      replace (4 * Z.pos m - 1) with (4 * Z.pos m + -1) by lia.
      rewrite inject_Z_plus, inject_Z_mult.
      change (inject_Z 4) with 4%Q. change (inject_Z (-1)) with (-1)%Q.
      nra.
    + rewrite (pow2_half e).
      replace (2 * Z.pos m - 1) with (2 * Z.pos m + -1) by lia.
      rewrite inject_Z_plus, inject_Z_mult.
      change (inject_Z 2) with 2%Q. change (inject_Z (-1)) with (-1)%Q.
      nra.
  - rewrite (pow2_half e).
    rewrite inject_Z_plus, inject_Z_mult.
    change (inject_Z 2) with 2%Q. change (inject_Z 1) with 1%Q.
    nra.
Qed.

Lemma Qlt_bool_iff (a b : Q) : JS.Qlt_bool a b = true <-> (a < b)%Q.
Proof.
  unfold JS.Qlt_bool. rewrite negb_true_iff.
  split.
  - intro H. apply Qnot_le_lt. intro Hle.
    apply Qle_bool_iff in Hle. congruence.
  - intro H. destruct (Qle_bool b a) eqn:E; [|reflexivity].
    apply Qle_bool_iff in E. exfalso. exact (Qlt_not_le _ _ H E).
Qed.

(** What [readsBack] decides. *)
Lemma readsBack_iff (m : positive) (e : Z) (d : Q) :
  JS.readsBack m e d = true <->
  if Z.even (Z.pos m)
  then (JS.lowerBound m e <= d <= JS.upperBound m e)%Q
  else (JS.lowerBound m e < d < JS.upperBound m e)%Q.
Proof.
  unfold JS.readsBack.
  destruct (Z.even (Z.pos m)); rewrite andb_true_iff.
  - now rewrite !Qle_bool_iff.
  - now rewrite !Qlt_bool_iff.
Qed.

Lemma readsBack_within (m : positive) (e : Z) (d : Q) :
  JS.readsBack m e d = true ->
  (JS.lowerBound m e <= d <= JS.upperBound m e)%Q.
Proof.
  intro H. apply readsBack_iff in H.
  destruct (Z.even (Z.pos m)); [exact H|].
  destruct H; split; apply Qlt_le_weak; assumption.
Qed.

Lemma readsBack_double (m : positive) (e : Z) (d : Q) :
  (d == JS.doubleValue m e)%Q -> JS.readsBack m e d = true.
Proof.
  intro Hd. apply readsBack_iff.
  destruct (bounds_enclose m e) as [Hlo Hhi].
  destruct (Z.even (Z.pos m)); rewrite Hd; split;
    auto using Qlt_le_weak.
Qed.

(** The reals that read back as a double form an interval. *)
Lemma readsBack_convex (m : positive) (e : Z) (a b c : Q) :
  JS.readsBack m e a = true -> JS.readsBack m e b = true ->
  (a <= c <= b)%Q -> JS.readsBack m e c = true.
Proof.
  rewrite !readsBack_iff.
  destruct (Z.even (Z.pos m)); intros [Ha1 Ha2] [Hb1 Hb2] [Hac Hcb]; split; lra.
Qed.

(** The multiples of [10^p] around a double. *)
Lemma floor_brackets (m : positive) (e p : Z) :
  (inject_Z (Qfloor (JS.doubleValue m e * JS.pow 10 (- p))) * JS.pow 10 p
   <= JS.doubleValue m e)%Q /\
  (JS.doubleValue m e
   < inject_Z (Qfloor (JS.doubleValue m e * JS.pow 10 (- p)) + 1)
     * JS.pow 10 p)%Q /\
  0 <= Qfloor (JS.doubleValue m e * JS.pow 10 (- p)).
Proof.
  set (x := JS.doubleValue m e).
  assert (HT := pow_pos 10 p ltac:(lia)).
  assert (HTi := pow_pos 10 (- p) ltac:(lia)).
  assert (Hx : (0 < x)%Q).
  { destruct (bounds_enclose m e) as [Hlo _]. fold x in Hlo.
    unfold x, JS.doubleValue.
    apply Qmult_lt_0_compat; [|apply pow_pos; lia].
    apply Qlt_le_trans with 1%Q; [reflexivity | apply inject_Z_pos]. }
  assert (Hback : (x * JS.pow 10 (- p) * JS.pow 10 p == x)%Q).
  { rewrite <- Qmult_assoc, (pow_cancel 10 p) by lia. ring. }
  split; [|split].
  - rewrite <- Hback at 2. apply Qmult_le_compat_r;
      [apply Qfloor_le | apply Qlt_le_weak, HT].
  - rewrite <- Hback at 1. apply Qmult_lt_compat_r; [exact HT|].
    apply Qlt_floor.
  - change 0 with (Qfloor 0). apply Qfloor_resp_le.
    apply Qlt_le_weak, Qmult_lt_0_compat; assumption.
Qed.

Lemma multiples_ordered (c c' p : Z) :
  c' <= c -> (inject_Z c' * JS.pow 10 p <= inject_Z c * JS.pow 10 p)%Q.
Proof.
  intro H. apply Qmult_le_compat_r.
  - now rewrite <- Zle_Qle.
  - apply Qlt_le_weak, pow_pos. lia.
Qed.

(** What a found candidate is. *)
Lemma candidate_some (m : positive) (e p : Z) (d : JS.decimal) :
  JS.candidate m e p = Some d ->
  JS.exponent10 d = p /\ 1 <= JS.coefficient d /\
  JS.readsBack m e (JS.decimalValue d) = true.
Proof.
  destruct (floor_brackets m e p) as (_ & _ & Hc).
  unfold JS.candidate. cbv zeta.
  set (c := Qfloor (JS.doubleValue m e * JS.pow 10 (- p))) in *.
  destruct ((1 <=? c)
            && JS.readsBack m e
                 (JS.decimalValue {| JS.coefficient := c; JS.exponent10 := p |}))
    eqn:Hbelow;
    destruct (JS.readsBack m e
                (JS.decimalValue
                   {| JS.coefficient := c + 1; JS.exponent10 := p |}))
      eqn:Habove;
    try discriminate.
  - apply andb_true_iff in Hbelow as [H1 Hb]. apply Z.leb_le in H1.
    destruct (Qcompare _ _); [destruct (Z.even c)| |];
      intro H; injection H as <-; simpl; repeat split; auto; lia.
  - apply andb_true_iff in Hbelow as [H1 Hb]. apply Z.leb_le in H1.
    intro H; injection H as <-; simpl; repeat split; auto.
  - intro H; injection H as <-; simpl; repeat split; auto; lia.
Qed.

(** When no candidate is found, no multiple of [10^p] reads back. *)
Lemma candidate_none (m : positive) (e p : Z) :
  JS.candidate m e p = None ->
  forall c', 1 <= c' ->
    JS.readsBack m e (inject_Z c' * JS.pow 10 p) = false.
Proof.
  destruct (floor_brackets m e p) as (Hlo & Hhi & Hc).
  unfold JS.candidate. cbv zeta.
  set (c := Qfloor (JS.doubleValue m e * JS.pow 10 (- p))) in *.
  unfold JS.decimalValue. simpl JS.coefficient. simpl JS.exponent10.
  destruct ((1 <=? c) && JS.readsBack m e (inject_Z c * JS.pow 10 p))
    eqn:Hbelow;
    destruct (JS.readsBack m e (inject_Z (c + 1) * JS.pow 10 p)) eqn:Habove;
    try (destruct (Qcompare _ _); discriminate); try discriminate.
  intros _ c' Hc'.
  destruct (JS.readsBack m e (inject_Z c' * JS.pow 10 p)) eqn:Hr;
    [exfalso|reflexivity].
  assert (Hx := readsBack_double m e _ (Qeq_refl (JS.doubleValue m e))).
  destruct (Z_le_gt_dec c' c) as [Hle|Hgt].
  - assert (Hrb : JS.readsBack m e (inject_Z c * JS.pow 10 p) = true).
    { apply (readsBack_convex m e _ _ _ Hr Hx). split; [|exact Hlo].
      apply multiples_ordered, Hle. }
    rewrite Hrb, andb_true_r in Hbelow. apply Z.leb_gt in Hbelow. lia.
  - assert (Hra : JS.readsBack m e (inject_Z (c + 1) * JS.pow 10 p) = true).
    { apply (readsBack_convex m e _ _ _ Hx Hr). split.
      - apply Qlt_le_weak, Hhi.
      - apply multiples_ordered. lia. }
    congruence.
Qed.

(** A found candidate is at least as near to the double as every other
    multiple of [10^p] that reads back. *)
Lemma candidate_nearest (m : positive) (e p : Z) (d : JS.decimal) :
  JS.candidate m e p = Some d ->
  forall c', 1 <= c' ->
    JS.readsBack m e (inject_Z c' * JS.pow 10 p) = true ->
    (Qabs (JS.doubleValue m e - JS.decimalValue d)
     <= Qabs (JS.doubleValue m e - inject_Z c' * JS.pow 10 p))%Q.
Proof.
  intros Hcand c' Hc' Hr.
  destruct (floor_brackets m e p) as (Hlo & Hhi & Hc).
  assert (Hx := readsBack_double m e _ (Qeq_refl (JS.doubleValue m e))).
  revert Hcand. unfold JS.candidate. cbv zeta.
  set (c := Qfloor (JS.doubleValue m e * JS.pow 10 (- p))) in *.
  set (x := JS.doubleValue m e) in *.
  unfold JS.decimalValue. simpl JS.coefficient. simpl JS.exponent10.
  set (below := (inject_Z c * JS.pow 10 p)%Q) in *.
  set (above := (inject_Z (c + 1) * JS.pow 10 p)%Q) in *.
  set (other := (inject_Z c' * JS.pow 10 p)%Q) in *.
  assert (Hfar : (x - other <= Qabs (x - other))%Q) by apply Qle_Qabs.
  assert (Hfar' : (- (x - other) <= Qabs (x - other))%Q)
    by (rewrite <- Qabs_opp; apply Qle_Qabs).
  assert (Hside : c' <= c -> (other <= below)%Q)
    by (intro; apply multiples_ordered; assumption).
  assert (Hside' : c < c' -> (above <= other)%Q)
    by (intro; apply multiples_ordered; lia).
  destruct ((1 <=? c) && JS.readsBack m e below) eqn:Hbelow;
    destruct (JS.readsBack m e above) eqn:Habove; try discriminate.
  - destruct (Qcompare (x - below) (above - x)) eqn:Hcmp.
    + apply Qeq_alt in Hcmp.
      destruct (Z.even c); intro H; injection H as <-;
        cbn [JS.coefficient JS.exponent10]; fold below; fold above;
        apply Qabs_Qle_condition;
        (destruct (Z_le_gt_dec c' c) as [Hle|Hgt];
         [specialize (Hside Hle)|specialize (Hside' ltac:(lia))]);
        split; lra.
    + apply Qlt_alt in Hcmp.
      intro H; injection H as <-;
        cbn [JS.coefficient JS.exponent10]; fold below; fold above.
      apply Qabs_Qle_condition.
      destruct (Z_le_gt_dec c' c) as [Hle|Hgt];
        [specialize (Hside Hle)|specialize (Hside' ltac:(lia))];
        split; lra.
    + apply Qgt_alt in Hcmp.
      intro H; injection H as <-;
        cbn [JS.coefficient JS.exponent10]; fold below; fold above.
      apply Qabs_Qle_condition.
      destruct (Z_le_gt_dec c' c) as [Hle|Hgt];
        [specialize (Hside Hle)|specialize (Hside' ltac:(lia))];
        split; lra.
  - intro H; injection H as <-;
        cbn [JS.coefficient JS.exponent10]; fold below; fold above.
      apply Qabs_Qle_condition.
    destruct (Z_le_gt_dec c' c) as [Hle|Hgt].
    + specialize (Hside Hle). split; lra.
    + exfalso. specialize (Hside' ltac:(lia)).
      assert (Hra : JS.readsBack m e above = true).
      { apply (readsBack_convex m e _ _ _ Hx Hr). split; [lra | exact Hside']. }
      congruence.
  - intro H; injection H as <-;
        cbn [JS.coefficient JS.exponent10]; fold below; fold above.
      apply Qabs_Qle_condition.
    destruct (Z_le_gt_dec c' c) as [Hle|Hgt].
    + exfalso. specialize (Hside Hle).
      assert (Hrb : JS.readsBack m e below = true).
      { apply (readsBack_convex m e _ _ _ Hr Hx). split; [exact Hside | lra]. }
      rewrite Hrb, andb_true_r in Hbelow. apply Z.leb_gt in Hbelow. lia.
    + specialize (Hside' ltac:(lia)). split; lra.
Qed.

Lemma inject_Z_pow (b k : Z) : 0 <= k -> (JS.pow b k == inject_Z (b ^ k))%Q.
Proof.
  intro Hk. unfold JS.pow.
  apply Z.leb_le in Hk. rewrite Hk. reflexivity.
Qed.

(** The double written out in full names the double. *)
Lemma exactDecimal_exponent (m : positive) (e : Z) :
  JS.exponent10 (JS.exactDecimal m e) = Z.min e 0.
Proof.
  unfold JS.exactDecimal.
  destruct (0 <=? e) eqn:E; cbn [JS.exponent10];
    [apply Z.leb_le in E | apply Z.leb_gt in E]; lia.
Qed.

Lemma exactDecimal_scaled (m : positive) (e : Z) :
  (JS.doubleValue m e * JS.pow 10 (- Z.min e 0)
   == inject_Z (JS.coefficient (JS.exactDecimal m e)))%Q.
Proof.
  unfold JS.exactDecimal, JS.doubleValue.
  destruct (0 <=? e) eqn:E; cbn [JS.coefficient].
  - apply Z.leb_le in E. rewrite Z.min_r by lia.
    rewrite inject_Z_mult, (inject_Z_pow 2 e E).
    change (- 0) with 0. rewrite pow_0. ring.
  - apply Z.leb_gt in E. rewrite Z.min_l by lia.
    rewrite inject_Z_mult.
    rewrite <- (inject_Z_pow 5 (- e)) by lia.
    assert (H10 : (JS.pow 10 (- e) == JS.pow 2 (- e) * JS.pow 5 (- e))%Q).
    { rewrite !inject_Z_pow by lia.
      rewrite <- inject_Z_mult, <- Z.pow_mul_l. reflexivity. }
    rewrite H10.
    assert (Hc := pow_cancel 2 (- e) ltac:(lia)).
    rewrite Z.opp_involutive in Hc.
    transitivity (inject_Z (Z.pos m) * (JS.pow 2 e * JS.pow 2 (- e))
                  * JS.pow 5 (- e))%Q; [ring|].
    rewrite Hc. ring.
Qed.

Lemma exactDecimal_value (m : positive) (e : Z) :
  (JS.decimalValue (JS.exactDecimal m e) == JS.doubleValue m e)%Q.
Proof.
  unfold JS.decimalValue.
  rewrite <- exactDecimal_scaled, exactDecimal_exponent.
  rewrite <- Qmult_assoc, (pow_cancel 10 (Z.min e 0)) by lia. ring.
Qed.

Lemma exactDecimal_positive (m : positive) (e : Z) :
  1 <= JS.coefficient (JS.exactDecimal m e).
Proof.
  unfold JS.exactDecimal.
  destruct (0 <=? e) eqn:E; cbn [JS.coefficient];
    [apply Z.leb_le in E | apply Z.leb_gt in E].
  - assert (0 < 2 ^ e) by (apply Z.pow_pos_nonneg; lia). nia.
  - assert (0 < 5 ^ (- e)) by (apply Z.pow_pos_nonneg; lia). nia.
Qed.

(** At exponent [min e 0] the search always finds a candidate. *)
Lemma candidate_exact (m : positive) (e : Z) :
  JS.candidate m e (Z.min e 0) <> None.
Proof.
  assert (Hfloor : Qfloor (JS.doubleValue m e * JS.pow 10 (- Z.min e 0))
                   = JS.coefficient (JS.exactDecimal m e))
    by (rewrite exactDecimal_scaled; apply Qfloor_Z).
  assert (Hval := exactDecimal_value m e).
  unfold JS.decimalValue in Hval. rewrite exactDecimal_exponent in Hval.
  assert (Hpos := exactDecimal_positive m e).
  unfold JS.candidate. cbv zeta. rewrite Hfloor.
  unfold JS.decimalValue. cbn [JS.coefficient JS.exponent10].
  rewrite (readsBack_double m e _ Hval).
  apply Z.leb_le in Hpos. rewrite Hpos. cbn [andb].
  destruct (JS.readsBack m e _); [destruct (Qcompare _ _)|]; discriminate.
Qed.

(** How the search ends. *)
Lemma shortestFrom_ends (fuel : nat) (m : positive) (e p : Z) :
  (exists q,
      p - Z.of_nat fuel < q <= p /\
      JS.candidate m e q = Some (JS.shortestFrom fuel m e p) /\
      forall q', q < q' <= p -> JS.candidate m e q' = None)
  \/ (forall q', p - Z.of_nat fuel < q' <= p -> JS.candidate m e q' = None).
Proof.
  revert p. induction fuel as [|fuel IH]; intro p.
  - right. intros q' Hq'. simpl in Hq'. lia.
  - cbn [JS.shortestFrom].
    destruct (JS.candidate m e p) as [d|] eqn:Hp.
    + left. exists p. split; [lia|]. split; [exact Hp|]. intros; lia.
    + destruct (IH (p - 1)) as [(q & Hq & Hcand & Hnone)|Hnone].
      * left. exists q. split; [lia|]. split; [exact Hcand|].
        intros q' Hq'. destruct (Z.eq_dec q' p) as [->|Hne];
          [exact Hp | apply Hnone; lia].
      * right. intros q' Hq'. destruct (Z.eq_dec q' p) as [->|Hne];
          [exact Hp | apply Hnone; lia].
Qed.

Lemma log2_bound (m : positive) : Z.pos m + 1 <= 2 ^ (Z.log2 (Z.pos m) + 1).
Proof.
  destruct (Z.log2_spec (Z.pos m) ltac:(lia)) as [_ H].
  rewrite Z.add_1_r. lia.
Qed.

(** The search starts above the double. *)
Lemma startExponent_above_min (m : positive) (e : Z) :
  Z.min e 0 <= JS.startExponent m e.
Proof.
  unfold JS.startExponent. cbv zeta.
  assert (HL := Z.log2_nonneg (Z.pos m)).
  destruct (0 <=? e + Z.log2 (Z.pos m) + 1) eqn:E;
    [apply Z.leb_le in E | apply Z.leb_gt in E].
  - assert (0 <= (e + Z.log2 (Z.pos m) + 1) / 3)
      by (apply Z.div_pos; lia). lia.
  - assert (- (e + Z.log2 (Z.pos m) + 1) / 4 <= - (e + Z.log2 (Z.pos m) + 1))
      by (apply Z.div_le_upper_bound; lia). lia.
Qed.

Lemma two_below_ten (k : Z) : 0 <= k -> 2 ^ k <= 10 ^ (k / 3 + 1).
Proof.
  intro Hk.
  assert (Hdiv := Z.div_mod k 3 ltac:(lia)).
  assert (Hmod := Z.mod_pos_bound k 3 ltac:(lia)).
  assert (Hq : 0 <= k / 3) by (apply Z.div_pos; lia).
  rewrite Hdiv at 1.
  rewrite Z.pow_add_r, Z.pow_mul_r by lia.
  rewrite Z.pow_add_r, Z.pow_1_r by lia.
  change (2 ^ 3) with 8.
  assert (H8 : 8 ^ (k / 3) <= 10 ^ (k / 3))
    by (apply Z.pow_le_mono_l; lia).
  assert (H8pos : 0 < 8 ^ (k / 3)) by (apply Z.pow_pos_nonneg; lia).
  assert (Hr : 0 < 2 ^ (k mod 3) <= 4).
  { assert (Hcases : k mod 3 = 0 \/ k mod 3 = 1 \/ k mod 3 = 2) by lia.
    destruct Hcases as [-> | [-> | ->]]; simpl; lia. }
  nia.
Qed.

Lemma ten_below_two (j : Z) : 0 <= j -> 10 ^ (j / 4) <= 2 ^ j.
Proof.
  intro Hj.
  assert (Hdiv := Z.div_mod j 4 ltac:(lia)).
  assert (Hmod := Z.mod_pos_bound j 4 ltac:(lia)).
  assert (Hq : 0 <= j / 4) by (apply Z.div_pos; lia).
  rewrite Hdiv at 2.
  rewrite Z.pow_add_r, Z.pow_mul_r by lia.
  change (2 ^ 4) with 16.
  assert (H16 : 10 ^ (j / 4) <= 16 ^ (j / 4))
    by (apply Z.pow_le_mono_l; lia).
  assert (Hpos : 0 < 10 ^ (j / 4)) by (apply Z.pow_pos_nonneg; lia).
  assert (Hr : 1 <= 2 ^ (j mod 4))
    by (assert (0 < 2 ^ (j mod 4)) by (apply Z.pow_pos_nonneg; lia); lia).
  nia.
Qed.

Lemma pow2_below_start (k : Z) :
  (JS.pow 2 k
   <= JS.pow 10 (if 0 <=? k then k / 3 + 1 else - ((- k) / 4)))%Q.
Proof.
  destruct (0 <=? k) eqn:E; [apply Z.leb_le in E | apply Z.leb_gt in E].
  - assert (0 <= k / 3) by (apply Z.div_pos; lia).
    rewrite !inject_Z_pow by lia. rewrite <- Zle_Qle.
    apply two_below_ten, E.
  - assert (Hq : 0 <= - k / 4) by (apply Z.div_pos; lia).
    assert (Hle := ten_below_two (- k) ltac:(lia)).
    assert (H10 := pow_pos 10 (- (- k / 4)) ltac:(lia)).
    assert (H2 := pow_pos 2 k ltac:(lia)).
    assert (Hc10 := pow_cancel 10 (- k / 4) ltac:(lia)).
    assert (Hc2 := pow_cancel 2 (- k) ltac:(lia)).
    rewrite Z.opp_involutive in Hc2.
    rewrite (inject_Z_pow 10 (- k / 4)) in Hc10 by lia.
    rewrite (inject_Z_pow 2 (- k)) in Hc2 by lia.
    rewrite Zle_Qle in Hle.
    set (a := JS.pow 10 (- (- k / 4))) in *.
    set (b := JS.pow 2 k) in *.
    set (A := inject_Z (10 ^ (- k / 4))) in *.
    set (B := inject_Z (2 ^ (- k))) in *.
    assert (HA : (0 < A)%Q).
    { unfold A. change 0%Q with (inject_Z 0). rewrite <- Zlt_Qlt.
      apply Z.pow_pos_nonneg; lia. }
    (* b = 1/B <= 1/A = a since A <= B *)
    assert (Hba : (b * A <= 1)%Q).
    { rewrite <- Hc2. apply Qmult_le_l; [exact H2 | exact Hle]. }
    apply (Qmult_le_r _ _ A HA). rewrite Hc10. exact Hba.
Qed.

Lemma upperBound_below_start (m : positive) (e : Z) :
  (JS.upperBound m e <= JS.pow 10 (JS.startExponent m e))%Q.
Proof.
  unfold JS.startExponent. cbv zeta.
  apply Qle_trans with (JS.pow 2 (e + Z.log2 (Z.pos m) + 1));
    [|apply pow2_below_start].
  unfold JS.upperBound.
  replace (e + Z.log2 (Z.pos m) + 1) with ((Z.log2 (Z.pos m) + 2) + (e - 1))
    by lia.
  rewrite pow_add by lia.
  apply Qmult_le_compat_r; [|apply Qlt_le_weak, pow_pos; lia].
  assert (HL := Z.log2_nonneg (Z.pos m)).
  rewrite inject_Z_pow by lia. rewrite <- Zle_Qle.
  assert (Hb := log2_bound m).
  replace (Z.log2 (Z.pos m) + 2) with (Z.log2 (Z.pos m) + 1 + 1) by lia.
  rewrite (Z.pow_add_r _ _ 1), Z.pow_1_r by lia. lia.
Qed.

(** The search of [shortestDecimal] succeeds, at the greatest exponent
    that has a candidate. *)
Lemma shortest_found (m : positive) (e : Z) :
  exists q,
    Z.min e 0 <= q <= JS.startExponent m e /\
    JS.candidate m e q = Some (JS.shortestDecimal m e) /\
    forall q', q < q' <= JS.startExponent m e -> JS.candidate m e q' = None.
Proof.
  unfold JS.shortestDecimal.
  assert (Hs := startExponent_above_min m e).
  set (p := JS.startExponent m e) in *.
  set (fuel := S (Z.to_nat (p - Z.min e 0))).
  assert (Hfuel : p - Z.of_nat fuel = Z.min e 0 - 1) by (unfold fuel; lia).
  destruct (shortestFrom_ends fuel m e p) as [(q & Hq & Hcand & Hnone)|Hnone].
  - exists q. split; [lia|]. split; assumption.
  - exfalso. apply (candidate_exact m e). apply Hnone. lia.
Qed.

Lemma pow10_mono (j k : Z) : j <= k -> (JS.pow 10 j <= JS.pow 10 k)%Q.
Proof.
  intro H. replace k with ((k - j) + j) by lia.
  rewrite pow_add by lia.
  assert (Hj := pow_pos 10 j ltac:(lia)).
  assert (H1 : (1 <= JS.pow 10 (k - j))%Q).
  { rewrite inject_Z_pow by lia. change 1%Q with (inject_Z 1).
    rewrite <- Zle_Qle.
    assert (0 < 10 ^ (k - j)) by (apply Z.pow_pos_nonneg; lia). lia. }
  setoid_replace (JS.pow 10 j) with (1 * JS.pow 10 j)%Q at 1 by ring.
  apply Qmult_le_compat_r; [exact H1 | apply Qlt_le_weak, Hj].
Qed.

Lemma pow10_strict (j k : Z) : j < k -> (JS.pow 10 j < JS.pow 10 k)%Q.
Proof.
  intro H. apply Qlt_le_trans with (JS.pow 10 (j + 1));
    [|apply pow10_mono; lia].
  rewrite pow_add, pow_1 by lia.
  assert (Hj := pow_pos 10 j ltac:(lia)).
  change (inject_Z 10) with 10%Q. lra.
Qed.

(** No decimal of fewer digits reads back as the double: above the exponent
    of [shortestDecimal] no positive multiple of the power of ten does. *)
Lemma shortest_minimal (m : positive) (e : Z) (c' q' : Z) :
  1 <= c' -> JS.exponent10 (JS.shortestDecimal m e) < q' ->
  JS.readsBack m e (inject_Z c' * JS.pow 10 q') = false.
Proof.
  intros Hc' Hq'.
  destruct (shortest_found m e) as (q & Hq & Hcand & Hnone).
  destruct (candidate_some _ _ _ _ Hcand) as (Hexp & _ & _).
  rewrite Hexp in Hq'.
  destruct (Z_le_gt_dec q' (JS.startExponent m e)) as [Hle|Hgt].
  - apply candidate_none; [apply Hnone; lia | exact Hc'].
  - destruct (JS.readsBack m e _) eqn:Hr; [exfalso|reflexivity].
    apply readsBack_within in Hr. destruct Hr as [_ Hr].
    assert (Hup := upperBound_below_start m e).
    assert (Hst := pow10_strict (JS.startExponent m e) q' ltac:(lia)).
    assert (Hpos := pow_pos 10 q' ltac:(lia)).
    assert (H1 : (1 <= inject_Z c')%Q)
      by (change 1%Q with (inject_Z 1); rewrite <- Zle_Qle; exact Hc').
    assert (Hge : (JS.pow 10 q' <= inject_Z c' * JS.pow 10 q')%Q).
    { setoid_replace (JS.pow 10 q') with (1 * JS.pow 10 q')%Q at 1 by ring.
      apply Qmult_le_compat_r; [exact H1 | apply Qlt_le_weak, Hpos]. }
    lra.
Qed.

(** [shortestDecimal] reads back as the double, and is the nearest to it of
    the decimals of its length that do. *)
Lemma shortest_readsBack (m : positive) (e : Z) :
  1 <= JS.coefficient (JS.shortestDecimal m e) /\
  JS.readsBack m e (JS.decimalValue (JS.shortestDecimal m e)) = true.
Proof.
  destruct (shortest_found m e) as (q & _ & Hcand & _).
  destruct (candidate_some _ _ _ _ Hcand) as (_ & Hc & Hr).
  split; assumption.
Qed.

Lemma shortest_nearest (m : positive) (e : Z) (c' : Z) :
  1 <= c' ->
  JS.readsBack m e
    (inject_Z c' * JS.pow 10 (JS.exponent10 (JS.shortestDecimal m e)))
  = true ->
  (Qabs (JS.doubleValue m e - JS.decimalValue (JS.shortestDecimal m e))
   <= Qabs (JS.doubleValue m e
            - inject_Z c' * JS.pow 10 (JS.exponent10 (JS.shortestDecimal m e))))%Q.
Proof.
  destruct (shortest_found m e) as (q & _ & Hcand & _).
  destruct (candidate_some _ _ _ _ Hcand) as (Hexp & _ & _).
  rewrite Hexp. apply candidate_nearest, Hcand.
Qed.

Lemma decimalValue_pos (d : JS.decimal) :
  1 <= JS.coefficient d -> (0 < JS.decimalValue d)%Q.
Proof.
  intro H. unfold JS.decimalValue.
  apply Qmult_lt_0_compat; [|apply pow_pos; lia].
  change 0%Q with (inject_Z 0). rewrite <- Zlt_Qlt. lia.
Qed.

(** The number of hundredths is the nearest integer to a hundred times the
    decimal, a half rounding up. *)
Lemma hundredths_nearest (d : JS.decimal) :
  (inject_Z (JS.hundredths d) - (1 # 2) <= inject_Z 100 * JS.decimalValue d
   < inject_Z (JS.hundredths d) + (1 # 2))%Q.
Proof.
  unfold JS.hundredths.
  assert (Hlo := Qfloor_le (JS.decimalValue d * inject_Z 100 + (1 # 2))).
  assert (Hhi := Qlt_floor (JS.decimalValue d * inject_Z 100 + (1 # 2))).
  rewrite inject_Z_plus in Hhi. change (inject_Z 1) with 1%Q in Hhi.
  set (n := inject_Z (Qfloor (JS.decimalValue d * inject_Z 100 + (1 # 2)))) in *.
  change (inject_Z 100) with 100%Q in *.
  split; lra.
Qed.

Lemma hundredths_nonneg (d : JS.decimal) :
  1 <= JS.coefficient d -> 0 <= JS.hundredths d.
Proof.
  intro H. apply decimalValue_pos in H.
  destruct (hundredths_nearest d) as [_ Hhi].
  assert (Hq : (inject_Z (-1) < inject_Z (JS.hundredths d))%Q).
  { change (inject_Z (-1)) with (-1)%Q. change (inject_Z 100) with 100%Q in Hhi.
    lra. }
  rewrite <- Zlt_Qlt in Hq. lia.
Qed.

Lemma pad2_length (n : Z) :
  0 <= n < 100 -> String.length (JS.pad 2 n) = 2%nat.
Proof.
  intro Hn.
  assert (Hall : forallb
                   (fun k => Nat.eqb (String.length (JS.pad 2 (Z.of_nat k))) 2)
                   (seq 0 100) = true) by (vm_compute; reflexivity).
  rewrite forallb_forall in Hall.
  specialize (Hall (Z.to_nat n)).
  rewrite Z2Nat.id in Hall by lia.
  apply Nat.eqb_eq, Hall, in_seq. lia.
Qed.

(** A finite number other than zero is rendered from its sign and the
    hundredths of its shortest decimal. *)
Lemma toLocaleString2_finite (L : JS.Locale) (x : float) (s : bool)
  (m : positive) (e : Z) :
  Prim2SF x = S754_finite s m e ->
  JS.toLocaleString2 L x
  = JS.fixed2 L s (JS.hundredths (JS.shortestDecimal m e)).
Proof. intro H. unfold JS.toLocaleString2. rewrite H. reflexivity. Qed.

(** Checks of the platform model against known values. *)
Example toISOString_epoch :
  JS.toISOString (JS.TimeValue 0) = inr "1970-01-01T00:00:00.000Z".
Proof. vm_compute; reflexivity. Qed.

Example toISOString_leap_day :
  JS.toISOString (JS.TimeValue 951868799999)
  = inr "2000-02-29T23:59:59.999Z".
Proof. vm_compute; reflexivity. Qed.

Example toISOString_before_epoch :
  JS.toISOString (JS.TimeValue (-1)) = inr "1969-12-31T23:59:59.999Z".
Proof. vm_compute; reflexivity. Qed.

Example toISOString_last_instant :
  JS.toISOString (JS.TimeValue 8640000000000000)
  = inr "+275760-09-13T00:00:00.000Z".
Proof. vm_compute; reflexivity. Qed.

Example toISOString_out_of_range :
  JS.toISOString (JS.TimeValue 8640000000000001)
  = inl (JS.RangeError "Invalid time value").
Proof. vm_compute; reflexivity. Qed.

Example split_date_time :
  JS.split "T" "2024-01-05T10:30:00.000Z" = ["2024-01-05"; "10:30:00.000Z"].
Proof. vm_compute; reflexivity. Qed.

Example toLocaleString2_groups :
  JS.toLocaleString2 JS.en_US 1234567.5%float = "1,234,567.50" /\
  JS.toLocaleString2 JS.de_DE 1234567.5%float = "1.234.567,50" /\
  JS.toLocaleString2 JS.en_IN 1234567.5%float = "12,34,567.50" /\
  JS.toLocaleString2 JS.sv_SE 1234567.5%float = "1 234 567,50".
Proof. repeat split; vm_compute; reflexivity. Qed.

(** Ties go away from zero. *)
Example toLocaleString2_rounds :
  JS.toLocaleString2 JS.en_US 0.125%float = "0.13" /\
  JS.toLocaleString2 JS.en_US (-2.375)%float = "-2.38" /\
  JS.toLocaleString2 JS.en_US 999.99609375%float = "1,000.00" /\
  JS.toLocaleString2 JS.en_US (-0.001953125)%float = "-0.00".
Proof. repeat split; vm_compute; reflexivity. Qed.

(** The decimal that is rounded is the shortest one, not the binary value:
    the doubles nearest to 1.005, 2.675 and 1.255 lie below these decimals
    and are yet rounded up; the double nearest to 0.1 + 0.2 is printed
    [0.30000000000000004]. *)
Example shortestDecimal_known :
  Prim2SF (1005 / 1000)%float = S754_finite false 4526117625507348 (-52) /\
  JS.shortestDecimal 4526117625507348 (-52)
  = {| JS.coefficient := 1005; JS.exponent10 := -3 |} /\
  Prim2SF (1 / 10 + 2 / 10)%float = S754_finite false 5404319552844596 (-54) /\
  JS.shortestDecimal 5404319552844596 (-54)
  = {| JS.coefficient := 30000000000000004; JS.exponent10 := -17 |} /\
  Prim2SF (12345678901234568 * 10000)%float
  = S754_finite false 7535204407491802 14 /\
  JS.shortestDecimal 7535204407491802 14
  = {| JS.coefficient := 12345678901234568; JS.exponent10 := 4 |} /\
  JS.exactDecimal 7535204407491802 14
  = {| JS.coefficient := 123456789012345683968; JS.exponent10 := 0 |}.
Proof. repeat split; vm_compute; reflexivity. Qed.

Example toLocaleString2_shortest :
  JS.toLocaleString2 JS.en_US (1005 / 1000)%float = "1.01" /\
  JS.toLocaleString2 JS.en_US (2675 / 1000)%float = "2.68" /\
  JS.toLocaleString2 JS.en_US (1255 / 1000)%float = "1.26" /\
  JS.toLocaleString2 JS.en_US (1 / 10 + 2 / 10)%float = "0.30" /\
  JS.toLocaleString2 JS.en_US (12345678901234568 * 10000)%float
  = "123,456,789,012,345,680,000.00" /\
  JS.toLocaleString2 JS.en_US 9007199254740992%float
  = "9,007,199,254,740,992.00".
Proof. repeat split; vm_compute; reflexivity. Qed.

(** The sign and the symbols are the locale's. *)
Example toLocaleString2_signs :
  JS.toLocaleString2 JS.en_US (-1234.5)%float = "-1,234.50" /\
  JS.toLocaleString2 JS.sv_SE (-1234.5)%float = "−1 234,50" /\
  JS.toLocaleString2 JS.en_US (-0)%float = "-0.00" /\
  JS.toLocaleString2 JS.en_US PrimFloat.nan = "NaN" /\
  JS.toLocaleString2 JS.en_US PrimFloat.infinity = "∞" /\
  JS.toLocaleString2 JS.sv_SE PrimFloat.neg_infinity = "−∞".
Proof. repeat split; vm_compute; reflexivity. Qed.

(** C5 (amended): every formatted total is the active currency symbol
    followed by the number as the host's default locale renders it with two
    fraction digits.  A finite number other than zero is rendered from the
    shortest decimal [d] that reads back as the double (it rounds to the
    double, no decimal of fewer digits does, and it is the nearest to the
    double of those of its length) and from [n], the integer nearest to
    [100 * d] with a half rounded up: the locale's minus sign if the number
    is negative, the digits of [n / 100] grouped with the locale's group
    separator, the locale's decimal separator and the two digits of
    [n mod 100].  A zero is rendered the same way from [n = 0]; NaN and the
    infinities are rendered with the locale's symbols.  With the en-US
    locale, the cache [{income,100},{expense,40}] and the symbol "$" give
    income 100, expenses 40, balance 60 and the formatted balance "$60.00";
    an income of 1.005 is formatted "$1.01". *)
Theorem formatted_totals (L : JS.Locale) (cache : list Transaction)
  (X : Currency) :
  formattedIncome (financialSummary L cache X)
  = symbol X ++ JS.toLocaleString2 L (income (financialSummary L cache X)) /\
  formattedExpenses (financialSummary L cache X)
  = symbol X ++ JS.toLocaleString2 L (expenses (financialSummary L cache X)) /\
  formattedBalance (financialSummary L cache X)
  = symbol X ++ JS.toLocaleString2 L (balance (financialSummary L cache X)) /\
  (forall x s m e,
     Prim2SF x = S754_finite s m e ->
     let d := JS.shortestDecimal m e in
     let n := JS.hundredths d in
     JS.toLocaleString2 L x
     = JS.signString L s ++ JS.groupDigits L (JS.digits (n / 100))
       ++ JS.decimalSeparator L ++ JS.pad 2 (n mod 100) /\
     String.length (JS.pad 2 (n mod 100)) = 2%nat /\
     0 <= n /\
     (inject_Z n - (1 # 2) <= inject_Z 100 * JS.decimalValue d
      < inject_Z n + (1 # 2))%Q /\
     1 <= JS.coefficient d /\
     JS.readsBack m e (JS.decimalValue d) = true /\
     (JS.lowerBound m e <= JS.decimalValue d <= JS.upperBound m e)%Q /\
     (forall c' q',
        1 <= c' -> JS.exponent10 d < q' ->
        JS.readsBack m e (inject_Z c' * JS.pow 10 q') = false) /\
     (forall c',
        1 <= c' ->
        JS.readsBack m e (inject_Z c' * JS.pow 10 (JS.exponent10 d)) = true ->
        (Qabs (JS.doubleValue m e - JS.decimalValue d)
         <= Qabs (JS.doubleValue m e
                  - inject_Z c' * JS.pow 10 (JS.exponent10 d)))%Q)) /\
  (forall x s,
     Prim2SF x = S754_zero s ->
     JS.toLocaleString2 L x
     = JS.signString L s ++ JS.groupDigits L "0" ++ JS.decimalSeparator L
       ++ "00") /\
  (forall x, Prim2SF x = S754_nan -> JS.toLocaleString2 L x = JS.nanSymbol L) /\
  (forall x s,
     Prim2SF x = S754_infinity s ->
     JS.toLocaleString2 L x = JS.signString L s ++ JS.infinitySymbol L) /\
  income (financialSummary JS.en_US [salary; rent] dollar) = 100%float /\
  expenses (financialSummary JS.en_US [salary; rent] dollar) = 40%float /\
  balance (financialSummary JS.en_US [salary; rent] dollar) = 60%float /\
  formattedBalance (financialSummary JS.en_US [salary; rent] dollar)
  = "$60.00" /\
  formattedIncome (financialSummary JS.en_US [refund] dollar) = "$1.01".
Proof.
  split; [reflexivity|]. split; [reflexivity|]. split; [reflexivity|].
  split.
  { intros x s m e Hx d n.
    destruct (shortest_readsBack m e) as [Hc Hr].
    split; [exact (toLocaleString2_finite L x s m e Hx)|].
    split; [apply pad2_length, Z.mod_pos_bound; lia|].
    split; [apply hundredths_nonneg, Hc|].
    split; [apply hundredths_nearest|].
    split; [exact Hc|]. split; [exact Hr|].
    split; [apply readsBack_within, Hr|].
    split.
    - intros c' q'. apply shortest_minimal.
    - intros c'. apply shortest_nearest. }
  split.
  { intros x s Hx. unfold JS.toLocaleString2. rewrite Hx. reflexivity. }
  split.
  { intros x Hx. unfold JS.toLocaleString2. rewrite Hx. reflexivity. }
  split.
  { intros x s Hx. unfold JS.toLocaleString2. rewrite Hx. reflexivity. }
  repeat split; vm_compute; reflexivity.
Qed.

(** C5, as stated, fails: the rendering follows the default locale of the
    host.  Under a German locale the same cache and symbol are formatted
    with a decimal comma. *)
Lemma formatted_balance_follows_locale :
  formattedBalance (financialSummary JS.de_DE [salary; rent] dollar) = "$60,00"
  /\ formattedBalance (financialSummary JS.de_DE [salary; rent] dollar)
     <> "$60.00"
  /\ ~ (forall L : JS.Locale,
          formattedBalance (financialSummary L [salary; rent] dollar)
          = "$60.00").
Proof.
  assert (H : formattedBalance (financialSummary JS.de_DE [salary; rent] dollar)
              = "$60,00") by (vm_compute; reflexivity).
  split; [exact H|].
  split; [rewrite H; discriminate|].
  intro Hall. specialize (Hall JS.de_DE). rewrite H in Hall. discriminate.
Qed.

(** ** Fetching *)

(** The query of a fetch: every column of [transactions], newest
    transaction date first, bounded by the usable ends of the date range. *)
Lemma fetchTransactions_trace (env : Env) (s : State) (u : Auth.User) :
  user env = Some u ->
  usableBound (start (dateRange s)) ->
  usableBound (end_ (dateRange s)) ->
  exists rest,
    trace (fetchTransactions env s)
    = Request (Supabase.Select
                 {| Supabase.table := "transactions";
                    Supabase.columns := Some "*";
                    Supabase.ordering := Some ("transaction_date", false);
                    Supabase.filters :=
                      (boundFilter Supabase.FGte (start (dateRange s))
                       ++ boundFilter Supabase.FLte (end_ (dateRange s)))%list
                 |}) :: rest
    /\ existsb isRequest rest = false.
Proof.
  intros Hu Hs He.
  unfold fetchTransactions, bind, tryFinally, tryCatch, useAuth, getState,
    setLoading.
  cbn -[datePortion utcDate]. rewrite Hu.
  cbn -[datePortion utcDate].
  destruct (start (dateRange s)) as [[t1|]|], (end_ (dateRange s)) as [[t2|]|];
    try (exfalso; exact Hs); try (exfalso; exact He);
    cbn -[datePortion utcDate];
    rewrite ?(datePortion_valid _ _ _ Hs); cbn -[datePortion utcDate];
    rewrite ?(datePortion_valid _ _ _ He); cbn -[datePortion utcDate];
    (destruct (remote env _) as [r|e];
     [unfold throwIfError; destruct (Supabase.error r)|]);
    cbn -[datePortion utcDate]; eexists; split; reflexivity.
Qed.

Lemma usableBound_dec (d : option JS.Date) :
  {usableBound d} + {~ usableBound d}.
Proof.
  destruct d as [[t|]|]; simpl; [|right; tauto|left; exact I].
  destruct (Z_le_dec (- JS.maxTimeValue) t), (Z_le_dec t JS.maxTimeValue);
    [left; split; assumption|right; tauto..].
Qed.

(** A bound that [toISOString] rejects ends the fetch before any request
    is issued. *)
Lemma fetch_unusable_bound (env : Env) (s : State) (u : Auth.User) :
  user env = Some u ->
  ~ usableBound (start (dateRange s)) \/ ~ usableBound (end_ (dateRange s)) ->
  existsb isRequest (trace (fetchTransactions env s)) = false /\
  transactions (final (fetchTransactions env s)) = transactions s.
Proof.
  intros Hu Hbad.
  unfold fetchTransactions, bind, tryFinally, tryCatch, useAuth, getState,
    setLoading.
  cbn -[datePortion utcDate]. rewrite Hu.
  cbn -[datePortion utcDate].
  destruct (usableBound_dec (start (dateRange s))) as [Hs|Hs].
  - destruct Hbad as [Hbad|Hbad]; [contradiction|].
    destruct (start (dateRange s)) as [[t1|]|]; try (exfalso; exact Hs);
      destruct (end_ (dateRange s)) as [d2|]; try (exfalso; apply Hbad; exact I);
      cbn -[datePortion utcDate];
      rewrite ?(datePortion_valid _ _ _ Hs); cbn -[datePortion utcDate];
      rewrite (datePortion_invalid _ _ _ Hbad); cbn -[datePortion utcDate];
      split; reflexivity.
  - destruct (start (dateRange s)) as [d1|]; [|exfalso; apply Hs; exact I].
    cbn -[datePortion utcDate]. rewrite (datePortion_invalid _ _ _ Hs).
    cbn -[datePortion utcDate]. split; reflexivity.
Qed.

Lemma no_request_in (t : list effect) (r : Supabase.request) :
  existsb isRequest t = false -> ~ In (Request r) t.
Proof.
  intros Hnone Hin.
  assert (Hsome : existsb isRequest t = true)
    by (apply existsb_exists; exists (Request r); split; [exact Hin | reflexivity]).
  congruence.
Qed.

(** C1 (amended): every query a fetch issues for an authenticated user asks
    for all columns of [transactions], ordered by [transaction_date]
    descending, narrowed by [>=] the UTC date of [range.start] and [<=] the
    UTC date of [range.end] when those bounds are present, and carries no
    equality filter: which owner's rows are returned is left to the remote
    store.  When the bounds present are valid dates, exactly one request is
    issued, and it is this query. *)
Theorem fetch_query (env : Env) (s : State) (u : Auth.User) :
  user env = Some u ->
  (forall q,
      In (Request (Supabase.Select q)) (trace (fetchTransactions env s)) ->
      Supabase.table q = "transactions" /\
      Supabase.columns q = Some "*" /\
      Supabase.ordering q = Some ("transaction_date", false) /\
      Supabase.filters q
      = (boundFilter Supabase.FGte (start (dateRange s))
         ++ boundFilter Supabase.FLte (end_ (dateRange s)))%list /\
      (forall column value,
          ~ In (Supabase.FEq column value) (Supabase.filters q))) /\
  (usableBound (start (dateRange s)) ->
   usableBound (end_ (dateRange s)) ->
   exists q rest,
     trace (fetchTransactions env s) = Request (Supabase.Select q) :: rest /\
     existsb isRequest rest = false).
Proof.
  intro Hu. split.
  - intros q Hin.
    destruct (usableBound_dec (start (dateRange s))) as [Hs|Hs];
      [destruct (usableBound_dec (end_ (dateRange s))) as [He|He]|].
    + destruct (fetchTransactions_trace env s u Hu Hs He) as (rest & Ht & Hr).
      rewrite Ht in Hin. destruct Hin as [Hin|Hin];
        [|exfalso; exact (no_request_in _ _ Hr Hin)].
      injection Hin as <-.
      cbn [Supabase.table Supabase.columns Supabase.ordering Supabase.filters].
      repeat split.
      intros column value Hf.
      apply in_app_or in Hf as [Hf|Hf].
      * destruct (start (dateRange s)) as [[t|]|]; simpl in Hf;
          intuition discriminate.
      * destruct (end_ (dateRange s)) as [[t|]|]; simpl in Hf;
          intuition discriminate.
    + exfalso.
      destruct (fetch_unusable_bound env s u Hu (or_intror He)) as [Hnone _].
      exact (no_request_in _ _ Hnone Hin).
    + exfalso.
      destruct (fetch_unusable_bound env s u Hu (or_introl Hs)) as [Hnone _].
      exact (no_request_in _ _ Hnone Hin).
  - intros Hs He.
    destruct (fetchTransactions_trace env s u Hu Hs He) as (rest & Ht & Hr).
    eexists; exists rest. split; [exact Ht | exact Hr].
Qed.

(** The fetch of the first week of January 2024 in alice's session. *)
Lemma fetch_query_witness :
  (forall q,
      In (Request (Supabase.Select q))
        (trace (fetchTransactions (session (answering [salary; rent]) JS.en_US)
                  {| transactions := []; loading := true;
                     dateRange := firstWeek; currentCurrency := dollar |})) ->
      Supabase.table q = "transactions" /\
      Supabase.columns q = Some "*" /\
      Supabase.ordering q = Some ("transaction_date", false) /\
      Supabase.filters q
      = [Supabase.FGte "transaction_date" "2024-01-01";
         Supabase.FLte "transaction_date" "2024-01-07"] /\
      (forall column value,
          ~ In (Supabase.FEq column value) (Supabase.filters q))) /\
  exists q rest,
    trace (fetchTransactions (session (answering [salary; rent]) JS.en_US)
             {| transactions := []; loading := true; dateRange := firstWeek;
                currentCurrency := dollar |})
    = Request (Supabase.Select q) :: rest /\
    existsb isRequest rest = false.
Proof.
  destruct (fetch_query (session (answering [salary; rent]) JS.en_US)
              {| transactions := []; loading := true; dateRange := firstWeek;
                 currentCurrency := dollar |} alice eq_refl) as [Hform Hone].
  split; [exact Hform|].
  apply Hone; simpl; unfold JS.maxTimeValue; lia.
Defined.

(** C1, as stated, fails: the query of a fetch for an authenticated user
    has no filter on the owner. *)
Lemma fetch_has_no_owner_filter :
  trace (fetchTransactions (session (answering [salary; rent]) JS.en_US)
           initialState)
  = [Request (Supabase.Select
                {| Supabase.table := "transactions";
                   Supabase.columns := Some "*";
                   Supabase.ordering := Some ("transaction_date", false);
                   Supabase.filters := [] |})]
  /\ ~ ownerFiltered alice
        {| Supabase.table := "transactions";
           Supabase.columns := Some "*";
           Supabase.ordering := Some ("transaction_date", false);
           Supabase.filters := [] |}.
Proof.
  split; [vm_compute; reflexivity|].
  unfold ownerFiltered; simpl; tauto.
Qed.

(** ** Mutations: how each operation runs *)

Ltac enter op Hu :=
  unfold op, bind, tryCatch, useAuth;
  cbn -[typeName truthy]; rewrite Hu; cbn -[typeName truthy].

Lemma addTransaction_primary_failure env s u n :
  user env = Some u ->
  Supabase.reportsFailure (remote env (createRequest u n)) = true ->
  exists e,
    addTransaction n env s
    = {| result := Normal Null; final := s;
         trace := [Request (createRequest u n);
                   ConsoleError "Error adding transaction:" e;
                   ToastError "Failed to add transaction" failureClass] |}.
Proof.
  intros Hu Hf. unfold createRequest in *.
  enter addTransaction Hu.
  destruct (remote env _) as [r|e]; cbn -[typeName truthy].
  - unfold throwIfError. simpl in Hf.
    destruct (Supabase.error r) as [e|]; [|discriminate].
    cbn -[typeName truthy]. exists e. reflexivity.
  - exists e. reflexivity.
Qed.

Lemma addTransaction_audit_rejected env s u n e :
  user env = Some u ->
  succeeds (remote env (createRequest u n)) ->
  remote env (createAudit u n) = Supabase.Rejected e ->
  addTransaction n env s
  = {| result := Normal Null; final := s;
       trace := [Request (createRequest u n); Request (createAudit u n);
                 ConsoleError "Error adding transaction:" e;
                 ToastError "Failed to add transaction" failureClass] |}.
Proof.
  intros Hu (r & Hr & Herr) Ha. unfold createRequest, createAudit in *.
  enter addTransaction Hu.
  rewrite Hr. cbn -[typeName truthy].
  unfold throwIfError. rewrite Herr. cbn -[typeName truthy].
  rewrite Ha. reflexivity.
Qed.

Lemma addTransaction_success env s u n row :
  user env = Some u ->
  returnsRow (remote env (createRequest u n)) row ->
  resolves (remote env (createAudit u n)) = true ->
  addTransaction n env s
  = {| result := Normal (Value (withDisplayAmount row (amount row)));
       final :=
         withTransactions s
           (withDisplayAmount row (amount row) :: transactions s);
       trace := [Request (createRequest u n); Request (createAudit u n);
                 ToastSuccess
                   ((if isIncome (NewTransaction.type n)
                     then "Income" else "Expense") ++ " added successfully")
                   successClass] |}.
Proof.
  intros Hu (rest & Hr) Ha. unfold createRequest, createAudit in *.
  enter addTransaction Hu.
  rewrite Hr. clear Hr. cbn -[typeName truthy].
  destruct (remote env _) as [a|e]; [|discriminate].
  reflexivity.
Qed.

Lemma updateTransaction_primary_failure env s u id' updates :
  user env = Some u ->
  Supabase.reportsFailure (remote env (updateRequest id' updates)) = true ->
  exists e,
    updateTransaction id' updates env s
    = {| result := Normal Null; final := s;
         trace := [Request (updateRequest id' updates);
                   ConsoleError "Error updating transaction:" e;
                   ToastError "Failed to update transaction" failureClass] |}.
Proof.
  intros Hu Hf. unfold updateRequest in *.
  enter updateTransaction Hu.
  destruct (remote env _) as [r|e]; cbn -[typeName truthy].
  - unfold throwIfError. simpl in Hf.
    destruct (Supabase.error r) as [e|]; [|discriminate].
    cbn -[typeName truthy]. exists e. reflexivity.
  - exists e. reflexivity.
Qed.

Lemma updateTransaction_audit_rejected env s u id' updates e :
  user env = Some u ->
  succeeds (remote env (updateRequest id' updates)) ->
  remote env (updateAudit u updates) = Supabase.Rejected e ->
  updateTransaction id' updates env s
  = {| result := Normal Null; final := s;
       trace := [Request (updateRequest id' updates);
                 Request (updateAudit u updates);
                 ConsoleError "Error updating transaction:" e;
                 ToastError "Failed to update transaction" failureClass] |}.
Proof.
  intros Hu (r & Hr & Herr) Ha. unfold updateRequest, updateAudit in *.
  enter updateTransaction Hu.
  rewrite Hr. cbn -[typeName truthy].
  unfold throwIfError. rewrite Herr. cbn -[typeName truthy].
  rewrite Ha. reflexivity.
Qed.

Lemma updateTransaction_success env s u id' updates row :
  user env = Some u ->
  returnsRow (remote env (updateRequest id' updates)) row ->
  resolves (remote env (updateAudit u updates)) = true ->
  updateTransaction id' updates env s
  = {| result := Normal (Value (withDisplayAmount row (amount row)));
       final :=
         withTransactions s
           (map (fun transaction =>
                   if String.eqb (id transaction) id'
                   then withDisplayAmount row (amount row)
                   else transaction)
                (transactions s));
       trace := [Request (updateRequest id' updates);
                 Request (updateAudit u updates);
                 ToastSuccess "Transaction updated successfully"
                   successClass] |}.
Proof.
  intros Hu (rest & Hr) Ha. unfold updateRequest, updateAudit in *.
  enter updateTransaction Hu.
  rewrite Hr. clear Hr. cbn -[typeName truthy].
  destruct (remote env _) as [a|e]; [|discriminate].
  reflexivity.
Qed.

Lemma deleteTransaction_primary_failure env s u id' :
  user env = Some u ->
  Supabase.reportsFailure (remote env (deleteRequest id')) = true ->
  exists e,
    deleteTransaction id' env s
    = {| result := Normal (Value false); final := s;
         trace := [Request (deleteRequest id');
                   ConsoleError "Error deleting transaction:" e;
                   ToastError "Failed to delete transaction" failureClass] |}.
Proof.
  intros Hu Hf. unfold deleteRequest in *.
  enter deleteTransaction Hu.
  destruct (remote env _) as [r|e]; cbn -[typeName truthy].
  - unfold throwIfError. simpl in Hf.
    destruct (Supabase.error r) as [e|]; [|discriminate].
    cbn -[typeName truthy]. exists e. reflexivity.
  - exists e. reflexivity.
Qed.

Lemma deleteTransaction_audit_rejected env s u id' e :
  user env = Some u ->
  succeeds (remote env (deleteRequest id')) ->
  remote env (deleteAudit u) = Supabase.Rejected e ->
  deleteTransaction id' env s
  = {| result := Normal (Value false); final := s;
       trace := [Request (deleteRequest id'); Request (deleteAudit u);
                 ConsoleError "Error deleting transaction:" e;
                 ToastError "Failed to delete transaction" failureClass] |}.
Proof.
  intros Hu (r & Hr & Herr) Ha. unfold deleteRequest, deleteAudit in *.
  enter deleteTransaction Hu.
  rewrite Hr. cbn -[typeName truthy].
  unfold throwIfError. rewrite Herr. cbn -[typeName truthy].
  rewrite Ha. reflexivity.
Qed.

Lemma deleteTransaction_success env s u id' :
  user env = Some u ->
  succeeds (remote env (deleteRequest id')) ->
  resolves (remote env (deleteAudit u)) = true ->
  deleteTransaction id' env s
  = {| result := Normal (Value true);
       final :=
         withTransactions s
           (filter (fun transaction => negb (String.eqb (id transaction) id'))
              (transactions s));
       trace := [Request (deleteRequest id'); Request (deleteAudit u);
                 ToastSuccess "Transaction deleted successfully"
                   successClass] |}.
Proof.
  intros Hu (r & Hr & Herr) Ha. unfold deleteRequest, deleteAudit in *.
  enter deleteTransaction Hu.
  rewrite Hr. cbn -[typeName truthy].
  unfold throwIfError. rewrite Herr. clear Hr. cbn -[typeName truthy].
  destruct (remote env _) as [a|e]; [|discriminate].
  reflexivity.
Qed.

(** ** Mutations: failure *)

(** C4: when the remote store reports a failure for the request of a
    create, update or remove (an [error] in its answer, or a rejected
    promise), the operation leaves the state, hence the cache, as it was,
    shows a failure toast, and completes normally with [null] (create,
    update) or [false] (remove): nothing is thrown to the caller. *)
Theorem failed_mutation_keeps_cache (env : Env) (s : State) (u : Auth.User) :
  user env = Some u ->
  (forall n,
      Supabase.reportsFailure (remote env (createRequest u n)) = true ->
      result (addTransaction n env s) = Normal Null /\
      final (addTransaction n env s) = s /\
      In (ToastError "Failed to add transaction" failureClass)
        (trace (addTransaction n env s)) /\
      existsb isSuccessToast (trace (addTransaction n env s)) = false) /\
  (forall id' updates,
      Supabase.reportsFailure (remote env (updateRequest id' updates)) = true ->
      result (updateTransaction id' updates env s) = Normal Null /\
      final (updateTransaction id' updates env s) = s /\
      In (ToastError "Failed to update transaction" failureClass)
        (trace (updateTransaction id' updates env s)) /\
      existsb isSuccessToast (trace (updateTransaction id' updates env s))
      = false) /\
  (forall id',
      Supabase.reportsFailure (remote env (deleteRequest id')) = true ->
      result (deleteTransaction id' env s) = Normal (Value false) /\
      final (deleteTransaction id' env s) = s /\
      In (ToastError "Failed to delete transaction" failureClass)
        (trace (deleteTransaction id' env s)) /\
      existsb isSuccessToast (trace (deleteTransaction id' env s)) = false).
Proof.
  intro Hu. repeat split.
  all: try match goal with
    | H : Supabase.reportsFailure (remote _ (createRequest _ ?n)) = true |- _ =>
        destruct (addTransaction_primary_failure env s u n Hu H) as [e ->]
    | H : Supabase.reportsFailure (remote _ (updateRequest ?i ?v)) = true |- _ =>
        destruct (updateTransaction_primary_failure env s u i v Hu H) as [e ->]
    | H : Supabase.reportsFailure (remote _ (deleteRequest ?i)) = true |- _ =>
        destruct (deleteTransaction_primary_failure env s u i Hu H) as [e ->]
    end; try reflexivity; simpl; auto.
Qed.

(** The three operations against a store that refuses every request. *)
Lemma failed_mutation_witness :
  (result (addTransaction lunch (session refusing JS.en_US)
             (cached [salary; rent])) = Normal Null /\
   final (addTransaction lunch (session refusing JS.en_US)
            (cached [salary; rent])) = cached [salary; rent] /\
   In (ToastError "Failed to add transaction" failureClass)
     (trace (addTransaction lunch (session refusing JS.en_US)
               (cached [salary; rent]))) /\
   existsb isSuccessToast
     (trace (addTransaction lunch (session refusing JS.en_US)
               (cached [salary; rent]))) = false) /\
  (result (updateTransaction "tx-2" cheaper (session refusing JS.en_US)
             (cached [salary; rent])) = Normal Null /\
   final (updateTransaction "tx-2" cheaper (session refusing JS.en_US)
            (cached [salary; rent])) = cached [salary; rent] /\
   In (ToastError "Failed to update transaction" failureClass)
     (trace (updateTransaction "tx-2" cheaper (session refusing JS.en_US)
               (cached [salary; rent]))) /\
   existsb isSuccessToast
     (trace (updateTransaction "tx-2" cheaper (session refusing JS.en_US)
               (cached [salary; rent]))) = false) /\
  (result (deleteTransaction "tx-1" (session refusing JS.en_US)
             (cached [salary; rent])) = Normal (Value false) /\
   final (deleteTransaction "tx-1" (session refusing JS.en_US)
            (cached [salary; rent])) = cached [salary; rent] /\
   In (ToastError "Failed to delete transaction" failureClass)
     (trace (deleteTransaction "tx-1" (session refusing JS.en_US)
               (cached [salary; rent]))) /\
   existsb isSuccessToast
     (trace (deleteTransaction "tx-1" (session refusing JS.en_US)
               (cached [salary; rent]))) = false).
Proof.
  destruct (failed_mutation_keeps_cache (session refusing JS.en_US)
              (cached [salary; rent]) alice eq_refl) as (Hadd & Hupd & Hdel).
  split; [apply Hadd; reflexivity|].
  split; [apply Hupd; reflexivity | apply Hdel; reflexivity].
Defined.

(** ** Mutations: success *)

(** C6: when the insert of a create succeeds at the remote store and
    returns the new row (and the audit-log request that follows does not
    reject), the cache grows by exactly one entry; the new entry is at
    index 0, carries the identifier the store assigned, has [displayAmount]
    equal to its [amount], and the entries cached before follow it in
    their previous order. *)
Theorem create_prepends (env : Env) (s : State) (u : Auth.User)
  (n : NewTransaction.t) (row : Transaction) :
  user env = Some u ->
  returnsRow (remote env (createRequest u n)) row ->
  resolves (remote env (createAudit u n)) = true ->
  exists newTx,
    result (addTransaction n env s) = Normal (Value newTx) /\
    transactions (final (addTransaction n env s)) = newTx :: transactions s /\
    List.length (transactions (final (addTransaction n env s)))
    = S (List.length (transactions s)) /\
    nth_error (transactions (final (addTransaction n env s))) 0 = Some newTx /\
    (forall i, nth_error (transactions (final (addTransaction n env s))) (S i)
               = nth_error (transactions s) i) /\
    id newTx = id row /\
    amount newTx = amount row /\
    displayAmount newTx = Some (amount newTx) /\
    newTx = withDisplayAmount row (amount row).
Proof.
  intros Hu Hrow Haudit.
  rewrite (addTransaction_success env s u n row Hu Hrow Haudit).
  exists (withDisplayAmount row (amount row)). simpl.
  repeat split; reflexivity.
Qed.

(** Creating [lunch] on a cache of two entries. *)
Lemma create_prepends_witness :
  exists newTx,
    result (addTransaction lunch (session (answering [lunchRow]) JS.en_US)
              (cached [salary; rent])) = Normal (Value newTx) /\
    transactions (final (addTransaction lunch
                           (session (answering [lunchRow]) JS.en_US)
                           (cached [salary; rent])))
    = newTx :: [salary; rent] /\
    List.length (transactions (final (addTransaction lunch
                           (session (answering [lunchRow]) JS.en_US)
                           (cached [salary; rent])))) = 3%nat /\
    nth_error (transactions (final (addTransaction lunch
                           (session (answering [lunchRow]) JS.en_US)
                           (cached [salary; rent])))) 0 = Some newTx /\
    (forall i, nth_error (transactions (final (addTransaction lunch
                           (session (answering [lunchRow]) JS.en_US)
                           (cached [salary; rent])))) (S i)
               = nth_error [salary; rent] i) /\
    id newTx = "tx-3" /\
    amount newTx = 25%float /\
    displayAmount newTx = Some (amount newTx) /\
    newTx = withDisplayAmount lunchRow 25%float.
Proof.
  apply (create_prepends (session (answering [lunchRow]) JS.en_US)
           (cached [salary; rent]) alice lunch lunchRow).
  - reflexivity.
  - exists []. reflexivity.
  - reflexivity.
Defined.

(** C7: when the update of [id'] succeeds at the remote store and returns
    the updated row (and the audit-log request that follows does not
    reject), the cache keeps its length, every position that held an entry
    with identifier [id'] now holds the updated row, and every other
    position holds the very entry it held before. *)
Theorem update_replaces_in_place (env : Env) (s : State) (u : Auth.User)
  (id' : string) (updates : Updates.t) (row : Transaction) :
  user env = Some u ->
  returnsRow (remote env (updateRequest id' updates)) row ->
  resolves (remote env (updateAudit u updates)) = true ->
  result (updateTransaction id' updates env s)
  = Normal (Value (withDisplayAmount row (amount row))) /\
  List.length (transactions (final (updateTransaction id' updates env s)))
  = List.length (transactions s) /\
  (forall i old,
      nth_error (transactions s) i = Some old ->
      id old = id' ->
      nth_error (transactions (final (updateTransaction id' updates env s))) i
      = Some (withDisplayAmount row (amount row))) /\
  (forall i old,
      nth_error (transactions s) i = Some old ->
      id old <> id' ->
      nth_error (transactions (final (updateTransaction id' updates env s))) i
      = Some old).
Proof.
  intros Hu Hrow Haudit.
  rewrite (updateTransaction_success env s u id' updates row Hu Hrow Haudit).
  simpl. split; [reflexivity|]. split; [apply length_map|].
  split; intros i old Hi Hid; rewrite nth_error_map, Hi; simpl.
  - apply String.eqb_eq in Hid. now rewrite Hid.
  - apply String.eqb_neq in Hid. now rewrite Hid.
Qed.

(** Updating the amount of [rent], the second of two cached entries. *)
Lemma update_replaces_in_place_witness :
  result (updateTransaction "tx-2" cheaper
            (session (answering [rentUpdated]) JS.en_US)
            (cached [salary; rent]))
  = Normal (Value (withDisplayAmount rentUpdated (amount rentUpdated))) /\
  List.length (transactions (final (updateTransaction "tx-2" cheaper
                                 (session (answering [rentUpdated]) JS.en_US)
                                 (cached [salary; rent]))))
  = List.length (transactions (cached [salary; rent])) /\
  (forall i old,
      nth_error (transactions (cached [salary; rent])) i = Some old ->
      id old = "tx-2" ->
      nth_error (transactions (final (updateTransaction "tx-2" cheaper
                                 (session (answering [rentUpdated]) JS.en_US)
                                 (cached [salary; rent])))) i
      = Some (withDisplayAmount rentUpdated (amount rentUpdated))) /\
  (forall i old,
      nth_error (transactions (cached [salary; rent])) i = Some old ->
      id old <> "tx-2" ->
      nth_error (transactions (final (updateTransaction "tx-2" cheaper
                                 (session (answering [rentUpdated]) JS.en_US)
                                 (cached [salary; rent])))) i
      = Some old).
Proof.
  apply (update_replaces_in_place (session (answering [rentUpdated]) JS.en_US)
           (cached [salary; rent]) alice "tx-2" cheaper rentUpdated).
  - reflexivity.
  - exists []. reflexivity.
  - reflexivity.
Defined.

Lemma filter_split_length {A : Type} (f : A -> bool) (l : list A) :
  (List.length (filter (fun x => negb (f x)) l) + List.length (filter f l)
   = List.length l)%nat.
Proof.
  induction l as [|x l IH]; simpl; [reflexivity|].
  destruct (f x); simpl; lia.
Qed.

(** C8 (amended): when the delete of [id'] succeeds at the remote store
    (and the audit-log request that follows does not reject), no cached
    entry with identifier [id'] remains, the other entries stay in their
    order, and the cache shrinks by the number of entries that carried
    [id']: by exactly one when exactly one cached entry carried it. *)
Theorem remove_drops_matching (env : Env) (s : State) (u : Auth.User)
  (id' : string) :
  user env = Some u ->
  succeeds (remote env (deleteRequest id')) ->
  resolves (remote env (deleteAudit u)) = true ->
  result (deleteTransaction id' env s) = Normal (Value true) /\
  (forall t, In t (transactions (final (deleteTransaction id' env s))) ->
             id t <> id') /\
  transactions (final (deleteTransaction id' env s))
  = filter (fun t => negb (String.eqb (id t) id')) (transactions s) /\
  (List.length (transactions (final (deleteTransaction id' env s)))
   + occurrences id' (transactions s)
   = List.length (transactions s))%nat /\
  (occurrences id' (transactions s) = 1%nat ->
   S (List.length (transactions (final (deleteTransaction id' env s))))
   = List.length (transactions s)).
Proof.
  intros Hu Hok Haudit.
  rewrite (deleteTransaction_success env s u id' Hu Hok Haudit).
  simpl.
  assert (Hlen := filter_split_length (fun t => String.eqb (id t) id')
                    (transactions s)).
  split; [reflexivity|]. split.
  - intros t Hin. apply filter_In in Hin as [_ Hne].
    apply negb_true_iff, String.eqb_neq in Hne. exact Hne.
  - split; [reflexivity|]. unfold occurrences.
    split; [exact Hlen | intro Hone; lia].
Qed.

(** Removing [salary], the first of two cached entries. *)
Lemma remove_drops_matching_witness :
  result (deleteTransaction "tx-1" (session (answering []) JS.en_US)
            (cached [salary; rent])) = Normal (Value true) /\
  (forall t, In t (transactions (final (deleteTransaction "tx-1"
                                          (session (answering []) JS.en_US)
                                          (cached [salary; rent])))) ->
             id t <> "tx-1") /\
  transactions (final (deleteTransaction "tx-1"
                         (session (answering []) JS.en_US)
                         (cached [salary; rent])))
  = [rent] /\
  (List.length (transactions (final (deleteTransaction "tx-1"
                                       (session (answering []) JS.en_US)
                                       (cached [salary; rent]))))
   + 1 = 2)%nat /\
  (1%nat = 1%nat ->
   S (List.length (transactions (final (deleteTransaction "tx-1"
                                          (session (answering []) JS.en_US)
                                          (cached [salary; rent])))))
   = 2%nat).
Proof.
  apply (remove_drops_matching (session (answering []) JS.en_US)
           (cached [salary; rent]) alice "tx-1").
  - reflexivity.
  - eexists; split; reflexivity.
  - reflexivity.
Defined.

(** C8, as stated, fails: a delete that succeeds at the remote store for an
    identifier the cache does not hold leaves the cache at its size. *)
Lemma remove_uncached_keeps_size :
  user (session (answering []) JS.en_US) = Some alice /\
  succeeds (remote (session (answering []) JS.en_US) (deleteRequest "tx-9")) /\
  result (deleteTransaction "tx-9" (session (answering []) JS.en_US)
            (cached [salary; rent])) = Normal (Value true) /\
  transactions (final (deleteTransaction "tx-9"
                         (session (answering []) JS.en_US)
                         (cached [salary; rent])))
  = [salary; rent] /\
  S (List.length (transactions (final (deleteTransaction "tx-9"
                                         (session (answering []) JS.en_US)
                                         (cached [salary; rent])))))
  <> List.length (transactions (cached [salary; rent])).
Proof.
  split; [reflexivity|].
  split; [eexists; split; reflexivity|].
  split; [vm_compute; reflexivity|].
  split; [vm_compute; reflexivity|].
  vm_compute. discriminate.
Qed.

(** ** Mutations: the audit log *)

(** C9 (amended): when the request of a create, update or remove succeeds
    and the promise of the audit-log insert that follows rejects, the
    operation takes its failure path although the request was already
    issued and answered: failure toast, [null] or [false] returned, state
    and cache as before.  When the audit-log promise resolves, its answer
    is not inspected: with or without an [error] in it the operation
    completes on its success path. *)
Theorem audit_rejection_fails_operation (env : Env) (s : State)
  (u : Auth.User) :
  user env = Some u ->
  (forall n e,
      succeeds (remote env (createRequest u n)) ->
      remote env (createAudit u n) = Supabase.Rejected e ->
      result (addTransaction n env s) = Normal Null /\
      final (addTransaction n env s) = s /\
      In (ToastError "Failed to add transaction" failureClass)
        (trace (addTransaction n env s)) /\
      In (Request (createRequest u n)) (trace (addTransaction n env s))) /\
  (forall id' updates e,
      succeeds (remote env (updateRequest id' updates)) ->
      remote env (updateAudit u updates) = Supabase.Rejected e ->
      result (updateTransaction id' updates env s) = Normal Null /\
      final (updateTransaction id' updates env s) = s /\
      In (ToastError "Failed to update transaction" failureClass)
        (trace (updateTransaction id' updates env s)) /\
      In (Request (updateRequest id' updates))
        (trace (updateTransaction id' updates env s))) /\
  (forall id' e,
      succeeds (remote env (deleteRequest id')) ->
      remote env (deleteAudit u) = Supabase.Rejected e ->
      result (deleteTransaction id' env s) = Normal (Value false) /\
      final (deleteTransaction id' env s) = s /\
      In (ToastError "Failed to delete transaction" failureClass)
        (trace (deleteTransaction id' env s)) /\
      In (Request (deleteRequest id')) (trace (deleteTransaction id' env s))) /\
  (forall n row answer,
      returnsRow (remote env (createRequest u n)) row ->
      remote env (createAudit u n) = Supabase.Resolved answer ->
      result (addTransaction n env s)
      = Normal (Value (withDisplayAmount row (amount row))) /\
      transactions (final (addTransaction n env s))
      = withDisplayAmount row (amount row) :: transactions s /\
      existsb isFailureToast (trace (addTransaction n env s)) = false) /\
  (forall id' updates row answer,
      returnsRow (remote env (updateRequest id' updates)) row ->
      remote env (updateAudit u updates) = Supabase.Resolved answer ->
      result (updateTransaction id' updates env s)
      = Normal (Value (withDisplayAmount row (amount row))) /\
      existsb isFailureToast (trace (updateTransaction id' updates env s))
      = false) /\
  (forall id' answer,
      succeeds (remote env (deleteRequest id')) ->
      remote env (deleteAudit u) = Supabase.Resolved answer ->
      result (deleteTransaction id' env s) = Normal (Value true) /\
      transactions (final (deleteTransaction id' env s))
      = filter (fun t => negb (String.eqb (id t) id')) (transactions s) /\
      existsb isFailureToast (trace (deleteTransaction id' env s)) = false).
Proof.
  intro Hu.
  split; [|split; [|split; [|split; [|split]]]].
  - intros n e Hok Hrej.
    rewrite (addTransaction_audit_rejected env s u n e Hu Hok Hrej).
    simpl. repeat split; auto 10.
  - intros id' updates e Hok Hrej.
    rewrite (updateTransaction_audit_rejected env s u id' updates e Hu Hok Hrej).
    simpl. repeat split; auto 10.
  - intros id' e Hok Hrej.
    rewrite (deleteTransaction_audit_rejected env s u id' e Hu Hok Hrej).
    simpl. repeat split; auto 10.
  - intros n row answer Hrow Hans.
    assert (Hres : resolves (remote env (createAudit u n)) = true)
      by (rewrite Hans; reflexivity).
    rewrite (addTransaction_success env s u n row Hu Hrow Hres).
    simpl. auto.
  - intros id' updates row answer Hrow Hans.
    assert (Hres : resolves (remote env (updateAudit u updates)) = true)
      by (rewrite Hans; reflexivity).
    rewrite (updateTransaction_success env s u id' updates row Hu Hrow Hres).
    simpl. auto.
  - intros id' answer Hok Hans.
    assert (Hres : resolves (remote env (deleteAudit u)) = true)
      by (rewrite Hans; reflexivity).
    rewrite (deleteTransaction_success env s u id' Hu Hok Hres).
    simpl. auto.
Qed.

(** A create and a remove whose audit-log promise rejects, and an update
    whose audit-log answer carries an error. *)
Lemma audit_rejection_witness :
  (result (addTransaction lunch
             (session (auditRejecting [lunchRow]) JS.en_US)
             (cached [salary; rent])) = Normal Null /\
   final (addTransaction lunch
            (session (auditRejecting [lunchRow]) JS.en_US)
            (cached [salary; rent])) = cached [salary; rent] /\
   In (ToastError "Failed to add transaction" failureClass)
     (trace (addTransaction lunch
               (session (auditRejecting [lunchRow]) JS.en_US)
               (cached [salary; rent]))) /\
   In (Request (createRequest alice lunch))
     (trace (addTransaction lunch
               (session (auditRejecting [lunchRow]) JS.en_US)
               (cached [salary; rent])))) /\
  (result (deleteTransaction "tx-1"
             (session (auditRejecting []) JS.en_US)
             (cached [salary; rent])) = Normal (Value false) /\
   final (deleteTransaction "tx-1"
            (session (auditRejecting []) JS.en_US)
            (cached [salary; rent])) = cached [salary; rent] /\
   In (ToastError "Failed to delete transaction" failureClass)
     (trace (deleteTransaction "tx-1"
               (session (auditRejecting []) JS.en_US)
               (cached [salary; rent]))) /\
   In (Request (deleteRequest "tx-1"))
     (trace (deleteTransaction "tx-1"
               (session (auditRejecting []) JS.en_US)
               (cached [salary; rent])))) /\
  (result (updateTransaction "tx-2" cheaper
             (session (auditRefusing [rentUpdated]) JS.en_US)
             (cached [salary; rent]))
   = Normal (Value (withDisplayAmount rentUpdated (amount rentUpdated))) /\
   existsb isFailureToast
     (trace (updateTransaction "tx-2" cheaper
               (session (auditRefusing [rentUpdated]) JS.en_US)
               (cached [salary; rent]))) = false).
Proof.
  destruct (audit_rejection_fails_operation
              (session (auditRejecting [lunchRow]) JS.en_US)
              (cached [salary; rent]) alice eq_refl)
    as (Hadd & _ & _ & _ & _ & _).
  destruct (audit_rejection_fails_operation
              (session (auditRejecting []) JS.en_US)
              (cached [salary; rent]) alice eq_refl)
    as (_ & _ & Hdel & _ & _ & _).
  destruct (audit_rejection_fails_operation
              (session (auditRefusing [rentUpdated]) JS.en_US)
              (cached [salary; rent]) alice eq_refl)
    as (_ & _ & _ & _ & Hupd & _).
  split; [|split].
  - apply (Hadd lunch (JS.Rejection "Failed to fetch")).
    + eexists; split; reflexivity.
    + reflexivity.
  - apply (Hdel "tx-1" (JS.Rejection "Failed to fetch")).
    + eexists; split; reflexivity.
    + reflexivity.
  - apply (Hupd "tx-2" cheaper rentUpdated
             {| Supabase.data := None;
                Supabase.error := Some (JS.StoreError "permission denied") |}).
    + exists []. reflexivity.
    + reflexivity.
Defined.

(** C9, as stated, fails: an audit-log insert that the store answers with
    an error does not put the create on its failure path.  The new row is
    returned and cached, and the success toast is shown. *)
Lemma audit_error_is_ignored :
  returnsRow
    (remote (session (auditRefusing [lunchRow]) JS.en_US)
       (createRequest alice lunch)) lunchRow /\
  Supabase.reportsFailure
    (remote (session (auditRefusing [lunchRow]) JS.en_US)
       (createAudit alice lunch)) = true /\
  result (addTransaction lunch (session (auditRefusing [lunchRow]) JS.en_US)
            (cached [salary; rent]))
  = Normal (Value (withDisplayAmount lunchRow 25%float)) /\
  result (addTransaction lunch (session (auditRefusing [lunchRow]) JS.en_US)
            (cached [salary; rent]))
  <> Normal Null /\
  transactions (final (addTransaction lunch
                         (session (auditRefusing [lunchRow]) JS.en_US)
                         (cached [salary; rent])))
  = [withDisplayAmount lunchRow 25%float; salary; rent] /\
  existsb isFailureToast
    (trace (addTransaction lunch (session (auditRefusing [lunchRow]) JS.en_US)
              (cached [salary; rent]))) = false /\
  existsb isSuccessToast
    (trace (addTransaction lunch (session (auditRefusing [lunchRow]) JS.en_US)
              (cached [salary; rent]))) = true.
Proof.
  assert (Hrun : result (addTransaction lunch
                           (session (auditRefusing [lunchRow]) JS.en_US)
                           (cached [salary; rent]))
                 = Normal (Value (withDisplayAmount lunchRow 25%float)))
    by (vm_compute; reflexivity).
  split; [exists []; reflexivity|].
  split; [reflexivity|].
  split; [exact Hrun|].
  split; [rewrite Hrun; discriminate|].
  repeat split; vm_compute; reflexivity.
Qed.

(** ** Every way an operation can run *)

Ltac fetch_steps := cbn -[datePortion utcDate].

(** A fetch whose bounds are usable, by the answer of the store. *)
Lemma fetchTransactions_usable (env : Env) (s : State) (u : Auth.User) :
  user env = Some u ->
  usableBound (start (dateRange s)) ->
  usableBound (end_ (dateRange s)) ->
  fetchTransactions env s
  = match remote env (Supabase.Select (fetchQuery (dateRange s))) with
    | Supabase.Resolved r =>
        match Supabase.error r with
        | None =>
            {| result := Normal tt;
               final :=
                 withLoading
                   (withTransactions s
                      (map (fun tx => withDisplayAmount tx (amount tx))
                         (rowsOf r)))
                   false;
               trace := [Request (Supabase.Select (fetchQuery (dateRange s)))]
            |}
        | Some e =>
            {| result := Normal tt; final := withLoading s false;
               trace := [Request (Supabase.Select (fetchQuery (dateRange s)));
                         ConsoleError "Error fetching transactions:" e;
                         ToastError "Failed to load transactions" None] |}
        end
    | Supabase.Rejected e =>
        {| result := Normal tt; final := withLoading s false;
           trace := [Request (Supabase.Select (fetchQuery (dateRange s)));
                     ConsoleError "Error fetching transactions:" e;
                     ToastError "Failed to load transactions" None] |}
    end.
Proof.
  intros Hu Hs He.
  unfold fetchTransactions, bind, tryFinally, tryCatch, useAuth, getState,
    setLoading, fetchQuery, rowsOf, withLoading, withTransactions.
  fetch_steps. rewrite Hu. fetch_steps.
  destruct (start (dateRange s)) as [[t1|]|], (end_ (dateRange s)) as [[t2|]|];
    try (exfalso; exact Hs); try (exfalso; exact He);
    fetch_steps;
    rewrite ?(datePortion_valid _ _ _ Hs); fetch_steps;
    rewrite ?(datePortion_valid _ _ _ He); fetch_steps;
    (destruct (remote env _) as [r|e];
     [unfold throwIfError; destruct (Supabase.error r)|]);
    reflexivity.
Qed.

(** A fetch with a bound that is not a date. *)
Lemma fetchTransactions_unusable (env : Env) (s : State) (u : Auth.User) :
  user env = Some u ->
  ~ usableBound (start (dateRange s)) \/ ~ usableBound (end_ (dateRange s)) ->
  fetchTransactions env s
  = {| result := Normal tt; final := withLoading s false;
       trace := [ConsoleError "Error fetching transactions:"
                   (JS.RangeError "Invalid time value");
                 ToastError "Failed to load transactions" None] |}.
Proof.
  intros Hu Hbad.
  unfold fetchTransactions, bind, tryFinally, tryCatch, useAuth, getState,
    setLoading, withLoading.
  fetch_steps. rewrite Hu. fetch_steps.
  destruct (usableBound_dec (start (dateRange s))) as [Hs|Hs].
  - destruct Hbad as [Hbad|Hbad]; [contradiction|].
    destruct (start (dateRange s)) as [[t1|]|]; try (exfalso; exact Hs);
      destruct (end_ (dateRange s)) as [d2|]; try (exfalso; apply Hbad; exact I);
      fetch_steps;
      rewrite ?(datePortion_valid _ _ _ Hs); fetch_steps;
      rewrite (datePortion_invalid _ _ _ Hbad); reflexivity.
  - destruct (start (dateRange s)) as [d1|]; [|exfalso; apply Hs; exact I].
    fetch_steps. rewrite (datePortion_invalid _ _ _ Hs). reflexivity.
Qed.

Lemma fetchTransactions_signed_out (env : Env) (s : State) :
  user env = None ->
  fetchTransactions env s = {| result := Normal tt; final := s; trace := [] |}.
Proof.
  intro Hu. unfold fetchTransactions, bind, useAuth. cbn. rewrite Hu.
  reflexivity.
Qed.

Lemma addTransaction_signed_out env s n :
  user env = None ->
  addTransaction n env s
  = {| result := Normal Undefined; final := s; trace := [] |}.
Proof.
  intro Hu. unfold addTransaction, bind, useAuth. cbn. rewrite Hu.
  reflexivity.
Qed.

Lemma updateTransaction_signed_out env s id' updates :
  user env = None ->
  updateTransaction id' updates env s
  = {| result := Normal Undefined; final := s; trace := [] |}.
Proof.
  intro Hu. unfold updateTransaction, bind, useAuth. cbn. rewrite Hu.
  reflexivity.
Qed.

Lemma deleteTransaction_signed_out env s id' :
  user env = None ->
  deleteTransaction id' env s
  = {| result := Normal Undefined; final := s; trace := [] |}.
Proof.
  intro Hu. unfold deleteTransaction, bind, useAuth. cbn. rewrite Hu.
  reflexivity.
Qed.

(** The create, by the answers of the store. *)
Lemma addTransaction_run env s u n :
  user env = Some u ->
  addTransaction n env s
  = let fail := failed Null s in
    let label := "Error adding transaction:" in
    let message := "Failed to add transaction" in
    match remote env (createRequest u n) with
    | Supabase.Rejected e => fail [createRequest u n] label message e
    | Supabase.Resolved r =>
        match Supabase.error r with
        | Some e => fail [createRequest u n] label message e
        | None =>
            match remote env (createAudit u n) with
            | Supabase.Rejected e =>
                fail [createRequest u n; createAudit u n] label message e
            | Supabase.Resolved _ =>
                match Supabase.data r with
                | None =>
                    fail [createRequest u n; createAudit u n] label message
                      (JS.TypeError "Cannot read properties of null")
                | Some [] =>
                    fail [createRequest u n; createAudit u n] label message
                      (JS.TypeError "Cannot read properties of undefined")
                | Some (row :: _) =>
                    succeeded (withDisplayAmount row (amount row))
                      (withTransactions s
                         (withDisplayAmount row (amount row)
                          :: transactions s))
                      [createRequest u n; createAudit u n]
                      ((if isIncome (NewTransaction.type n)
                        then "Income" else "Expense")
                       ++ " added successfully")
                end
            end
        end
    end.
Proof.
  intro Hu. unfold createRequest, createAudit, failed, succeeded.
  enter addTransaction Hu.
  destruct (remote env (Supabase.Insert "transactions" _ _)) as [r|e];
    [|reflexivity].
  cbn -[typeName truthy]. unfold throwIfError.
  destruct (Supabase.error r); [reflexivity|].
  cbn -[typeName truthy].
  destruct (remote env _) as [a|e]; [|reflexivity].
  cbn -[typeName truthy].
  destruct (Supabase.data r) as [[|row rest]|]; reflexivity.
Qed.

(** The update, by the answers of the store. *)
Lemma updateTransaction_run env s u id' updates :
  user env = Some u ->
  updateTransaction id' updates env s
  = let fail := failed Null s in
    let label := "Error updating transaction:" in
    let message := "Failed to update transaction" in
    match remote env (updateRequest id' updates) with
    | Supabase.Rejected e => fail [updateRequest id' updates] label message e
    | Supabase.Resolved r =>
        match Supabase.error r with
        | Some e => fail [updateRequest id' updates] label message e
        | None =>
            match remote env (updateAudit u updates) with
            | Supabase.Rejected e =>
                fail [updateRequest id' updates; updateAudit u updates]
                  label message e
            | Supabase.Resolved _ =>
                match Supabase.data r with
                | None =>
                    fail [updateRequest id' updates; updateAudit u updates]
                      label message
                      (JS.TypeError "Cannot read properties of null")
                | Some [] =>
                    fail [updateRequest id' updates; updateAudit u updates]
                      label message
                      (JS.TypeError "Cannot read properties of undefined")
                | Some (row :: _) =>
                    succeeded (withDisplayAmount row (amount row))
                      (withTransactions s
                         (map (fun transaction =>
                                 if String.eqb (id transaction) id'
                                 then withDisplayAmount row (amount row)
                                 else transaction)
                              (transactions s)))
                      [updateRequest id' updates; updateAudit u updates]
                      "Transaction updated successfully"
                end
            end
        end
    end.
Proof.
  intro Hu. unfold updateRequest, updateAudit, failed, succeeded.
  enter updateTransaction Hu.
  destruct (remote env (Supabase.Update _ _ _ _)) as [r|e]; [|reflexivity].
  cbn -[typeName truthy]. unfold throwIfError.
  destruct (Supabase.error r); [reflexivity|].
  cbn -[typeName truthy].
  destruct (remote env _) as [a|e]; [|reflexivity].
  cbn -[typeName truthy].
  destruct (Supabase.data r) as [[|row rest]|]; reflexivity.
Qed.

(** The remove, by the answers of the store. *)
Lemma deleteTransaction_run env s u id' :
  user env = Some u ->
  deleteTransaction id' env s
  = let fail := failed (Value false) s in
    let label := "Error deleting transaction:" in
    let message := "Failed to delete transaction" in
    match remote env (deleteRequest id') with
    | Supabase.Rejected e => fail [deleteRequest id'] label message e
    | Supabase.Resolved r =>
        match Supabase.error r with
        | Some e => fail [deleteRequest id'] label message e
        | None =>
            match remote env (deleteAudit u) with
            | Supabase.Rejected e =>
                fail [deleteRequest id'; deleteAudit u] label message e
            | Supabase.Resolved _ =>
                succeeded true
                  (withTransactions s
                     (filter (fun transaction =>
                                negb (String.eqb (id transaction) id'))
                        (transactions s)))
                  [deleteRequest id'; deleteAudit u]
                  "Transaction deleted successfully"
            end
        end
    end.
Proof.
  intro Hu. unfold deleteRequest, deleteAudit, failed, succeeded.
  enter deleteTransaction Hu.
  destruct (remote env (Supabase.Delete _ _)) as [r|e]; [|reflexivity].
  cbn -[typeName truthy]. unfold throwIfError.
  destruct (Supabase.error r); [reflexivity|].
  cbn -[typeName truthy].
  destruct (remote env _) as [a|e]; reflexivity.
Qed.

(** ** Behaviour beyond the specification's list *)

(** X1: without an authenticated identity the fetch, the effect that
    re-fetches and the three mutations do nothing: no request, no toast,
    the state as it was, and [undefined] as the value of a mutation. *)
Theorem signed_out_is_no_op (env : Env) (s : State) :
  user env = None ->
  fetchTransactions env s = {| result := Normal tt; final := s; trace := [] |}
  /\ refetchEffect env s = {| result := Normal tt; final := s; trace := [] |}
  /\ (forall n,
         addTransaction n env s
         = {| result := Normal Undefined; final := s; trace := [] |})
  /\ (forall id' updates,
         updateTransaction id' updates env s
         = {| result := Normal Undefined; final := s; trace := [] |})
  /\ (forall id',
         deleteTransaction id' env s
         = {| result := Normal Undefined; final := s; trace := [] |}).
Proof.
  intro Hu.
  split; [apply fetchTransactions_signed_out, Hu|].
  split; [unfold refetchEffect, bind, useAuth; cbn; rewrite Hu; reflexivity|].
  split; [intro n; apply addTransaction_signed_out, Hu|].
  split; [intros id' updates; apply updateTransaction_signed_out, Hu|].
  intro id'; apply deleteTransaction_signed_out, Hu.
Qed.

(** A signed-out visitor in front of a store that would answer. *)
Lemma signed_out_witness :
  fetchTransactions (signedOut (answering [salary]) JS.en_US) initialState
  = {| result := Normal tt; final := initialState; trace := [] |}
  /\ refetchEffect (signedOut (answering [salary]) JS.en_US) initialState
     = {| result := Normal tt; final := initialState; trace := [] |}
  /\ (forall n,
         addTransaction n (signedOut (answering [salary]) JS.en_US)
           initialState
         = {| result := Normal Undefined; final := initialState;
              trace := [] |})
  /\ (forall id' updates,
         updateTransaction id' updates
           (signedOut (answering [salary]) JS.en_US) initialState
         = {| result := Normal Undefined; final := initialState;
              trace := [] |})
  /\ (forall id',
         deleteTransaction id' (signedOut (answering [salary]) JS.en_US)
           initialState
         = {| result := Normal Undefined; final := initialState;
              trace := [] |}).
Proof.
  apply (signed_out_is_no_op (signedOut (answering [salary]) JS.en_US)
           initialState).
  reflexivity.
Defined.

(** X2: a fetch that the store answers without error replaces the cache,
    whatever it held, by the rows of the answer in their order, each with
    [displayAmount] set to its [amount] (no rows when [data] is null); it
    clears the loading flag, keeps date range and currency, shows no toast
    and issues the one query. *)
Theorem fetch_success_replaces_cache (env : Env) (s : State)
  (u : Auth.User) (r : Supabase.response) :
  user env = Some u ->
  usableBound (start (dateRange s)) ->
  usableBound (end_ (dateRange s)) ->
  remote env (Supabase.Select (fetchQuery (dateRange s))) = Supabase.Resolved r ->
  Supabase.error r = None ->
  result (fetchTransactions env s) = Normal tt /\
  transactions (final (fetchTransactions env s))
  = map (fun row => withDisplayAmount row (amount row)) (rowsOf r) /\
  List.length (transactions (final (fetchTransactions env s)))
  = List.length (rowsOf r) /\
  (forall i row,
      nth_error (rowsOf r) i = Some row ->
      nth_error (transactions (final (fetchTransactions env s))) i
      = Some (withDisplayAmount row (amount row))) /\
  loading (final (fetchTransactions env s)) = false /\
  dateRange (final (fetchTransactions env s)) = dateRange s /\
  currentCurrency (final (fetchTransactions env s)) = currentCurrency s /\
  trace (fetchTransactions env s)
  = [Request (Supabase.Select (fetchQuery (dateRange s)))].
Proof.
  intros Hu Hs He Hr Herr.
  rewrite (fetchTransactions_usable env s u Hu Hs He), Hr, Herr. simpl.
  split; [reflexivity|]. split; [reflexivity|].
  split; [apply length_map|].
  split; [|repeat split].
  intros i row Hi. now rewrite nth_error_map, Hi.
Qed.

Lemma fetch_success_witness :
  result (fetchTransactions (session (answering [salary; rent]) JS.en_US)
            (cached [rent])) = Normal tt /\
  transactions (final (fetchTransactions
                         (session (answering [salary; rent]) JS.en_US)
                         (cached [rent])))
  = [withDisplayAmount salary 100%float; withDisplayAmount rent 40%float] /\
  List.length (transactions (final (fetchTransactions
                         (session (answering [salary; rent]) JS.en_US)
                         (cached [rent])))) = 2%nat /\
  (forall i row,
      nth_error [salary; rent] i = Some row ->
      nth_error (transactions (final (fetchTransactions
                         (session (answering [salary; rent]) JS.en_US)
                         (cached [rent])))) i
      = Some (withDisplayAmount row (amount row))) /\
  loading (final (fetchTransactions
                    (session (answering [salary; rent]) JS.en_US)
                    (cached [rent]))) = false /\
  dateRange (final (fetchTransactions
                      (session (answering [salary; rent]) JS.en_US)
                      (cached [rent]))) = {| start := None; end_ := None |} /\
  currentCurrency (final (fetchTransactions
                            (session (answering [salary; rent]) JS.en_US)
                            (cached [rent]))) = dollar /\
  trace (fetchTransactions (session (answering [salary; rent]) JS.en_US)
           (cached [rent]))
  = [Request (Supabase.Select (fetchQuery {| start := None; end_ := None |}))].
Proof.
  apply (fetch_success_replaces_cache
           (session (answering [salary; rent]) JS.en_US) (cached [rent]) alice
           {| Supabase.data := Some [salary; rent]; Supabase.error := None |});
    try reflexivity; exact I.
Defined.

(** X3: a fetch whose query the store fails (an [error] in the answer or a
    rejected promise) keeps the cache, clears the loading flag, logs the
    error, shows the toast "Failed to load transactions" and completes
    normally. *)
Theorem fetch_failure_keeps_cache (env : Env) (s : State) (u : Auth.User) :
  user env = Some u ->
  usableBound (start (dateRange s)) ->
  usableBound (end_ (dateRange s)) ->
  Supabase.reportsFailure
    (remote env (Supabase.Select (fetchQuery (dateRange s)))) = true ->
  result (fetchTransactions env s) = Normal tt /\
  final (fetchTransactions env s) = withLoading s false /\
  transactions (final (fetchTransactions env s)) = transactions s /\
  exists e,
    trace (fetchTransactions env s)
    = [Request (Supabase.Select (fetchQuery (dateRange s)));
       ConsoleError "Error fetching transactions:" e;
       ToastError "Failed to load transactions" None].
Proof.
  intros Hu Hs He Hf.
  rewrite (fetchTransactions_usable env s u Hu Hs He).
  destruct (remote env _) as [r|e]; simpl in Hf.
  - destruct (Supabase.error r) as [e|]; [|discriminate].
    simpl. repeat split. exists e. reflexivity.
  - simpl. repeat split. exists e. reflexivity.
Qed.

Lemma fetch_failure_witness :
  result (fetchTransactions (session refusing JS.en_US) (cached [salary; rent]))
  = Normal tt /\
  final (fetchTransactions (session refusing JS.en_US) (cached [salary; rent]))
  = withLoading (cached [salary; rent]) false /\
  transactions (final (fetchTransactions (session refusing JS.en_US)
                         (cached [salary; rent]))) = [salary; rent] /\
  exists e,
    trace (fetchTransactions (session refusing JS.en_US)
             (cached [salary; rent]))
    = [Request (Supabase.Select (fetchQuery {| start := None; end_ := None |}));
       ConsoleError "Error fetching transactions:" e;
       ToastError "Failed to load transactions" None].
Proof.
  apply (fetch_failure_keeps_cache (session refusing JS.en_US)
           (cached [salary; rent]) alice); try reflexivity; exact I.
Defined.

(** X4: a fetch under a date range with a bound that is not a valid date
    ends before any request is issued: [toISOString] throws a RangeError,
    which is logged and shown as "Failed to load transactions"; the cache
    is kept and the loading flag cleared. *)
Theorem fetch_invalid_bound_sends_nothing (env : Env) (s : State)
  (u : Auth.User) :
  user env = Some u ->
  ~ usableBound (start (dateRange s)) \/ ~ usableBound (end_ (dateRange s)) ->
  result (fetchTransactions env s) = Normal tt /\
  requestsOf (trace (fetchTransactions env s)) = [] /\
  trace (fetchTransactions env s)
  = [ConsoleError "Error fetching transactions:"
       (JS.RangeError "Invalid time value");
     ToastError "Failed to load transactions" None] /\
  transactions (final (fetchTransactions env s)) = transactions s /\
  loading (final (fetchTransactions env s)) = false.
Proof.
  intros Hu Hbad.
  rewrite (fetchTransactions_unusable env s u Hu Hbad).
  repeat split.
Qed.

Lemma fetch_invalid_bound_witness :
  result (fetchTransactions (session (answering [salary]) JS.en_US)
            {| transactions := [rent]; loading := true;
               dateRange := brokenRange; currentCurrency := dollar |})
  = Normal tt /\
  requestsOf (trace (fetchTransactions (session (answering [salary]) JS.en_US)
            {| transactions := [rent]; loading := true;
               dateRange := brokenRange; currentCurrency := dollar |})) = [] /\
  trace (fetchTransactions (session (answering [salary]) JS.en_US)
            {| transactions := [rent]; loading := true;
               dateRange := brokenRange; currentCurrency := dollar |})
  = [ConsoleError "Error fetching transactions:"
       (JS.RangeError "Invalid time value");
     ToastError "Failed to load transactions" None] /\
  transactions (final (fetchTransactions
            (session (answering [salary]) JS.en_US)
            {| transactions := [rent]; loading := true;
               dateRange := brokenRange; currentCurrency := dollar |}))
  = [rent] /\
  loading (final (fetchTransactions (session (answering [salary]) JS.en_US)
            {| transactions := [rent]; loading := true;
               dateRange := brokenRange; currentCurrency := dollar |}))
  = false.
Proof.
  apply (fetch_invalid_bound_sends_nothing
           (session (answering [salary]) JS.en_US)
           {| transactions := [rent]; loading := true;
              dateRange := brokenRange; currentCurrency := dollar |} alice).
  - reflexivity.
  - right. simpl. tauto.
Defined.

Lemma after_nil {A : Type} (o : outcome A) : after [] o = o.
Proof. destruct o; reflexivity. Qed.

(** The guard of the effect repeats the guard of the fetch. *)
Lemma refetchEffect_fetch (env : Env) (s : State) :
  refetchEffect env s = fetchTransactions env s.
Proof.
  unfold refetchEffect, bind, useAuth. cbn -[fetchTransactions].
  destruct (user env) as [u|] eqn:Hu.
  - apply after_nil.
  - rewrite (fetchTransactions_signed_out env s Hu). reflexivity.
Qed.

Lemma selectDateRange_fetch (r : DateRange) (env : Env) (s : State) :
  selectDateRange r env s = fetchTransactions env (withDateRange s r).
Proof.
  unfold selectDateRange, bind, setDateRange. cbn -[refetchEffect].
  rewrite after_nil. apply refetchEffect_fetch.
Qed.

Ltac run_cases :=
  repeat match goal with
    | |- context [match ?x with _ => _ end] => destruct x
    end.

Lemma fetchTransactions_normal (env : Env) (s : State) :
  result (fetchTransactions env s) = Normal tt.
Proof.
  destruct (user env) as [u|] eqn:Hu;
    [|now rewrite (fetchTransactions_signed_out env s Hu)].
  destruct (usableBound_dec (start (dateRange s))) as [Hs|Hs];
    [destruct (usableBound_dec (end_ (dateRange s))) as [He|He]|].
  - rewrite (fetchTransactions_usable env s u Hu Hs He).
    run_cases; reflexivity.
  - now rewrite (fetchTransactions_unusable env s u Hu (or_intror He)).
  - now rewrite (fetchTransactions_unusable env s u Hu (or_introl Hs)).
Qed.

(** X5: the operations the hook hands to its callers never throw,
    whatever the store answers (errors, rejections, missing rows), in every
    state and for every argument: the fetch, the re-fetch effect and a
    date-range selection complete normally, and each mutation completes
    normally with a value ([undefined], [null] or its result). *)
Theorem operations_never_throw (env : Env) (s : State) :
  result (fetchTransactions env s) = Normal tt /\
  result (refetchEffect env s) = Normal tt /\
  (forall r, result (selectDateRange r env s) = Normal tt) /\
  (forall n, exists v, result (addTransaction n env s) = Normal v) /\
  (forall id' updates,
      exists v, result (updateTransaction id' updates env s) = Normal v) /\
  (forall id', exists v, result (deleteTransaction id' env s) = Normal v).
Proof.
  split; [apply fetchTransactions_normal|].
  split; [rewrite refetchEffect_fetch; apply fetchTransactions_normal|].
  split; [intro r; rewrite selectDateRange_fetch;
          apply fetchTransactions_normal|].
  split; [|split].
  - intro n. destruct (user env) as [u|] eqn:Hu.
    + rewrite (addTransaction_run env s u n Hu). cbv zeta.
      run_cases; eexists; reflexivity.
    + rewrite (addTransaction_signed_out env s n Hu). eexists; reflexivity.
  - intros id' updates. destruct (user env) as [u|] eqn:Hu.
    + rewrite (updateTransaction_run env s u id' updates Hu). cbv zeta.
      run_cases; eexists; reflexivity.
    + rewrite (updateTransaction_signed_out env s id' updates Hu).
      eexists; reflexivity.
  - intro id'. destruct (user env) as [u|] eqn:Hu.
    + rewrite (deleteTransaction_run env s u id' Hu). cbv zeta.
      run_cases; eexists; reflexivity.
    + rewrite (deleteTransaction_signed_out env s id' Hu).
      eexists; reflexivity.
Qed.

(** X6: with an identity present a fetch always ends with the loading flag
    cleared, on every path (the [finally] block); it never writes to the
    store, issues at most its one query, and leaves the date range and the
    currency alone. *)
Theorem fetch_always_settles (env : Env) (s : State) (u : Auth.User) :
  user env = Some u ->
  loading (final (fetchTransactions env s)) = false /\
  existsb isRemoteWrite (trace (fetchTransactions env s)) = false /\
  (requestsOf (trace (fetchTransactions env s)) = [] \/
   requestsOf (trace (fetchTransactions env s))
   = [Supabase.Select (fetchQuery (dateRange s))]) /\
  dateRange (final (fetchTransactions env s)) = dateRange s /\
  currentCurrency (final (fetchTransactions env s)) = currentCurrency s.
Proof.
  intro Hu.
  destruct (usableBound_dec (start (dateRange s))) as [Hs|Hs];
    [destruct (usableBound_dec (end_ (dateRange s))) as [He|He]|].
  - rewrite (fetchTransactions_usable env s u Hu Hs He).
    run_cases; simpl; auto.
  - rewrite (fetchTransactions_unusable env s u Hu (or_intror He)).
    simpl; auto.
  - rewrite (fetchTransactions_unusable env s u Hu (or_introl Hs)).
    simpl; auto.
Qed.

Lemma fetch_always_settles_witness :
  loading (final (fetchTransactions (session refusing JS.en_US) initialState))
  = false /\
  existsb isRemoteWrite
    (trace (fetchTransactions (session refusing JS.en_US) initialState))
  = false /\
  (requestsOf (trace (fetchTransactions (session refusing JS.en_US)
                        initialState)) = [] \/
   requestsOf (trace (fetchTransactions (session refusing JS.en_US)
                        initialState))
   = [Supabase.Select (fetchQuery (dateRange initialState))]) /\
  dateRange (final (fetchTransactions (session refusing JS.en_US)
                      initialState)) = dateRange initialState /\
  currentCurrency (final (fetchTransactions (session refusing JS.en_US)
                            initialState)) = currentCurrency initialState.
Proof.
  apply (fetch_always_settles (session refusing JS.en_US) initialState alice).
  reflexivity.
Defined.

(** X7: the mutations change nothing of the state but the cache: the
    loading flag, the date range and the active currency are as before,
    on every path and for every answer of the store. *)
Theorem mutations_touch_only_the_cache (env : Env) (s : State) :
  (forall n,
      loading (final (addTransaction n env s)) = loading s /\
      dateRange (final (addTransaction n env s)) = dateRange s /\
      currentCurrency (final (addTransaction n env s)) = currentCurrency s) /\
  (forall id' updates,
      loading (final (updateTransaction id' updates env s)) = loading s /\
      dateRange (final (updateTransaction id' updates env s)) = dateRange s /\
      currentCurrency (final (updateTransaction id' updates env s))
      = currentCurrency s) /\
  (forall id',
      loading (final (deleteTransaction id' env s)) = loading s /\
      dateRange (final (deleteTransaction id' env s)) = dateRange s /\
      currentCurrency (final (deleteTransaction id' env s))
      = currentCurrency s).
Proof.
  split; [|split].
  - intro n. destruct (user env) as [u|] eqn:Hu.
    + rewrite (addTransaction_run env s u n Hu). cbv zeta.
      run_cases; simpl; auto.
    + rewrite (addTransaction_signed_out env s n Hu). simpl; auto.
  - intros id' updates. destruct (user env) as [u|] eqn:Hu.
    + rewrite (updateTransaction_run env s u id' updates Hu). cbv zeta.
      run_cases; simpl; auto.
    + rewrite (updateTransaction_signed_out env s id' updates Hu).
      simpl; auto.
  - intro id'. destruct (user env) as [u|] eqn:Hu.
    + rewrite (deleteTransaction_run env s u id' Hu). cbv zeta.
      run_cases; simpl; auto.
    + rewrite (deleteTransaction_signed_out env s id' Hu). simpl; auto.
Qed.

(** X8: with an identity present every mutation shows exactly one toast,
    and the toast agrees with the value handed back: a success toast, no
    console error and the cache update when a value ([true] for a remove)
    is returned; the failure toast, a console error and the untouched
    state when [null] ([false] for a remove) is returned. *)
Theorem mutation_reports_once (env : Env) (s : State) (u : Auth.User) :
  user env = Some u ->
  (forall n,
      List.length (filter isToast (trace (addTransaction n env s))) = 1%nat /\
      ((exists tx,
           result (addTransaction n env s) = Normal (Value tx) /\
           transactions (final (addTransaction n env s))
           = tx :: transactions s /\
           existsb isSuccessToast (trace (addTransaction n env s)) = true /\
           existsb isConsoleError (trace (addTransaction n env s)) = false)
       \/ (result (addTransaction n env s) = Normal Null /\
           final (addTransaction n env s) = s /\
           existsb isFailureToast (trace (addTransaction n env s)) = true /\
           existsb isConsoleError (trace (addTransaction n env s)) = true))) /\
  (forall id' updates,
      List.length
        (filter isToast (trace (updateTransaction id' updates env s)))
      = 1%nat /\
      ((exists tx,
           result (updateTransaction id' updates env s) = Normal (Value tx) /\
           existsb isSuccessToast
             (trace (updateTransaction id' updates env s)) = true /\
           existsb isConsoleError
             (trace (updateTransaction id' updates env s)) = false)
       \/ (result (updateTransaction id' updates env s) = Normal Null /\
           final (updateTransaction id' updates env s) = s /\
           existsb isFailureToast
             (trace (updateTransaction id' updates env s)) = true /\
           existsb isConsoleError
             (trace (updateTransaction id' updates env s)) = true))) /\
  (forall id',
      List.length (filter isToast (trace (deleteTransaction id' env s)))
      = 1%nat /\
      ((result (deleteTransaction id' env s) = Normal (Value true) /\
        existsb isSuccessToast (trace (deleteTransaction id' env s)) = true /\
        existsb isConsoleError (trace (deleteTransaction id' env s)) = false)
       \/ (result (deleteTransaction id' env s) = Normal (Value false) /\
           final (deleteTransaction id' env s) = s /\
           existsb isFailureToast (trace (deleteTransaction id' env s)) = true /\
           existsb isConsoleError (trace (deleteTransaction id' env s))
           = true))).
Proof.
  intro Hu. split; [|split].
  - intro n. rewrite (addTransaction_run env s u n Hu). cbv zeta.
    run_cases; (split; [reflexivity|]);
      solve [left; eexists; repeat split; reflexivity
            | right; repeat split; reflexivity].
  - intros id' updates.
    rewrite (updateTransaction_run env s u id' updates Hu). cbv zeta.
    run_cases; (split; [reflexivity|]);
      solve [left; eexists; repeat split; reflexivity
            | right; repeat split; reflexivity].
  - intro id'. rewrite (deleteTransaction_run env s u id' Hu). cbv zeta.
    run_cases; (split; [reflexivity|]);
      solve [left; repeat split; reflexivity
            | right; repeat split; reflexivity].
Qed.

Lemma mutation_reports_once_witness :
  List.length
    (filter isToast
       (trace (deleteTransaction "tx-1" (session (auditRejecting []) JS.en_US)
                 (cached [salary; rent])))) = 1%nat /\
  ((result (deleteTransaction "tx-1" (session (auditRejecting []) JS.en_US)
              (cached [salary; rent])) = Normal (Value true) /\
    existsb isSuccessToast
      (trace (deleteTransaction "tx-1" (session (auditRejecting []) JS.en_US)
                (cached [salary; rent]))) = true /\
    existsb isConsoleError
      (trace (deleteTransaction "tx-1" (session (auditRejecting []) JS.en_US)
                (cached [salary; rent]))) = false)
   \/ (result (deleteTransaction "tx-1"
                 (session (auditRejecting []) JS.en_US)
                 (cached [salary; rent])) = Normal (Value false) /\
       final (deleteTransaction "tx-1" (session (auditRejecting []) JS.en_US)
                (cached [salary; rent])) = cached [salary; rent] /\
       existsb isFailureToast
         (trace (deleteTransaction "tx-1"
                   (session (auditRejecting []) JS.en_US)
                   (cached [salary; rent]))) = true /\
       existsb isConsoleError
         (trace (deleteTransaction "tx-1"
                   (session (auditRejecting []) JS.en_US)
                   (cached [salary; rent]))) = true)).
Proof.
  exact (proj2 (proj2 (mutation_reports_once
                         (session (auditRejecting []) JS.en_US)
                         (cached [salary; rent]) alice eq_refl)) "tx-1").
Defined.

(** X9: when the store answers a create or an update without error but
    without a row ([data] null or empty, as for an update that matches no
    row), the audit-log entry has already been requested when the missing
    row is noticed: the operation then fails with a TypeError, shows the
    failure toast, returns [null] and keeps the state. *)
Theorem rowless_answer_fails_after_audit (env : Env) (s : State)
  (u : Auth.User) :
  user env = Some u ->
  (forall n,
      noRow (remote env (createRequest u n)) ->
      resolves (remote env (createAudit u n)) = true ->
      result (addTransaction n env s) = Normal Null /\
      final (addTransaction n env s) = s /\
      requestsOf (trace (addTransaction n env s))
      = [createRequest u n; createAudit u n] /\
      In (ToastError "Failed to add transaction" failureClass)
        (trace (addTransaction n env s)) /\
      exists message,
        In (ConsoleError "Error adding transaction:" (JS.TypeError message))
          (trace (addTransaction n env s))) /\
  (forall id' updates,
      noRow (remote env (updateRequest id' updates)) ->
      resolves (remote env (updateAudit u updates)) = true ->
      result (updateTransaction id' updates env s) = Normal Null /\
      final (updateTransaction id' updates env s) = s /\
      requestsOf (trace (updateTransaction id' updates env s))
      = [updateRequest id' updates; updateAudit u updates] /\
      In (ToastError "Failed to update transaction" failureClass)
        (trace (updateTransaction id' updates env s)) /\
      exists message,
        In (ConsoleError "Error updating transaction:" (JS.TypeError message))
          (trace (updateTransaction id' updates env s))).
Proof.
  intro Hu. split.
  - intros n (r & Hr & Herr & Hdata) Hres.
    rewrite (addTransaction_run env s u n Hu). cbv zeta.
    rewrite Hr, Herr.
    destruct (remote env (createAudit u n)) as [a|e]; [|discriminate].
    destruct Hdata as [-> | ->]; simpl;
      (repeat split; auto; eexists; eauto).
  - intros id' updates (r & Hr & Herr & Hdata) Hres.
    rewrite (updateTransaction_run env s u id' updates Hu). cbv zeta.
    rewrite Hr, Herr.
    destruct (remote env (updateAudit u updates)) as [a|e]; [|discriminate].
    destruct Hdata as [-> | ->]; simpl;
      (repeat split; auto; eexists; eauto).
Qed.

Lemma rowless_answer_witness :
  result (updateTransaction "tx-9" cheaper (session rowless JS.en_US)
            (cached [salary; rent])) = Normal Null /\
  final (updateTransaction "tx-9" cheaper (session rowless JS.en_US)
           (cached [salary; rent])) = cached [salary; rent] /\
  requestsOf (trace (updateTransaction "tx-9" cheaper
                       (session rowless JS.en_US) (cached [salary; rent])))
  = [updateRequest "tx-9" cheaper; updateAudit alice cheaper] /\
  In (ToastError "Failed to update transaction" failureClass)
    (trace (updateTransaction "tx-9" cheaper (session rowless JS.en_US)
              (cached [salary; rent]))) /\
  exists message,
    In (ConsoleError "Error updating transaction:" (JS.TypeError message))
      (trace (updateTransaction "tx-9" cheaper (session rowless JS.en_US)
                (cached [salary; rent]))).
Proof.
  apply (proj2 (rowless_answer_fails_after_audit (session rowless JS.en_US)
                  (cached [salary; rent]) alice eq_refl)).
  - eexists. split; [reflexivity|]. split; [reflexivity|]. right; reflexivity.
  - reflexivity.
Defined.

(** X10: the requests of a mutation are its own request and, only when the
    store did not report a failure for it, one audit-log insert after it.
    Nothing else is sent: no read, and no audit entry for a mutation the
    store refused. *)
Theorem audit_follows_primary_success (env : Env) (s : State)
  (u : Auth.User) :
  user env = Some u ->
  (forall n,
      requestsOf (trace (addTransaction n env s))
      = if Supabase.reportsFailure (remote env (createRequest u n))
        then [createRequest u n]
        else [createRequest u n; createAudit u n]) /\
  (forall id' updates,
      requestsOf (trace (updateTransaction id' updates env s))
      = if Supabase.reportsFailure (remote env (updateRequest id' updates))
        then [updateRequest id' updates]
        else [updateRequest id' updates; updateAudit u updates]) /\
  (forall id',
      requestsOf (trace (deleteTransaction id' env s))
      = if Supabase.reportsFailure (remote env (deleteRequest id'))
        then [deleteRequest id']
        else [deleteRequest id'; deleteAudit u]).
Proof.
  intro Hu. split; [|split].
  - intro n. rewrite (addTransaction_run env s u n Hu). cbv zeta.
    destruct (remote env (createRequest u n)) as [r|e]; [|reflexivity].
    simpl Supabase.reportsFailure.
    destruct (Supabase.error r); [reflexivity|].
    run_cases; reflexivity.
  - intros id' updates.
    rewrite (updateTransaction_run env s u id' updates Hu). cbv zeta.
    destruct (remote env (updateRequest id' updates)) as [r|e]; [|reflexivity].
    simpl Supabase.reportsFailure.
    destruct (Supabase.error r); [reflexivity|].
    run_cases; reflexivity.
  - intro id'. rewrite (deleteTransaction_run env s u id' Hu). cbv zeta.
    destruct (remote env (deleteRequest id')) as [r|e]; [|reflexivity].
    simpl Supabase.reportsFailure.
    destruct (Supabase.error r); [reflexivity|].
    run_cases; reflexivity.
Qed.

Lemma audit_follows_primary_witness :
  requestsOf (trace (addTransaction lunch (session refusing JS.en_US)
                       (cached [salary; rent])))
  = [createRequest alice lunch] /\
  requestsOf (trace (addTransaction lunch
                       (session (answering [lunchRow]) JS.en_US)
                       (cached [salary; rent])))
  = [createRequest alice lunch; createAudit alice lunch].
Proof.
  split.
  - exact (proj1 (audit_follows_primary_success (session refusing JS.en_US)
                    (cached [salary; rent]) alice eq_refl) lunch).
  - exact (proj1 (audit_follows_primary_success
                    (session (answering [lunchRow]) JS.en_US)
                    (cached [salary; rent]) alice eq_refl) lunch).
Defined.

Lemma displayed_filter (f : Transaction -> bool) (cache : list Transaction) :
  displayed cache -> displayed (filter f cache).
Proof.
  unfold displayed. rewrite !Forall_forall. intros H t Hin.
  apply filter_In in Hin as [Hin _]. apply H, Hin.
Qed.

Lemma displayed_map (f : Transaction -> Transaction)
  (cache : list Transaction) :
  (forall t, displayAmount t <> None -> displayAmount (f t) <> None) ->
  displayed cache -> displayed (map f cache).
Proof.
  intros Hf H. unfold displayed in *.
  induction H as [|t rest Ht _ IH]; simpl; constructor; auto.
Qed.

Lemma displayed_fresh (rows : list Transaction) :
  displayed (map (fun row => withDisplayAmount row (amount row)) rows).
Proof.
  unfold displayed.
  induction rows as [|t rest IH]; simpl; constructor; [discriminate | exact IH].
Qed.

(** X11: every transition of the hook keeps the cache invariant that each
    entry carries a [displayAmount]: when it holds before a fetch, a
    create, an update, a remove or a currency change, it holds after it,
    whatever the store answers. *)
Theorem cache_entries_stay_displayed (env : Env) (s : State) :
  displayed (transactions s) ->
  displayed (transactions (final (fetchTransactions env s))) /\
  (forall n, displayed (transactions (final (addTransaction n env s)))) /\
  (forall id' updates,
      displayed (transactions (final (updateTransaction id' updates env s)))) /\
  (forall id', displayed (transactions (final (deleteTransaction id' env s)))) /\
  (forall d, displayed (transactions (final (handleCurrencyChange d env s)))).
Proof.
  intro H.
  split; [|split; [|split; [|split]]].
  - destruct (user env) as [u|] eqn:Hu;
      [|now rewrite (fetchTransactions_signed_out env s Hu)].
    destruct (usableBound_dec (start (dateRange s))) as [Hs|Hs];
      [destruct (usableBound_dec (end_ (dateRange s))) as [He|He]|].
    + rewrite (fetchTransactions_usable env s u Hu Hs He).
      run_cases; simpl; auto using displayed_fresh.
    + now rewrite (fetchTransactions_unusable env s u Hu (or_intror He)).
    + now rewrite (fetchTransactions_unusable env s u Hu (or_introl Hs)).
  - intro n. destruct (user env) as [u|] eqn:Hu;
      [|now rewrite (addTransaction_signed_out env s n Hu)].
    rewrite (addTransaction_run env s u n Hu). cbv zeta.
    run_cases; simpl; auto; (constructor; [discriminate | exact H]).
  - intros id' updates. destruct (user env) as [u|] eqn:Hu;
      [|now rewrite (updateTransaction_signed_out env s id' updates Hu)].
    rewrite (updateTransaction_run env s u id' updates Hu). cbv zeta.
    run_cases; simpl; auto;
      (apply displayed_map; [|exact H]);
      intros t0 Ht0; destruct (String.eqb (id t0) id');
      [discriminate | exact Ht0].
  - intro id'. destruct (user env) as [u|] eqn:Hu;
      [|now rewrite (deleteTransaction_signed_out env s id' Hu)].
    rewrite (deleteTransaction_run env s u id' Hu). cbv zeta.
    run_cases; simpl; auto using displayed_filter.
  - intro d. rewrite handleCurrencyChange_run. simpl.
    apply displayed_map; [|exact H]. intros; discriminate.
Qed.

Lemma cache_entries_stay_displayed_witness :
  displayed (transactions (cached shown)) /\
  (displayed (transactions (final (fetchTransactions
                                     (session (answering [lunchRow]) JS.en_US)
                                     (cached shown)))) /\
   (forall n, displayed (transactions (final (addTransaction n
                                     (session (answering [lunchRow]) JS.en_US)
                                     (cached shown))))) /\
   (forall id' updates,
       displayed (transactions (final (updateTransaction id' updates
                                     (session (answering [lunchRow]) JS.en_US)
                                     (cached shown))))) /\
   (forall id', displayed (transactions (final (deleteTransaction id'
                                     (session (answering [lunchRow]) JS.en_US)
                                     (cached shown))))) /\
   (forall d, displayed (transactions (final (handleCurrencyChange d
                                     (session (answering [lunchRow]) JS.en_US)
                                     (cached shown)))))) /\
  transactions (final (addTransaction lunch
                         (session (answering [lunchRow]) JS.en_US)
                         (cached shown)))
  = withDisplayAmount lunchRow 25%float :: shown /\
  transactions (final (updateTransaction "tx-2" cheaper
                         (session (answering [rentUpdated]) JS.en_US)
                         (cached shown)))
  = [withDisplayAmount salary 100%float;
     withDisplayAmount rentUpdated 30%float] /\
  transactions (final (deleteTransaction "tx-1"
                         (session (answering []) JS.en_US) (cached shown)))
  = [withDisplayAmount rent 40%float] /\
  transactions (final (handleCurrencyChange euro
                         (session (answering []) JS.en_US) (cached shown)))
  = [withDisplayAmount salary 50%float; withDisplayAmount rent 20%float].
Proof.
  assert (H : displayed (transactions (cached shown)))
    by (repeat constructor; discriminate).
  split; [exact H|].
  split;
    [exact (cache_entries_stay_displayed
              (session (answering [lunchRow]) JS.en_US) (cached shown) H)|].
  repeat split; vm_compute; reflexivity.
Defined.

Lemma final_after {A : Type} (t : list effect) (o : outcome A) :
  final (after t o) = final o.
Proof. destruct o; reflexivity. Qed.

Lemma handleCurrencyChange_twice (d1 d2 : Detail.t) (env : Env) (s : State) :
  final (handleCurrencyChange d2 env (final (handleCurrencyChange d1 env s)))
  = final (handleCurrencyChange d2 env s).
Proof.
  rewrite !handleCurrencyChange_run. simpl. f_equal.
  rewrite map_map. apply map_ext. reflexivity.
Qed.

(** X12: currency changes do not compound.  After any sequence of
    currency-change events the state is the one the last event alone would
    have produced from the starting state: every [displayAmount] is the
    stored [amount] times the last conversion rate, never a product of
    rates. *)
Theorem currency_changes_do_not_compound (events : list Detail.t)
  (d : Detail.t) (env : Env) (s : State) :
  final (handleCurrencyChanges (events ++ [d]) env s)
  = final (handleCurrencyChange d env s) /\
  transactions (final (handleCurrencyChanges (events ++ [d]) env s))
  = map (fun tx =>
           withDisplayAmount tx (amount tx * Detail.conversionRate d)%float)
        (transactions s).
Proof.
  assert (H : forall s0,
             final (handleCurrencyChanges (events ++ [d]) env s0)
             = final (handleCurrencyChange d env s0)).
  { induction events as [|d0 rest IH]; intro s0.
    - reflexivity.
    - change (handleCurrencyChanges ((d0 :: rest) ++ [d]) env s0)
        with (bind (handleCurrencyChange d0)
                (fun _ => handleCurrencyChanges (rest ++ [d])) env s0).
      unfold bind at 1.
      pose proof (handleCurrencyChange_twice d0 d env s0) as Htwice.
      destruct (handleCurrencyChange d0 env s0) as [c s1 t1] eqn:E.
      rewrite handleCurrencyChange_run in E. injection E as <- <- <-.
      cbv iota. rewrite final_after, IH. exact Htwice. }
  split; [apply H|]. rewrite H, handleCurrencyChange_run. reflexivity.
Qed.

(** X13: a create or an update that succeeds after a currency change
    caches its row with [displayAmount] equal to the stored [amount], not
    converted, next to entries whose [displayAmount] is converted, while
    the active currency stays the one of the event. *)
Theorem mutation_after_currency_change_is_unscaled (env : Env) (s : State)
  (u : Auth.User) (d : Detail.t) :
  user env = Some u ->
  (forall n row,
      returnsRow (remote env (createRequest u n)) row ->
      resolves (remote env (createAudit u n)) = true ->
      transactions
        (final (addTransaction n env (final (handleCurrencyChange d env s))))
      = withDisplayAmount row (amount row)
        :: map (fun tx =>
                  withDisplayAmount tx
                    (amount tx * Detail.conversionRate d)%float)
             (transactions s) /\
      currentCurrency
        (final (addTransaction n env (final (handleCurrencyChange d env s))))
      = {| code := Detail.code d; symbol := Detail.symbol d |}) /\
  (forall id' updates row,
      returnsRow (remote env (updateRequest id' updates)) row ->
      resolves (remote env (updateAudit u updates)) = true ->
      transactions
        (final (updateTransaction id' updates env
                  (final (handleCurrencyChange d env s))))
      = map (fun tx =>
               if String.eqb (id tx) id'
               then withDisplayAmount row (amount row)
               else withDisplayAmount tx
                      (amount tx * Detail.conversionRate d)%float)
          (transactions s) /\
      currentCurrency
        (final (updateTransaction id' updates env
                  (final (handleCurrencyChange d env s))))
      = {| code := Detail.code d; symbol := Detail.symbol d |}).
Proof.
  intro Hu. split.
  - intros n row Hrow Hres.
    rewrite (addTransaction_success env _ u n row Hu Hrow Hres).
    rewrite handleCurrencyChange_run. split; reflexivity.
  - intros id' updates row Hrow Hres.
    rewrite (updateTransaction_success env _ u id' updates row Hu Hrow Hres).
    rewrite handleCurrencyChange_run. simpl. split; [|reflexivity].
    rewrite map_map. apply map_ext. intro tx. reflexivity.
Qed.

Lemma mutation_after_currency_change_witness :
  transactions
    (final (addTransaction lunch (session (answering [lunchRow]) JS.en_US)
              (final (handleCurrencyChange euro
                        (session (answering [lunchRow]) JS.en_US)
                        (cached [salary; rent])))))
  = [withDisplayAmount lunchRow 25%float; withDisplayAmount salary 50%float;
     withDisplayAmount rent 20%float] /\
  currentCurrency
    (final (addTransaction lunch (session (answering [lunchRow]) JS.en_US)
              (final (handleCurrencyChange euro
                        (session (answering [lunchRow]) JS.en_US)
                        (cached [salary; rent])))))
  = {| code := "EUR"; symbol := "€" |}.
Proof.
  apply (proj1 (mutation_after_currency_change_is_unscaled
                  (session (answering [lunchRow]) JS.en_US)
                  (cached [salary; rent]) alice euro eq_refl) lunch lunchRow).
  - exists []. reflexivity.
  - reflexivity.
Defined.

(** X14: a fetch that succeeds after a currency change keeps the currency
    of the event but caches every row with [displayAmount] equal to its
    stored [amount]: the conversion rate is not applied to fetched rows. *)
Theorem fetch_after_currency_change_resets_display (env : Env) (s : State)
  (u : Auth.User) (d : Detail.t) (r : Supabase.response) :
  user env = Some u ->
  usableBound (start (dateRange s)) ->
  usableBound (end_ (dateRange s)) ->
  remote env (Supabase.Select (fetchQuery (dateRange s))) = Supabase.Resolved r ->
  Supabase.error r = None ->
  currentCurrency
    (final (fetchTransactions env (final (handleCurrencyChange d env s))))
  = {| code := Detail.code d; symbol := Detail.symbol d |} /\
  transactions
    (final (fetchTransactions env (final (handleCurrencyChange d env s))))
  = map (fun row => withDisplayAmount row (amount row)) (rowsOf r) /\
  Forall (fun t => displayAmount t = Some (amount t))
    (transactions
       (final (fetchTransactions env (final (handleCurrencyChange d env s))))).
Proof.
  intros Hu Hs He Hr Herr.
  assert (Hrange : dateRange (final (handleCurrencyChange d env s))
                   = dateRange s) by reflexivity.
  rewrite (fetchTransactions_usable env _ u Hu);
    [|rewrite Hrange; assumption..].
  rewrite Hrange, Hr, Herr. simpl.
  split; [reflexivity|]. split; [reflexivity|].
  induction (rowsOf r) as [|row rest IH]; simpl; constructor; auto.
Qed.

Lemma fetch_after_currency_change_witness :
  currentCurrency
    (final (fetchTransactions (session (answering [salary; rent]) JS.en_US)
              (final (handleCurrencyChange euro
                        (session (answering [salary; rent]) JS.en_US)
                        (cached [salary; rent])))))
  = {| code := "EUR"; symbol := "€" |} /\
  transactions
    (final (fetchTransactions (session (answering [salary; rent]) JS.en_US)
              (final (handleCurrencyChange euro
                        (session (answering [salary; rent]) JS.en_US)
                        (cached [salary; rent])))))
  = [withDisplayAmount salary 100%float; withDisplayAmount rent 40%float] /\
  Forall (fun t => displayAmount t = Some (amount t))
    (transactions
       (final (fetchTransactions (session (answering [salary; rent]) JS.en_US)
                 (final (handleCurrencyChange euro
                           (session (answering [salary; rent]) JS.en_US)
                           (cached [salary; rent])))))).
Proof.
  apply (fetch_after_currency_change_resets_display
           (session (answering [salary; rent]) JS.en_US)
           (cached [salary; rent]) alice euro
           {| Supabase.data := Some [salary; rent]; Supabase.error := None |});
    try reflexivity; exact I.
Defined.

Lemma filter_uncached (id' : string) (cache : list Transaction) :
  uncached id' cache ->
  filter (fun t => negb (String.eqb (id t) id')) cache = cache.
Proof.
  induction 1 as [|t rest Ht _ IH]; simpl; [reflexivity|].
  apply String.eqb_neq in Ht. rewrite Ht. simpl. now rewrite IH.
Qed.

Lemma map_uncached (id' : string) (x : Transaction)
  (cache : list Transaction) :
  uncached id' cache ->
  map (fun t => if String.eqb (id t) id' then x else t) cache = cache.
Proof.
  induction 1 as [|t rest Ht _ IH]; simpl; [reflexivity|].
  apply String.eqb_neq in Ht. rewrite Ht. now rewrite IH.
Qed.

Lemma withTransactions_same (s : State) :
  withTransactions s (transactions s) = s.
Proof. destruct s; reflexivity. Qed.

(** X15: a create followed by a remove of the identifier the store assigned
    restores the state, cache included, exactly as it was before the
    create, provided both succeed and no cached entry already carried that
    identifier. *)
Theorem create_then_remove_restores_cache (env : Env) (s : State)
  (u : Auth.User) (n : NewTransaction.t) (row : Transaction) :
  user env = Some u ->
  returnsRow (remote env (createRequest u n)) row ->
  resolves (remote env (createAudit u n)) = true ->
  succeeds (remote env (deleteRequest (id row))) ->
  resolves (remote env (deleteAudit u)) = true ->
  uncached (id row) (transactions s) ->
  result (deleteTransaction (id row) env (final (addTransaction n env s)))
  = Normal (Value true) /\
  final (deleteTransaction (id row) env (final (addTransaction n env s))) = s.
Proof.
  intros Hu Hrow Haudit Hdel Hdaudit Hfresh.
  rewrite (addTransaction_success env s u n row Hu Hrow Haudit).
  rewrite (deleteTransaction_success env _ u (id row) Hu Hdel Hdaudit).
  simpl. split; [reflexivity|].
  rewrite String.eqb_refl. simpl.
  rewrite (filter_uncached _ _ Hfresh).
  unfold withTransactions. simpl. destruct s; reflexivity.
Qed.

Lemma create_then_remove_witness :
  result (deleteTransaction (id lunchRow)
            (session (answering [lunchRow]) JS.en_US)
            (final (addTransaction lunch
                      (session (answering [lunchRow]) JS.en_US)
                      (cached [salary; rent]))))
  = Normal (Value true) /\
  final (deleteTransaction (id lunchRow)
           (session (answering [lunchRow]) JS.en_US)
           (final (addTransaction lunch
                     (session (answering [lunchRow]) JS.en_US)
                     (cached [salary; rent]))))
  = cached [salary; rent].
Proof.
  apply (create_then_remove_restores_cache
           (session (answering [lunchRow]) JS.en_US) (cached [salary; rent])
           alice lunch lunchRow).
  - reflexivity.
  - exists []. reflexivity.
  - reflexivity.
  - eexists; split; reflexivity.
  - reflexivity.
  - repeat constructor; discriminate.
Defined.

(** X16: an update or a remove that succeeds at the store for an
    identifier no cached entry carries leaves the state exactly as it was,
    and still reports success (the row, respectively [true]). *)
Theorem mutation_on_uncached_id_changes_nothing (env : Env) (s : State)
  (u : Auth.User) (id' : string) :
  user env = Some u ->
  uncached id' (transactions s) ->
  (forall updates row,
      returnsRow (remote env (updateRequest id' updates)) row ->
      resolves (remote env (updateAudit u updates)) = true ->
      final (updateTransaction id' updates env s) = s /\
      result (updateTransaction id' updates env s)
      = Normal (Value (withDisplayAmount row (amount row)))) /\
  (succeeds (remote env (deleteRequest id')) ->
   resolves (remote env (deleteAudit u)) = true ->
   final (deleteTransaction id' env s) = s /\
   result (deleteTransaction id' env s) = Normal (Value true)).
Proof.
  intros Hu Hfresh. split.
  - intros updates row Hrow Hres.
    rewrite (updateTransaction_success env s u id' updates row Hu Hrow Hres).
    simpl. rewrite (map_uncached _ _ _ Hfresh).
    split; [apply withTransactions_same | reflexivity].
  - intros Hdel Hres.
    rewrite (deleteTransaction_success env s u id' Hu Hdel Hres).
    simpl. rewrite (filter_uncached _ _ Hfresh).
    split; [apply withTransactions_same | reflexivity].
Qed.

Lemma mutation_on_uncached_id_witness :
  (final (updateTransaction "tx-9" cheaper
            (session (answering [rentUpdated]) JS.en_US)
            (cached [salary; rent])) = cached [salary; rent] /\
   result (updateTransaction "tx-9" cheaper
             (session (answering [rentUpdated]) JS.en_US)
             (cached [salary; rent]))
   = Normal (Value (withDisplayAmount rentUpdated (amount rentUpdated)))) /\
  (final (deleteTransaction "tx-9"
            (session (answering [rentUpdated]) JS.en_US)
            (cached [salary; rent])) = cached [salary; rent] /\
   result (deleteTransaction "tx-9"
             (session (answering [rentUpdated]) JS.en_US)
             (cached [salary; rent])) = Normal (Value true)).
Proof.
  destruct (mutation_on_uncached_id_changes_nothing
              (session (answering [rentUpdated]) JS.en_US)
              (cached [salary; rent]) alice "tx-9" eq_refl)
    as [Hupd Hdel].
  - repeat constructor; discriminate.
  - split.
    + apply (Hupd cheaper rentUpdated); [exists []|]; reflexivity.
    + apply Hdel; [eexists; split|]; reflexivity.
Defined.

Lemma sumFrom_filter (k : TransactionType) (keep : Transaction -> bool)
  (cache : list Transaction) :
  (forall t, In t cache -> keep t = false -> type t <> k) ->
  forall acc, sumFrom acc k (filter keep cache) = sumFrom acc k cache.
Proof.
  induction cache as [|t rest IH]; intros Hdrop acc; simpl; [reflexivity|].
  assert (Hrest : forall t0, In t0 rest -> keep t0 = false -> type t0 <> k)
    by (intros t0 Hin; apply Hdrop; right; exact Hin).
  destruct (keep t) eqn:Hk; simpl.
  - destruct k, (type t); apply (IH Hrest).
  - assert (Hne := Hdrop t (or_introl eq_refl) Hk).
    destruct k, (type t); try congruence; apply (IH Hrest).
Qed.

(** X17: a mutation of one kind leaves the total of the other kind as it
    was, bit for bit: caching a new expense (income) does not change
    [income] ([expenses]), and neither does removing an identifier whose
    cached entries are all expenses (incomes). *)
Theorem other_kind_total_untouched (L : JS.Locale) (X : Currency)
  (env : Env) (s : State) (u : Auth.User) :
  user env = Some u ->
  (forall n row,
      returnsRow (remote env (createRequest u n)) row ->
      resolves (remote env (createAudit u n)) = true ->
      (type row = Expense ->
       income (financialSummary L
                 (transactions (final (addTransaction n env s))) X)
       = income (financialSummary L (transactions s) X)) /\
      (type row = Income ->
       expenses (financialSummary L
                   (transactions (final (addTransaction n env s))) X)
       = expenses (financialSummary L (transactions s) X))) /\
  (forall id',
      succeeds (remote env (deleteRequest id')) ->
      resolves (remote env (deleteAudit u)) = true ->
      ((forall t, In t (transactions s) -> id t = id' -> type t = Expense) ->
       income (financialSummary L
                 (transactions (final (deleteTransaction id' env s))) X)
       = income (financialSummary L (transactions s) X)) /\
      ((forall t, In t (transactions s) -> id t = id' -> type t = Income) ->
       expenses (financialSummary L
                   (transactions (final (deleteTransaction id' env s))) X)
       = expenses (financialSummary L (transactions s) X))).
Proof.
  intro Hu. split.
  - intros n row Hrow Hres.
    rewrite (addTransaction_success env s u n row Hu Hrow Hres).
    rewrite !income_sumOfKind, !expenses_sumOfKind. unfold sumOfKind. simpl.
    split; intros ->; reflexivity.
  - intros id' Hdel Hres.
    rewrite (deleteTransaction_success env s u id' Hu Hdel Hres).
    rewrite !income_sumOfKind, !expenses_sumOfKind. unfold sumOfKind. simpl.
    split; intro Hkind; apply sumFrom_filter; intros t Hin Hdrop Ht;
      apply negb_false_iff, String.eqb_eq in Hdrop;
      rewrite (Hkind t Hin Hdrop) in Ht; discriminate.
Qed.

Lemma other_kind_total_witness :
  income (financialSummary JS.en_US
            (transactions (final (addTransaction lunch
                                    (session (answering [lunchRow]) JS.en_US)
                                    (cached [salary; rent])))) dollar)
  = income (financialSummary JS.en_US
              (transactions (cached [salary; rent])) dollar) /\
  income (financialSummary JS.en_US
            (transactions (final (deleteTransaction "tx-2"
                                    (session (answering []) JS.en_US)
                                    (cached [salary; rent])))) dollar)
  = income (financialSummary JS.en_US
              (transactions (cached [salary; rent])) dollar).
Proof.
  destruct (other_kind_total_untouched JS.en_US dollar
              (session (answering [lunchRow]) JS.en_US)
              (cached [salary; rent]) alice eq_refl) as [Hadd _].
  destruct (other_kind_total_untouched JS.en_US dollar
              (session (answering []) JS.en_US)
              (cached [salary; rent]) alice eq_refl) as [_ Hdel].
  split.
  - apply (Hadd lunch lunchRow); [exists []; reflexivity | reflexivity..].
  - apply (Hdel "tx-2"); [eexists; split; reflexivity | reflexivity |].
    intros t [<-|[<-|[]]] Hid; [discriminate | reflexivity].
Defined.

(** X18: the totals depend on the order of the cache.  Binary64 addition
    is not associative and the sum runs in cache order, so two caches with
    the same entries can have different [income] and [balance]: incomes of
    0.1, 0.2 and 0.3 sum to 0.6000000000000001 in that order and to 0.6 in
    the reverse order. *)
Theorem totals_depend_on_order (L : JS.Locale) (X : Currency) :
  Permutation [tenth 1 "a"; tenth 2 "b"; tenth 3 "c"]
    [tenth 3 "c"; tenth 2 "b"; tenth 1 "a"] /\
  PrimFloat.eqb
    (income (financialSummary L [tenth 1 "a"; tenth 2 "b"; tenth 3 "c"] X))
    (income (financialSummary L [tenth 3 "c"; tenth 2 "b"; tenth 1 "a"] X))
  = false /\
  PrimFloat.eqb
    (balance (financialSummary L [tenth 1 "a"; tenth 2 "b"; tenth 3 "c"] X))
    (balance (financialSummary L [tenth 3 "c"; tenth 2 "b"; tenth 1 "a"] X))
  = false /\
  ~ (forall c c',
        Permutation c c' ->
        income (financialSummary L c X) = income (financialSummary L c' X)).
Proof.
  assert (Hperm : Permutation [tenth 1 "a"; tenth 2 "b"; tenth 3 "c"]
                    [tenth 3 "c"; tenth 2 "b"; tenth 1 "a"]).
  { change [tenth 3 "c"; tenth 2 "b"; tenth 1 "a"]
      with (rev [tenth 1 "a"; tenth 2 "b"; tenth 3 "c"]).
    apply Permutation_rev. }
  assert (Hne : PrimFloat.eqb
                  (income (financialSummary L
                             [tenth 1 "a"; tenth 2 "b"; tenth 3 "c"] X))
                  (income (financialSummary L
                             [tenth 3 "c"; tenth 2 "b"; tenth 1 "a"] X))
                = false) by (vm_compute; reflexivity).
  split; [exact Hperm|]. split; [exact Hne|].
  split; [vm_compute; reflexivity|].
  intro Hall. rewrite (Hall _ _ Hperm) in Hne.
  vm_compute in Hne. discriminate.
Qed.

(** X19: on an empty cache (the state before the first fetch returns) the
    three totals are zero and each formatted total is the symbol followed
    by a zero, the locale's decimal separator and two zeros, for every
    locale that does not group a single digit. *)
Theorem empty_cache_summary (L : JS.Locale) (X : Currency) :
  (2 <= JS.primaryGroupSize L + JS.minimumGroupingDigits L)%nat ->
  financialSummary L [] X
  = {| income := 0%float; expenses := 0%float; balance := 0%float;
       formattedIncome := symbol X ++ "0" ++ JS.decimalSeparator L ++ "00";
       formattedExpenses := symbol X ++ "0" ++ JS.decimalSeparator L ++ "00";
       formattedBalance := symbol X ++ "0" ++ JS.decimalSeparator L ++ "00" |}.
Proof.
  intro HL.
  assert (Hzero : JS.toLocaleString2 L 0%float
                  = "0" ++ JS.decimalSeparator L ++ "00").
  { unfold JS.toLocaleString2.
    change (Prim2SF 0%float) with (S754_zero false).
    unfold JS.fixed2, JS.groupDigits, JS.signString. simpl.
    destruct (JS.primaryGroupSize L + JS.minimumGroupingDigits L <=? 1)%nat
      eqn:E; [apply Nat.leb_le in E; lia | reflexivity]. }
  unfold financialSummary. simpl fold_left.
  change (0 - 0)%float with 0%float.
  rewrite Hzero. reflexivity.
Qed.

Lemma empty_cache_summary_witness :
  financialSummary JS.de_DE [] dollar
  = {| income := 0%float; expenses := 0%float; balance := 0%float;
       formattedIncome := "$0,00"; formattedExpenses := "$0,00";
       formattedBalance := "$0,00" |}.
Proof.
  apply (empty_cache_summary JS.de_DE dollar). simpl. lia.
Defined.

Lemma Day_before_midnight (D o : Z) :
  0 < o <= 1440 ->
  JS.Day (D * JS.msPerDay - o * 60000) = JS.Day ((D - 1) * JS.msPerDay).
Proof.
  intro Ho. unfold JS.Day, JS.msPerDay.
  rewrite Z.div_mul by lia.
  symmetry. apply Z.div_unique with (r := 86400000 - o * 60000); lia.
Qed.

(** X20: a bound of the date range reaches the store as its UTC calendar
    date only.  Two valid dates within the same UTC day give the same
    bound, and an instant up to 24 hours before UTC midnight of a day (the
    local midnight of a zone ahead of UTC by [o] minutes) is sent as the
    day before. *)
Theorem bounds_truncate_to_utc_day (D o : Z) (env : Env) (s : State) :
  0 < o <= 1440 ->
  - JS.maxTimeValue <= D * JS.msPerDay - o * 60000 <= JS.maxTimeValue ->
  - JS.maxTimeValue <= (D - 1) * JS.msPerDay <= JS.maxTimeValue ->
  (forall t t',
      - JS.maxTimeValue <= t <= JS.maxTimeValue ->
      - JS.maxTimeValue <= t' <= JS.maxTimeValue ->
      JS.Day t = JS.Day t' ->
      datePortion (JS.TimeValue t) env s = datePortion (JS.TimeValue t') env s) /\
  datePortion (JS.TimeValue (D * JS.msPerDay - o * 60000)) env s
  = datePortion (JS.TimeValue ((D - 1) * JS.msPerDay)) env s /\
  result (datePortion (JS.TimeValue (D * JS.msPerDay - o * 60000)) env s)
  = Normal (utcDate ((D - 1) * JS.msPerDay)).
Proof.
  intros Ho Hlocal Hutc.
  assert (Hsame : forall t t',
             - JS.maxTimeValue <= t <= JS.maxTimeValue ->
             - JS.maxTimeValue <= t' <= JS.maxTimeValue ->
             JS.Day t = JS.Day t' ->
             datePortion (JS.TimeValue t) env s
             = datePortion (JS.TimeValue t') env s).
  { intros t t' Ht Ht' Hday.
    rewrite (datePortion_valid t env s Ht), (datePortion_valid t' env s Ht').
    unfold utcDate. now rewrite Hday. }
  split; [exact Hsame|].
  assert (Heq := Hsame _ _ Hlocal Hutc (Day_before_midnight D o Ho)).
  split; [exact Heq|].
  rewrite Heq, (datePortion_valid _ env s Hutc). reflexivity.
Qed.

(** Midnight of 5 January 2024 in a zone five and a half hours ahead of
    UTC is sent as 4 January. *)
Lemma bounds_truncate_witness :
  (forall t t',
      - JS.maxTimeValue <= t <= JS.maxTimeValue ->
      - JS.maxTimeValue <= t' <= JS.maxTimeValue ->
      JS.Day t = JS.Day t' ->
      datePortion (JS.TimeValue t) (session refusing JS.en_US) initialState
      = datePortion (JS.TimeValue t') (session refusing JS.en_US)
          initialState) /\
  datePortion (JS.TimeValue (19727 * JS.msPerDay - 330 * 60000))
    (session refusing JS.en_US) initialState
  = datePortion (JS.TimeValue ((19727 - 1) * JS.msPerDay))
      (session refusing JS.en_US) initialState /\
  result (datePortion (JS.TimeValue (19727 * JS.msPerDay - 330 * 60000))
            (session refusing JS.en_US) initialState)
  = Normal "2024-01-04".
Proof.
  apply (bounds_truncate_to_utc_day 19727 330 (session refusing JS.en_US)
           initialState); unfold JS.maxTimeValue, JS.msPerDay; lia.
Defined.

(** X21: selecting a date range re-fetches under the new range, whatever
    range was set before: the state holds the new range, the one request
    is the query bounded by it and, when the store answers without error,
    the cache is replaced by the rows of the answer. *)
Theorem date_range_selection_refetches (r : DateRange) (env : Env)
  (s : State) (u : Auth.User) (answer : Supabase.response) :
  user env = Some u ->
  usableBound (start r) ->
  usableBound (end_ r) ->
  remote env (Supabase.Select (fetchQuery r)) = Supabase.Resolved answer ->
  Supabase.error answer = None ->
  result (selectDateRange r env s) = Normal tt /\
  dateRange (final (selectDateRange r env s)) = r /\
  trace (selectDateRange r env s) = [Request (Supabase.Select (fetchQuery r))] /\
  transactions (final (selectDateRange r env s))
  = map (fun row => withDisplayAmount row (amount row)) (rowsOf answer) /\
  loading (final (selectDateRange r env s)) = false.
Proof.
  intros Hu Hs He Hr Herr.
  rewrite selectDateRange_fetch.
  rewrite (fetchTransactions_usable env (withDateRange s r) u Hu Hs He).
  simpl dateRange. rewrite Hr, Herr. repeat split.
Qed.

Lemma date_range_selection_witness :
  result (selectDateRange firstWeek (session (answering [salary; rent]) JS.en_US)
            (cached [lunchRow])) = Normal tt /\
  dateRange (final (selectDateRange firstWeek
                      (session (answering [salary; rent]) JS.en_US)
                      (cached [lunchRow]))) = firstWeek /\
  trace (selectDateRange firstWeek
           (session (answering [salary; rent]) JS.en_US) (cached [lunchRow]))
  = [Request (Supabase.Select (fetchQuery firstWeek))] /\
  transactions (final (selectDateRange firstWeek
                         (session (answering [salary; rent]) JS.en_US)
                         (cached [lunchRow])))
  = [withDisplayAmount salary 100%float; withDisplayAmount rent 40%float] /\
  loading (final (selectDateRange firstWeek
                    (session (answering [salary; rent]) JS.en_US)
                    (cached [lunchRow]))) = false.
Proof.
  apply (date_range_selection_refetches firstWeek
           (session (answering [salary; rent]) JS.en_US) (cached [lunchRow])
           alice
           {| Supabase.data := Some [salary; rent]; Supabase.error := None |}).
  - reflexivity.
  - simpl; unfold JS.maxTimeValue; lia.
  - simpl; unfold JS.maxTimeValue; lia.
  - reflexivity.
  - reflexivity.
Defined.
